(** * GBU Sports Portal backend: a shallow embedding of [main.py] and
    [schemas.py], and the properties of its request handlers.

    Layout:
    - [Py]: the built-ins the handlers call ([str], [repr] of a float,
      [hashlib.sha256], [datetime]);
    - [Bson], [value], [Mongo]: identifiers, the values a document holds,
      filters and the pymongo calls on a collection;
    - the running process: the state a handler reads and changes, the
      clock, exceptions, and the monad the handlers are written in;
    - the pydantic models of [schemas.py];
    - the persistence gateway of [database.py], modelled from the
      specification (the file itself is not among the sources);
    - the handlers of [main.py], statement by statement, the diagnostic
      route and the seeding route included;
    - the vocabulary of the properties, then the properties: first those
      of the specification (C1 to C10), then further ones read off the
      code (X1 to X22).

    A handler is a function from the state of the process to an outcome
    (a returned body or a raised exception) and the next state.  Request
    bodies are taken after FastAPI has parsed them (an email is a
    well-formed address, a float is a float).  A collection is the list
    of its documents in storage order, holding the Python values as they
    were written.  A [str] is held as its UTF-8 bytes. *)

From Stdlib Require Import ZArith NArith List String Ascii Lia.
From Stdlib Require Import SpecFloat.
From stdpp Require Import base tactics option list gmap strings fin_maps.

Local Open Scope string_scope.
Local Open Scope Z_scope.
Local Open Scope list_scope.

(* ===================================================================== *)
(** ** Python built-ins *)
(* ===================================================================== *)

Module Py.

(** *** Text rendering of numbers *)

Definition digit_char (d : Z) : ascii :=
  ascii_of_N (Z.to_N (if d <? 10 then 48 + d else 87 + d)).

(** [width] digits of [n] in base [base], most significant first
    (zero padded; higher digits are dropped). *)
Fixpoint fixed_digits (base : Z) (width : nat) (n : Z) (acc : string) : string :=
  match width with
  | O => acc
  | S k => fixed_digits base k (n / base) (String (digit_char (n mod base)) acc)
  end.

Definition dec_pad (width : nat) (n : Z) : string := fixed_digits 10 width n EmptyString.
Definition hex_pad (width : nat) (n : Z) : string := fixed_digits 16 width n EmptyString.

(** Number of decimal digits of [n >= 0] (at least one). *)
Definition dec_width (n : Z) : nat := Z.to_nat (Z.log2 n / 3 + 1).

Fixpoint strip_zeros (s : string) : string :=
  match s with
  | String c rest =>
      if (Ascii.eqb c "0" && negb (String.eqb rest EmptyString))%bool
      then strip_zeros rest else s
  | EmptyString => s
  end.

(** [str(n)] for a Python [int]. *)
Definition int_str (n : Z) : string :=
  let body := strip_zeros (dec_pad (dec_width (Z.abs n)) (Z.abs n)) in
  if n <? 0 then String "-" body else body.

(** *** Slices of a [str]

    In the UTF-8 bytes of a text, a character starts at every byte that
    is not a continuation byte (10xxxxxx). *)
Definition continuation (c : ascii) : bool :=
  ((128 <=? N_of_ascii c) && (N_of_ascii c <? 192))%N.

(** [s[:n]]: the first [n] characters. *)
Fixpoint str_take (n : nat) (s : string) : string :=
  match s with
  | EmptyString => EmptyString
  | String c rest =>
      if continuation c then String c (str_take n rest)
      else
        match n with
        | O => EmptyString
        | S k => String c (str_take k rest)
        end
  end.

(** [len(s)]: the number of characters. *)
Fixpoint str_len (s : string) : nat :=
  match s with
  | EmptyString => O
  | String c rest => if continuation c then str_len rest else S (str_len rest)
  end.

(** *** [hashlib.sha256(data).hexdigest()] (FIPS 180-4) *)

Module SHA256.

Definition mask32 (x : Z) : Z := Z.land x 4294967295.
Definition add32 (x y : Z) : Z := mask32 (x + y).
Definition rotr (n x : Z) : Z := Z.lor (Z.shiftr x n) (mask32 (Z.shiftl x (32 - n))).

Definition Ch (x y z : Z) : Z := Z.lxor (Z.land x y) (Z.land (mask32 (Z.lnot x)) z).
Definition Maj (x y z : Z) : Z := Z.lxor (Z.lxor (Z.land x y) (Z.land x z)) (Z.land y z).
Definition Sigma0 (x : Z) : Z := Z.lxor (Z.lxor (rotr 2 x) (rotr 13 x)) (rotr 22 x).
Definition Sigma1 (x : Z) : Z := Z.lxor (Z.lxor (rotr 6 x) (rotr 11 x)) (rotr 25 x).
Definition sigma0 (x : Z) : Z := Z.lxor (Z.lxor (rotr 7 x) (rotr 18 x)) (Z.shiftr x 3).
Definition sigma1 (x : Z) : Z := Z.lxor (Z.lxor (rotr 17 x) (rotr 19 x)) (Z.shiftr x 10).

(** The round constants are the first 32 fractional bits of the cube roots
    of the first 64 primes; the initial state, those of the square roots of
    the first 8 primes. *)
Fixpoint cbrt_bits (bits : nat) (x r : Z) : Z :=
  match bits with
  | O => r
  | S k =>
      let c := Z.lor r (Z.shiftl 1 (Z.of_nat k)) in
      cbrt_bits k x (if c * c * c <=? x then c else r)
  end.

Definition primes64 : list Z :=
  [2; 3; 5; 7; 11; 13; 17; 19; 23; 29; 31; 37; 41; 43; 47; 53;
   59; 61; 67; 71; 73; 79; 83; 89; 97; 101; 103; 107; 109; 113; 127; 131;
   137; 139; 149; 151; 157; 163; 167; 173; 179; 181; 191; 193; 197; 199; 211; 223;
   227; 229; 233; 239; 241; 251; 257; 263; 269; 271; 277; 281; 283; 293; 307; 311].

Definition K : list Z :=
  Eval vm_compute in map (fun p => mask32 (cbrt_bits 36 (Z.shiftl p 96) 0)) primes64.

Definition H0 : list Z :=
  Eval vm_compute in map (fun p => mask32 (Z.sqrt (Z.shiftl p 64))) (take 8 primes64).

Definition bytes_of (s : string) : list Z :=
  map (fun c => Z.of_N (N_of_ascii c)) (list_ascii_of_string s).

(** Big-endian bytes of [n], [width] of them. *)
Fixpoint be_bytes (width : nat) (n : Z) (acc : list Z) : list Z :=
  match width with
  | O => acc
  | S k => be_bytes k (Z.shiftr n 8) (Z.land n 255 :: acc)
  end.

Definition pad (msg : list Z) : list Z :=
  let len := Z.of_nat (length msg) in
  let zeros := Z.to_nat ((55 - len) mod 64) in
  msg ++ 128 :: repeat 0 zeros ++ be_bytes 8 (8 * len) [].

Fixpoint words_of (n : nat) (bs : list Z) : list Z :=
  match n, bs with
  | S k, b0 :: b1 :: b2 :: b3 :: rest =>
      (Z.shiftl b0 24 + Z.shiftl b1 16 + Z.shiftl b2 8 + b3) :: words_of k rest
  | _, _ => []
  end.

(** The message schedule, most recent word first: [sched] holds
    W(t-1), W(t-2), ... *)
Fixpoint schedule (n : nat) (sched : list Z) : list Z :=
  match n with
  | O => sched
  | S k =>
      match sched with
      | w1 :: w2 :: _ =>
          let w7 := nth 6 sched 0 in
          let w15 := nth 14 sched 0 in
          let w16 := nth 15 sched 0 in
          schedule k (add32 (add32 (sigma1 w2) w7) (add32 (sigma0 w15) w16) :: sched)
      | _ => sched
      end
  end.

Definition round (st : list Z) (kw : Z * Z) : list Z :=
  match st with
  | [a; b; c; d; e; f; g; h] =>
      let t1 := add32 (add32 (add32 h (Sigma1 e)) (add32 (Ch e f g) kw.1)) kw.2 in
      let t2 := add32 (Sigma0 a) (Maj a b c) in
      [add32 t1 t2; a; b; c; add32 d t1; e; f; g]
  | _ => st
  end.

Definition compress (st : list Z) (block : list Z) : list Z :=
  let w := rev (schedule 48 (rev (words_of 16 block))) in
  zip_with add32 st (fold_left round (zip K w) st).

Fixpoint blocks (n : nat) (st : list Z) (bs : list Z) : list Z :=
  match n with
  | O => st
  | S k => blocks k (compress st (take 64 bs)) (drop 64 bs)
  end.

Definition digest (msg : list Z) : list Z :=
  let p := pad msg in
  blocks (length p / 64) H0 p.

Definition hexdigest (data : string) : string :=
  fold_right (fun w acc => hex_pad 8 w +:+ acc) EmptyString (digest (bytes_of data)).

End SHA256.

(** *** [float] and [repr(float)]

    A Python float is an IEEE 754 binary64 value, here a [spec_float]
    with 53 bits of precision.  [repr] prints the shortest decimal that
    reads back as the same float, in positional notation when the decimal
    point falls within the digits' neighbourhood and in exponent notation
    otherwise. *)

Module Float.

Definition of_Z (n : Z) : spec_float := binary_normalize 53 1024 n 0 false.

(** [a * 10^q <= b] and [a * 10^q < b] on integers, [q] of either sign. *)
Definition scaled_le (a q b : Z) : bool :=
  if 0 <=? q then a * 10 ^ q <=? b else a <=? b * 10 ^ (- q).
Definition scaled_lt (a q b : Z) : bool :=
  if 0 <=? q then a * 10 ^ q <? b else a <? b * 10 ^ (- q).

(** The value is [num / den]; the floats that round to it are those
    between [lo / den] and [hi / den] (bounds included when the mantissa is
    even). *)
Record interval := { num : Z; lo : Z; hi : Z; den : Z; closed : bool }.

Definition interval_of (m : positive) (e : Z) : interval :=
  let m := Z.pos m in
  let below := if (m =? 2 ^ 52) && (-1074 <? e) then 1 else 2 in
  let unit := 2 ^ (Z.max 0 (e - 2)) in
  {| num := 4 * m * unit; lo := (4 * m - below) * unit; hi := (4 * m + 2) * unit;
     den := 2 ^ (Z.max 0 (2 - e)); closed := Z.even m |}.

Definition inside (i : interval) (d q : Z) : bool :=
  if closed i
  then negb (scaled_lt (d * den i) q (lo i)) && scaled_le (d * den i) q (hi i)
  else negb (scaled_le (d * den i) q (lo i)) && scaled_lt (d * den i) q (hi i).

(** Largest [p] with [10^p <= num/den], searched upwards from an
    under-estimate. *)
Fixpoint log10_from (fuel : nat) (i : interval) (p : Z) : Z :=
  match fuel with
  | O => p
  | S k => if scaled_le (den i) (p + 1) (num i) then log10_from k i (p + 1) else p
  end.

Definition floor_log10 (i : interval) : Z :=
  log10_from 4 i ((Z.log2 (num i) - Z.log2 (den i) - 1) * 30102 / 100000 - 1).

(** The multiple of [10^q] nearest the value, by distance doubled. *)
Definition nearest (i : interval) (q : Z) : Z * Z :=
  let d := if 0 <=? q then num i / (den i * 10 ^ q) else num i * 10 ^ (- q) / den i in
  (d, d + 1).

Definition closer_low (i : interval) (d q : Z) : bool :=
  (* d*10^q and (d+1)*10^q straddle the value: is the lower one nearer
     (or as near, with an even last digit)? *)
  if scaled_lt ((2 * d + 1) * den i) q (2 * num i) then false
  else if scaled_le ((2 * d + 1) * den i) q (2 * num i) then Z.even d
  else true.

Fixpoint shortest (k : nat) (i : interval) (q : Z) : Z * Z :=
  let '(d, d') := nearest i q in
  let pick :=
    match inside i d q, inside i d' q with
    | true, true => Some (if closer_low i d q then d else d')
    | true, false => Some d
    | false, true => Some d'
    | false, false => None
    end in
  match pick, k with
  | Some c, _ => (c, q)
  | None, S k' => shortest k' i (q - 1)
  | None, O => (d, q)
  end.

Fixpoint drop_zeros (fuel : nat) (d q : Z) : Z * Z :=
  match fuel with
  | S k => if (d mod 10 =? 0) && (0 <? d) then drop_zeros k (d / 10) (q + 1) else (d, q)
  | O => (d, q)
  end.

Definition zeros (n : Z) : string :=
  string_of_list_ascii (repeat "0"%char (Z.to_nat n)).

Definition take_str (n : Z) (s : string) : string := substring 0 (Z.to_nat n) s.
Definition drop_str (n : Z) (s : string) : string :=
  substring (Z.to_nat n) (String.length s - Z.to_nat n) s.

Definition exponent_str (x : Z) : string :=
  (if x <? 0 then "-" else "+") +:+
  (if Z.abs x <? 10 then "0" else EmptyString) +:+ int_str (Z.abs x).

Definition repr_pos (m : positive) (e : Z) : string :=
  let i := interval_of m e in
  let '(d, q) := shortest 17 i (floor_log10 i) in
  let '(d, q) := drop_zeros 20 d q in
  let digits := int_str d in
  let n := Z.of_nat (String.length digits) in
  let decpt := q + n in
  if (decpt <=? -4) || (16 <? decpt) then
    take_str 1 digits +:+
    (if 1 <? n then "." +:+ drop_str 1 digits else EmptyString) +:+
    "e" +:+ exponent_str (decpt - 1)
  else if decpt <=? 0 then "0." +:+ zeros (- decpt) +:+ digits
  else if n <=? decpt then digits +:+ zeros (decpt - n) +:+ ".0"
  else take_str decpt digits +:+ "." +:+ drop_str decpt digits.

Definition repr (f : spec_float) : string :=
  match f with
  | S754_zero s => if s then "-0.0" else "0.0"
  | S754_infinity s => if s then "-inf" else "inf"
  | S754_nan => "nan"
  | S754_finite s m e => (if s then "-" else EmptyString) +:+ repr_pos m e
  end.

(** [bool(x)]: every float but the two zeros is true. *)
Definition truthy (f : spec_float) : bool :=
  match f with S754_zero _ => false | _ => true end.

End Float.

(** *** [datetime]

    A datetime is a reading of a clock face, counted in microseconds from
    1970-01-01T00:00:00 on that face, with the face's offset from UTC in
    minutes when the value is timezone-aware.  The calendar is unbounded
    here (Python stops at year 9999). *)

Module DateTime.

Record datetime := mk { wall : Z; utcoffset : option Z }.

(** [datetime.now(timezone.utc)] when the system clock reads [t]
    microseconds since the epoch. *)
Definition now_utc (t : Z) : datetime := {| wall := t; utcoffset := Some 0 |}.

(** [datetime.utcfromtimestamp(s)]: naive, [s] seconds after the epoch. *)
Definition utcfromtimestamp (s : Z) : datetime :=
  {| wall := s * 1000000; utcoffset := None |}.

(** [int(datetime.now().timestamp())] at the same reading. *)
Definition timestamp_int (t : Z) : Z := Z.quot t 1000000.

(** The point on the UTC time line (a naive value counts as UTC). *)
Definition instant (d : datetime) : Z := wall d - 60000000 * default 0 (utcoffset d).

Definition timedelta := Z.
Definition timedelta_days (days : Z) : timedelta := days * 86400000000.

(** [d + delta] keeps the timezone. *)
Definition add (d : datetime) (delta : timedelta) : datetime :=
  {| wall := wall d + delta; utcoffset := utcoffset d |}.

(** [a - b], for two values that are both aware or both naive. *)
Definition sub (a b : datetime) : timedelta := instant a - instant b.

(** Year, month and day of the day numbered [z] from 1970-01-01
    (proleptic Gregorian calendar, years counted from March). *)
Definition civil (z : Z) : Z * Z * Z :=
  let z := z + 719468 in
  let era := z / 146097 in
  let doe := z - era * 146097 in
  let yoe := (doe - doe / 1460 + doe / 36524 - doe / 146096) / 365 in
  let doy := doe - (365 * yoe + yoe / 4 - yoe / 100) in
  let mp := (5 * doy + 2) / 153 in
  let d := doy - (153 * mp + 2) / 5 + 1 in
  let m := if mp <? 10 then mp + 3 else mp - 9 in
  (yoe + era * 400 + (if m <=? 2 then 1 else 0), m, d).

Definition offset_str (o : option Z) : string :=
  match o with
  | None => EmptyString
  | Some minutes =>
      (if minutes <? 0 then "-" else "+") +:+
      dec_pad 2 (Z.abs minutes / 60) +:+ ":" +:+ dec_pad 2 (Z.abs minutes mod 60)
  end.

(** [d.isoformat(sep)]: the fraction is printed only when it is not zero. *)
Definition isoformat_sep (sep : string) (d : datetime) : string :=
  let '(y, m, dd) := civil (wall d / 86400000000) in
  let us := wall d mod 86400000000 in
  let secs := us / 1000000 in
  dec_pad 4 y +:+ "-" +:+ dec_pad 2 m +:+ "-" +:+ dec_pad 2 dd +:+ sep +:+
  dec_pad 2 (secs / 3600) +:+ ":" +:+ dec_pad 2 (secs / 60 mod 60) +:+ ":" +:+
  dec_pad 2 (secs mod 60) +:+
  (if us mod 1000000 =? 0 then EmptyString else "." +:+ dec_pad 6 (us mod 1000000)) +:+
  offset_str (utcoffset d).

Definition isoformat : datetime -> string := isoformat_sep "T".

(** [str(d)] *)
Definition str : datetime -> string := isoformat_sep " ".

(** [d.hour] *)
Definition hour (d : datetime) : Z := wall d mod 86400000000 / 3600000000.

(** [d.replace(hour=h)] for [h] in [range(24)]: the same day, minute,
    second and timezone (any other [h] is a [ValueError] in Python). *)
Definition replace_hour (d : datetime) (h : Z) : datetime :=
  {| wall := wall d + (h - hour d) * 3600000000; utcoffset := utcoffset d |}.

End DateTime.

End Py.

(* ===================================================================== *)
(** ** BSON values and documents *)
(* ===================================================================== *)

Module Bson.

(** An [ObjectId] is a 12-byte identifier, here the number its bytes spell
    in big-endian order. *)
Definition ObjectId := N.

(** [str(oid)]: 24 lowercase hexadecimal digits. *)
Definition ObjectId_str (o : ObjectId) : string := Py.hex_pad 24 (Z.of_N o).

Definition hex_value (c : ascii) : option Z :=
  let n := Z.of_N (N_of_ascii c) in
  if (48 <=? n) && (n <=? 57) then Some (n - 48)
  else if (97 <=? n) && (n <=? 102) then Some (n - 87)
  else if (65 <=? n) && (n <=? 70) then Some (n - 55)
  else None.

Fixpoint parse_hex (s : string) (acc : Z) : option Z :=
  match s with
  | EmptyString => Some acc
  | String c rest =>
      match hex_value c with
      | Some d => parse_hex rest (16 * acc + d)
      | None => None
      end
  end.

(** [ObjectId(text)] for a string: a value for 24 hexadecimal digits,
    [InvalidId] ([None]) for anything else. *)
Definition ObjectId_of_str (text : string) : option ObjectId :=
  if Nat.eqb (String.length text) 24 then Z.to_N <$> parse_hex text 0 else None.

End Bson.

Export Py.DateTime (datetime).
Export Bson (ObjectId).

(** The values a field of a stored record or of a response holds. *)
Inductive value :=
  | VNone
  | VBool (b : bool)
  | VStr (s : string)
  | VFloat (f : spec_float)
  | VDate (t : datetime)
  | VOid (o : ObjectId).

#[global] Instance spec_float_eq_dec : EqDecision spec_float.
Proof. solve_decision. Defined.
#[global] Instance datetime_eq_dec : EqDecision datetime.
Proof. solve_decision. Defined.
#[global] Instance value_eq_dec : EqDecision value.
Proof. solve_decision. Defined.

(** [bool(v)] *)
Definition py_truthy (v : value) : bool :=
  match v with
  | VNone => false
  | VBool b => b
  | VStr s => negb (String.eqb s EmptyString)
  | VFloat f => Py.Float.truthy f
  | VDate _ => true
  | VOid _ => true
  end.

(** [str(v)] *)
Definition py_str (v : value) : string :=
  match v with
  | VNone => "None"
  | VBool b => if b then "True" else "False"
  | VStr s => s
  | VFloat f => Py.Float.repr f
  | VDate t => Py.DateTime.str t
  | VOid o => Bson.ObjectId_str o
  end.

(** A Python [dict] with string keys: a stored document, a filter's
    operand, a response body. *)
Abbreviation Doc := (gmap string value).

(** [bool(doc)] for a [dict] or [None]: only a non-empty dict is true. *)
Definition doc_truthy (doc : option Doc) : bool :=
  match doc with
  | Some d => bool_decide (d ≠ ∅)
  | None => false
  end.

(* ===================================================================== *)
(** ** pymongo: filters and the calls on one collection *)
(* ===================================================================== *)

Module Mongo.

(** The operand of a filter on one field: [{field: v}] or
    [{field: {"$in": [v1, ...]}}]. *)
Inductive cond :=
  | Is (v : value)
  | In_ (vs : list value).

Abbreviation Filter := (gmap string cond).

Definition is_nan (f : spec_float) : bool :=
  match f with S754_nan => true | _ => false end.

(** Equality of two field values as a query sees it: numbers compare by
    value (the two zeros are equal, NaN equals itself). *)
Definition bson_eqb (x y : value) : bool :=
  match x, y with
  | VFloat f, VFloat g =>
      match SFcompare f g with
      | Some Eq => true
      | Some _ => false
      | None => is_nan f && is_nan g
      end
  | _, _ => bool_decide (x = y)
  end.

(** The order a sort uses: by type first (null, numbers, strings, object
    ids, booleans, dates), then by value. *)
Definition bson_rank (v : value) : Z :=
  match v with
  | VNone => 1 | VFloat _ => 2 | VStr _ => 3 | VOid _ => 7 | VBool _ => 8 | VDate _ => 9
  end.

Definition bson_ltb (x y : value) : bool :=
  match x, y with
  | VFloat f, VFloat g =>
      match SFcompare f g with
      | Some Lt => true
      | Some _ => false
      | None => is_nan f && negb (is_nan g)
      end
  | VStr a, VStr b => String.ltb a b
  | VOid a, VOid b => N.ltb a b
  | VBool a, VBool b => negb a && b
  | VDate a, VDate b => Py.DateTime.instant a <? Py.DateTime.instant b
  | _, _ => bson_rank x <? bson_rank y
  end.

(** A missing field reads as null. *)
Definition field (d : Doc) (k : string) : value := default VNone (d !! k).

Definition cond_holds (c : cond) (x : value) : bool :=
  match c with
  | Is v => bson_eqb x v
  | In_ vs => existsb (bson_eqb x) vs
  end.

Definition matches (filt : Filter) (d : Doc) : bool :=
  forallb (fun kc => cond_holds kc.2 (field d kc.1)) (map_to_list filt).

(** [find_one(filt)]: the first match in storage order. *)
Definition find_one (filt : Filter) (docs : list Doc) : option Doc :=
  find (matches filt) docs.

(** [find_one(filt, sort=[(key, -1)])]: the match with the greatest
    [key]; among equals, the first in storage order. *)
Definition keep_greater (filt : Filter) (key : string) (best : option Doc) (d : Doc)
  : option Doc :=
  if matches filt d then
    match best with
    | Some b => if bson_ltb (field b key) (field d key) then Some d else Some b
    | None => Some d
    end
  else best.

Definition find_one_desc (filt : Filter) (key : string) (docs : list Doc) : option Doc :=
  fold_left (keep_greater filt key) docs None.

(** [find(filt).limit(n)] *)
Definition find_many (filt : Filter) (limit : nat) (docs : list Doc) : list Doc :=
  take limit (filter (fun d => matches filt d = true) docs).

(** [update_one(filt, {"$set": fields})]: the first match takes the new
    fields, its other fields stay; no match, no change. *)
Fixpoint update_one (filt : Filter) (fields : Doc) (docs : list Doc) : list Doc :=
  match docs with
  | [] => []
  | d :: rest =>
      if matches filt d then (fields ∪ d) :: rest
      else d :: update_one filt fields rest
  end.

(** [insert_one(doc)]: the document gets the generated [_id] and goes
    last. *)
Definition insert_one (oid : ObjectId) (doc : Doc) (docs : list Doc) : list Doc :=
  docs ++ [<["_id" := VOid oid]> doc].

End Mongo.

Export Mongo (cond, Is, In_).
Abbreviation Database := (gmap string (list Doc)).

(* ===================================================================== *)
(** ** The running process: state, clock, exceptions *)
(* ===================================================================== *)

Inductive exn :=
  | HTTPException (status_code : Z) (detail : string)
  | ValidationError (model : string)
  | KeyError (key : string).

Inductive outcome (A : Type) :=
  | Return (a : A)
  | Raise (e : exn).
Arguments Return {A} a.
Arguments Raise {A} e.

(** The status line the framework answers with: an exception that is
    not an [HTTPException] becomes an internal server error. *)
Definition http_status {A} (o : outcome A) : Z :=
  match o with
  | Return _ => 200
  | Raise (HTTPException code _) => code
  | Raise _ => 500
  end.

(** What a handler can read and change: the environment variables, the
    database connection ([None] when it was never configured) with its
    collections in storage order, the system clock as the readings it
    will give one after the other (microseconds since the epoch), and the
    next identifier the driver generates. *)
Record World := mkWorld {
  environ : gmap string string;
  db : option Database;
  clock : nat -> Z;
  ticks : nat;
  next_oid : ObjectId
}.

Definition M (A : Type) : Type := World -> outcome A * World.

Definition ret {A} (a : A) : M A := fun w => (Return a, w).
Definition raise {A} (e : exn) : M A := fun w => (Raise e, w).
Definition bind {A B} (c : M A) (k : A -> M B) : M B :=
  fun w =>
    match c w with
    | (Return a, w') => k a w'
    | (Raise e, w') => (Raise e, w')
    end.

(** Reading a global of the process. *)
Definition gets {A} (f : World -> A) : M A := fun w => (Return (f w), w).

Notation "'let*' x ':=' c 'in' k" := (bind c (fun x => k))
  (at level 10, x name, c at level 100, k at level 200).

(** One reading of the system clock. *)
Definition tick (w : World) : World :=
  {| environ := environ w; db := db w; clock := clock w;
     ticks := S (ticks w); next_oid := next_oid w |}.

Definition clock_read : M Z := fun w => (Return (clock w (ticks w)), tick w).

(** [os.getenv(name, fallback)] *)
Definition os_getenv (name fallback : string) (w : World) : string :=
  default fallback (environ w !! name).

Definition docs_of (w : World) (name : string) : list Doc :=
  match db w with
  | Some store => default [] (store !! name)
  | None => []
  end.

Definition set_docs (name : string) (docs : list Doc) (w : World) : World :=
  {| environ := environ w;
     db := (fun store => <[name := docs]> store) <$> db w;
     clock := clock w; ticks := ticks w; next_oid := next_oid w |}.

(** The calls the handlers make on a collection handle (its name). *)
Definition Collection := string.

Definition find_one (c : Collection) (filt : Mongo.Filter) : M (option Doc) :=
  fun w => (Return (Mongo.find_one filt (docs_of w c)), w).

Definition find_one_desc (c : Collection) (filt : Mongo.Filter) (key : string)
  : M (option Doc) :=
  fun w => (Return (Mongo.find_one_desc filt key (docs_of w c)), w).

(** An update of a collection without documents writes nothing (and
    does not create the collection). *)
Definition update_one (c : Collection) (filt : Mongo.Filter) (fields : Doc) : M unit :=
  fun w =>
    (Return tt,
     match docs_of w c with
     | [] => w
     | docs => set_docs c (Mongo.update_one filt fields docs) w
     end).

(* ===================================================================== *)
(** ** schemas.py: the pydantic models of the four collections *)
(* ===================================================================== *)

(** [Literal[...]]: the field must be one of the listed strings. *)
Definition literal (allowed : list string) (s : string) : bool :=
  bool_decide (s ∈ allowed).

Definition opt_str (o : option string) : value :=
  match o with Some s => VStr s | None => VNone end.

Definition opt_date (o : option datetime) : value :=
  match o with Some t => VDate t | None => VNone end.

(** Building a model validates it: a field outside its constraints raises
    pydantic's [ValidationError]. *)
Definition construct {A} (model : string) (valid : A -> bool) (a : A) : M A :=
  if valid a then ret a else raise (ValidationError model).

Module User.
Record t := mk {
  name : string; email : string; password_hash : string;
  role : string; phone : option string; is_active : bool }.
Definition valid (u : t) : bool := literal ["student"; "staff"; "admin"] (role u).
Definition model_dump (u : t) : Doc :=
  <["name" := VStr (name u)]> (<["email" := VStr (email u)]>
  (<["password_hash" := VStr (password_hash u)]> (<["role" := VStr (role u)]>
  (<["phone" := opt_str (phone u)]> (<["is_active" := VBool (is_active u)]> ∅))))).
End User.

Module Gymmembership.
Record t := mk {
  email : string; plan : string; status : string;
  start_date : option datetime; end_date : option datetime }.
(** [Gymmembership(email=..., plan=...)]: the other fields take their
    defaults. *)
Definition new (email plan : string) : t :=
  {| email := email; plan := plan; status := "pending";
     start_date := None; end_date := None |}.
Definition valid (g : t) : bool :=
  literal ["monthly"; "quarterly"; "yearly"] (plan g) &&
  literal ["pending"; "active"; "expired"] (status g).
Definition model_dump (g : t) : Doc :=
  <["email" := VStr (email g)]> (<["plan" := VStr (plan g)]>
  (<["status" := VStr (status g)]> (<["start_date" := opt_date (start_date g)]>
  (<["end_date" := opt_date (end_date g)]> ∅)))).
End Gymmembership.

Module Payment.
Record t := mk {
  email : string; amount : spec_float; purpose : string;
  method : string; status : string; reference : option string }.
(** [amount: float = Field(..., ge=0)]: NaN and every negative number
    fail the comparison. *)
Definition valid (p : t) : bool :=
  SFleb (S754_zero false) (amount p) &&
  literal ["gym_membership"; "booking"; "other"] (purpose p) &&
  literal ["upi"; "card"; "netbanking"; "cash"] (method p) &&
  literal ["success"; "failed"; "pending"] (status p).
Definition model_dump (p : t) : Doc :=
  <["email" := VStr (email p)]> (<["amount" := VFloat (amount p)]>
  (<["purpose" := VStr (purpose p)]> (<["method" := VStr (method p)]>
  (<["status" := VStr (status p)]> (<["reference" := opt_str (reference p)]> ∅))))).
End Payment.

Module Match.
Record t := mk {
  sport : string; team_a : string; team_b : string; venue : string;
  start_time : datetime; status : string;
  score_a : option string; score_b : option string; details : option string }.
Definition valid (m : t) : bool :=
  literal ["cricket"; "indoor"] (sport m) &&
  literal ["upcoming"; "live"; "finished"] (status m).
Definition model_dump (m : t) : Doc :=
  <["sport" := VStr (sport m)]> (<["team_a" := VStr (team_a m)]>
  (<["team_b" := VStr (team_b m)]> (<["venue" := VStr (venue m)]>
  (<["start_time" := VDate (start_time m)]> (<["status" := VStr (status m)]>
  (<["score_a" := opt_str (score_a m)]> (<["score_b" := opt_str (score_b m)]>
  (<["details" := opt_str (details m)]> ∅)))))))).
End Match.

(* ===================================================================== *)
(** ** database.py: the persistence gateway *)
(* ===================================================================== *)

Definition unavailable : exn := HTTPException 500 "Database not configured".

(** Modelled from the spec: the state after the gateway's insert, which
    [database.py] (not part of the sources at hand) performs.  The stored
    record gains the database-assigned identifier, an insertion timestamp
    and an update timestamp: one clock reading, under the field names
    [created_at] and [updated_at] that [main.py] sorts by and refreshes. *)
Definition stored (name : string) (data : Doc) (w : World) (store : Database) : World :=
  let now := VDate (Py.DateTime.now_utc (clock w (ticks w))) in
  let doc := <["updated_at" := now]> (<["created_at" := now]> data) in
  let docs := Mongo.insert_one (next_oid w) doc (default [] (store !! name)) in
  {| environ := environ w; db := Some (<[name := docs]> store);
     clock := clock w; ticks := S (ticks w); next_oid := N.succ (next_oid w) |}.

(** Modelled from the spec: [create_document] of [database.py].  The
    gateway's insert returns the generated identifier as text; an absent
    connection is signalled with the uniform service-unavailable
    failure. *)
Definition create_document (collection_name : string) (data : Doc) : M string :=
  fun w =>
    match db w with
    | None => (Raise unavailable, w)
    | Some store =>
        (Return (Bson.ObjectId_str (next_oid w)), stored collection_name data w store)
    end.

(** Modelled from the spec: [get_documents] of [database.py], the
    gateway's find-many: the records of the collection that match the
    filter, in storage order, cut to [limit] of them. *)
Definition get_documents (collection_name : string) (filt : Mongo.Filter) (limit : Z)
  : M (list Doc) :=
  fun w =>
    match db w with
    | None => (Raise unavailable, w)
    | Some _ => (Return (Mongo.find_many filt (Z.to_nat limit) (docs_of w collection_name)), w)
    end.

(* ===================================================================== *)
(** ** main.py *)
(* ===================================================================== *)

Definition iso_value (v : value) : value :=
  match v with
  | VDate t => VStr (Py.DateTime.isoformat t)
  | _ => v
  end.

Definition serialize_doc (doc : option Doc) : option Doc :=
  match doc with
  | Some d =>
      if negb (doc_truthy doc) then doc
      else
        let d : Doc :=
          match d !! "_id" with
          | Some v => if py_truthy v then <["id" := VStr (py_str v)]> (delete "_id" d) else d
          | None => d
          end in
        Some (iso_value <$> d)
  | None => doc
  end.

Definition collection (name : string) : M Collection :=
  fun w =>
    match db w with
    | None => (Raise (HTTPException 500 "Database not configured"), w)
    | Some _ => (Return name, w)
    end.

Definition hash_password (password salt : string) : string :=
  Py.SHA256.hexdigest (password +:+ salt).

Definition SECRET : World -> string := os_getenv "AUTH_SECRET" "gbu-sports-portal-secret".

Module RegisterRequest.
Record t := mk { name : string; email : string; password : string; phone : option string }.
End RegisterRequest.

Module LoginRequest.
Record t := mk { email : string; password : string }.
End LoginRequest.

Module GymPlanRequest.
Record t := mk { email : string; plan : string }.
End GymPlanRequest.

Module PaymentRequest.
Record t := mk {
  email : string; amount : spec_float; purpose : string;
  method : string; reference : option string }.
(** The body [{email, amount}]: the other fields take their defaults. *)
Definition new (email : string) (amount : spec_float) : t :=
  {| email := email; amount := amount; purpose := "gym_membership";
     method := "upi"; reference := None |}.
End PaymentRequest.

Module MatchCreateRequest.
Record t := mk {
  sport : string; team_a : string; team_b : string; venue : string;
  start_time : datetime; status : string; details : option string }.
End MatchCreateRequest.

Module MatchUpdateRequest.
Record t := mk {
  status : option string; score_a : option string;
  score_b : option string; details : option string }.
Definition model_dump (r : t) : list (string * option string) :=
  [("status", status r); ("score_a", score_a r);
   ("score_b", score_b r); ("details", details r)].
End MatchUpdateRequest.

(** [d[key]] *)
Definition subscript (d : Doc) (key : string) : M value :=
  match d !! key with
  | Some v => ret v
  | None => raise (KeyError key)
  end.

Definition by_email (email : string) : Mongo.Filter := {["email" := Is (VStr email)]}.
Definition by_id (v : value) : Mongo.Filter := {["_id" := Is v]}.
Definition open_membership (email : string) : Mongo.Filter :=
  <["email" := Is (VStr email)]> {["status" := In_ [VStr "pending"; VStr "active"]]}.

Definition register (req : RegisterRequest.t) : M Doc :=
  let* users := collection "user" in
  let* found := find_one users (by_email (RegisterRequest.email req)) in
  if doc_truthy found then raise (HTTPException 400 "Email already registered")
  else
    let* secret := gets SECRET in
    let password_hash := hash_password (RegisterRequest.password req) secret in
    let* user := construct "User" User.valid
      {| User.name := RegisterRequest.name req;
         User.email := RegisterRequest.email req;
         User.password_hash := password_hash;
         User.role := "student";
         User.phone := RegisterRequest.phone req;
         User.is_active := true |} in
    let* user_id := create_document "user" (User.model_dump user) in
    let token := hash_password (RegisterRequest.email req) secret in
    ret (<["id" := VStr user_id]> (<["token" := VStr token]>
        (<["email" := VStr (RegisterRequest.email req)]>
        (<["name" := VStr (RegisterRequest.name req)]> ∅)))).

Definition login (req : LoginRequest.t) : M Doc :=
  let* users := collection "user" in
  let* u := find_one users (by_email (LoginRequest.email req)) in
  match u with
  | Some u' =>
      if negb (doc_truthy u) then raise (HTTPException 401 "Invalid credentials")
      else
        let* secret := gets SECRET in
        let expected := Mongo.field u' "password_hash" in
        if negb (bool_decide (expected = VStr (hash_password (LoginRequest.password req) secret)))
        then raise (HTTPException 401 "Invalid credentials")
        else
          let token := hash_password (LoginRequest.email req) secret in
          ret (<["token" := VStr token]> (<["email" := VStr (LoginRequest.email req)]>
              (<["name" := Mongo.field u' "name"]> ∅)))
  | None => raise (HTTPException 401 "Invalid credentials")
  end.

Definition profile (email : string) : M (option Doc) :=
  let* users := collection "user" in
  let* u := find_one users (by_email email) in
  if negb (doc_truthy u) then raise (HTTPException 404 "User not found")
  else ret (serialize_doc (delete "password_hash" <$> u)).

Definition create_membership (req : GymPlanRequest.t) : M (option Doc) :=
  let* memberships := collection "gymmembership" in
  let* existing := find_one memberships (open_membership (GymPlanRequest.email req)) in
  if doc_truthy existing then ret (serialize_doc existing)
  else
    let* gm := construct "Gymmembership" Gymmembership.valid
      (Gymmembership.new (GymPlanRequest.email req) (GymPlanRequest.plan req)) in
    let* _id := create_document "gymmembership" (Gymmembership.model_dump gm) in
    ret (Some (<["id" := VStr _id]> (<["email" := VStr (GymPlanRequest.email req)]>
              (<["plan" := VStr (GymPlanRequest.plan req)]>
              (<["status" := VStr "pending"]> ∅))))).

Definition get_membership (email : string) : M (option Doc) :=
  let* memberships := collection "gymmembership" in
  let* m := find_one_desc memberships (by_email email) "created_at" in
  if negb (doc_truthy m) then raise (HTTPException 404 "No membership found")
  else ret (serialize_doc m).

Record PaymentResponse := {
  payment_id : string;
  status : string;
  membership : option Doc
}.

(** The length of the validity window, by the stored plan. *)
Definition delta_days (m : Doc) : Z :=
  if bool_decide (m !! "plan" = Some (VStr "monthly")) then 30
  else if bool_decide (m !! "plan" = Some (VStr "quarterly")) then 90
  else 365.

(** The body of [if m:] in [create_payment].  The first [end_] is the
    source's placeholder, overwritten on the next line. *)
Definition activate (memberships : Collection) (m : Doc) : M (option Doc) :=
  let* now := clock_read in
  let start := Py.DateTime.now_utc now in
  let end_ := Py.DateTime.add start
    (Py.DateTime.sub (Py.DateTime.utcfromtimestamp 0) (Py.DateTime.utcfromtimestamp 0)) in
  let end_ := Py.DateTime.add start (Py.DateTime.timedelta_days (delta_days m)) in
  let* oid := subscript m "_id" in
  let* _ := update_one memberships (by_id oid)
    (<["status" := VStr "active"]> (<["start_date" := VDate start]>
    (<["end_date" := VDate end_]> ∅))) in
  let* oid := subscript m "_id" in
  find_one memberships (by_id oid).

(** [req.reference or f"REF-{int(datetime.now().timestamp())}"] *)
Definition reference_or_generated (req : PaymentRequest.t) : M string :=
  match PaymentRequest.reference req with
  | Some r =>
      if py_truthy (VStr r) then ret r
      else let* now := clock_read in
           ret ("REF-" +:+ Py.int_str (Py.DateTime.timestamp_int now))
  | None =>
      let* now := clock_read in
      ret ("REF-" +:+ Py.int_str (Py.DateTime.timestamp_int now))
  end.

Definition create_payment (req : PaymentRequest.t) : M PaymentResponse :=
  let* reference := reference_or_generated req in
  let* payment := construct "Payment" Payment.valid
    {| Payment.email := PaymentRequest.email req;
       Payment.amount := PaymentRequest.amount req;
       Payment.purpose := PaymentRequest.purpose req;
       Payment.method := PaymentRequest.method req;
       Payment.status := "success";
       Payment.reference := Some reference |} in
  let* pay_id := create_document "payment" (Payment.model_dump payment) in
  let* memberships := collection "gymmembership" in
  let* m := find_one_desc memberships (by_email (PaymentRequest.email req)) "created_at" in
  let* m :=
    match m with
    | Some m' => if doc_truthy m then activate memberships m' else ret m
    | None => ret m
    end in
  ret {| payment_id := pay_id; status := "success";
         membership := if doc_truthy m then serialize_doc m else None |}.

Definition list_matches (sport status : option string) (limit : Z)
  : M (list (option Doc)) :=
  let filt : Mongo.Filter := ∅ in
  let filt :=
    match sport with
    | Some s => if py_truthy (VStr s) then <["sport" := Is (VStr s)]> filt else filt
    | None => filt
    end in
  let filt :=
    match status with
    | Some s => if py_truthy (VStr s) then <["status" := Is (VStr s)]> filt else filt
    | None => filt
    end in
  let* docs := get_documents "match" filt limit in
  ret (map (fun d => serialize_doc (Some d)) docs).

Definition create_match (req : MatchCreateRequest.t) : M Doc :=
  let* match_ := construct "Match" Match.valid
    {| Match.sport := MatchCreateRequest.sport req;
       Match.team_a := MatchCreateRequest.team_a req;
       Match.team_b := MatchCreateRequest.team_b req;
       Match.venue := MatchCreateRequest.venue req;
       Match.start_time := MatchCreateRequest.start_time req;
       Match.status := MatchCreateRequest.status req;
       Match.score_a := None; Match.score_b := None;
       Match.details := MatchCreateRequest.details req |} in
  let* _id := create_document "match" (Match.model_dump match_) in
  ret {["id" := VStr _id]}.

(** [{k: v for k, v in req.model_dump().items() if v is not None}] *)
Definition supplied (fields : list (string * option string)) : Doc :=
  fold_right (fun kv acc =>
                match kv.2 with
                | Some v => <[kv.1 := VStr v]> acc
                | None => acc
                end) ∅ fields.

Definition update_match (match_id : string) (req : MatchUpdateRequest.t)
  : M (option Doc) :=
  match Bson.ObjectId_of_str match_id with
  | None => raise (HTTPException 400 "Invalid match id")
  | Some oid =>
      let updates := supplied (MatchUpdateRequest.model_dump req) in
      if negb (doc_truthy (Some updates)) then ret (Some {["updated" := VBool false]})
      else
        let* now := clock_read in
        let updates := <["updated_at" := VDate (Py.DateTime.now_utc now)]> updates in
        let* c := collection "match" in
        let* _ := update_one c (by_id (VOid oid)) updates in
        let* c := collection "match" in
        let* doc := find_one c (by_id (VOid oid)) in
        ret (serialize_doc doc)
  end.

Definition root : M Doc := ret {["message" := VStr "GBU Sports Portal Backend Running"]}.

(** [os.getenv(name)] *)
Definition os_getenv_opt (name : string) (w : World) : option string := environ w !! name.

Module TestResponse.
Record t := mk {
  backend : string; database : string; database_url : string;
  database_name : string; connection_status : string; collections : list string }.
(** [response["database"] = s] and the like. *)
Definition set_database (s : string) (r : t) : t :=
  {| backend := backend r; database := s; database_url := database_url r;
     database_name := database_name r; connection_status := connection_status r;
     collections := collections r |}.
Definition set_connection_status (s : string) (r : t) : t :=
  {| backend := backend r; database := database r; database_url := database_url r;
     database_name := database_name r; connection_status := s;
     collections := collections r |}.
Definition set_collections (names : list string) (r : t) : t :=
  {| backend := backend r; database := database r; database_url := database_url r;
     database_name := database_name r; connection_status := connection_status r;
     collections := names |}.
End TestResponse.

(** [test_database].  The one call of the [try] block that can raise is
    the driver's [db.list_collection_names()]; what it does is given by
    [list_collection_names]: the names, or the text [str(e)] of the
    exception [e] it raised.  The assignments made before the call stay
    when it raises. *)
Definition test_database (list_collection_names : Database -> string + list string)
  : M TestResponse.t :=
  let* url := gets (os_getenv_opt "DATABASE_URL") in
  let* name := gets (os_getenv_opt "DATABASE_NAME") in
  let response :=
    {| TestResponse.backend := "✅ Running";
       TestResponse.database := "❌ Not Available";
       TestResponse.database_url := if py_truthy (opt_str url) then "✅ Set" else "❌ Not Set";
       TestResponse.database_name := if py_truthy (opt_str name) then "✅ Set" else "❌ Not Set";
       TestResponse.connection_status := "Not Connected";
       TestResponse.collections := [] |} in
  let* conn := gets db in
  match conn with
  | Some store =>
      let response := TestResponse.set_database "✅ Available" response in
      let response := TestResponse.set_connection_status "Connected" response in
      match list_collection_names store with
      | inr names =>
          let response := TestResponse.set_collections names response in
          let response := TestResponse.set_database "✅ Connected & Working" response in
          ret response
      | inl text =>
          ret (TestResponse.set_database ("⚠️ Error: " +:+ Py.str_take 80 text) response)
      end
  | None => ret response
  end.

Definition by_sport (sport : string) : Mongo.Filter := {["sport" := Is (VStr sport)]}.

Definition seed : M Doc :=
  let* c := collection "match" in
  let* found := find_one c (by_sport "cricket") in
  let* _ :=
    if negb (doc_truthy found) then
      let* t := clock_read in
      let now := Py.DateTime.now_utc t in
      let* m := construct "Match" Match.valid
        {| Match.sport := "cricket"; Match.team_a := "GBU Warriors";
           Match.team_b := "Noida Knights"; Match.venue := "GBU Cricket Ground";
           Match.start_time := now; Match.status := "live";
           Match.score_a := None; Match.score_b := None;
           Match.details := Some "Friendly match" |} in
      let* _ := create_document "match" (Match.model_dump m) in
      let* m := construct "Match" Match.valid
        {| Match.sport := "cricket"; Match.team_a := "GBU Titans";
           Match.team_b := "Delhi Dynamos"; Match.venue := "GBU Cricket Ground";
           Match.start_time :=
             Py.DateTime.replace_hour now ((Py.DateTime.hour now + 2) mod 24);
           Match.status := "upcoming";
           Match.score_a := None; Match.score_b := None; Match.details := None |} in
      let* _ := create_document "match" (Match.model_dump m) in
      ret tt
    else ret tt in
  let* c := collection "match" in
  let* found := find_one c (by_sport "indoor") in
  let* _ :=
    if negb (doc_truthy found) then
      let* t := clock_read in
      let now := Py.DateTime.now_utc t in
      let* m := construct "Match" Match.valid
        {| Match.sport := "indoor"; Match.team_a := "GBU Falcons";
           Match.team_b := "GBU Hawks"; Match.venue := "Indoor Stadium";
           Match.start_time := now; Match.status := "live";
           Match.score_a := None; Match.score_b := None;
           Match.details := Some "Badminton Doubles" |} in
      let* _ := create_document "match" (Match.model_dump m) in
      let* m := construct "Match" Match.valid
        {| Match.sport := "indoor"; Match.team_a := "GBU Lions";
           Match.team_b := "Lucknow Legends"; Match.venue := "Indoor Stadium";
           Match.start_time :=
             Py.DateTime.replace_hour now ((Py.DateTime.hour now + 3) mod 24);
           Match.status := "upcoming";
           Match.score_a := None; Match.score_b := None;
           Match.details := Some "Table Tennis" |} in
      let* _ := create_document "match" (Match.model_dump m) in
      ret tt
    else ret tt in
  ret {["seeded" := VBool true]}.

(* ===================================================================== *)
(** ** Vocabulary of the properties *)
(* ===================================================================== *)

(** A membership of [e] that is still pending or active. *)
Definition is_open (e : string) (d : Doc) : Prop :=
  d !! "email" = Some (VStr e) ∧
  (d !! "status" = Some (VStr "pending") ∨ d !! "status" = Some (VStr "active")).

(** The identifier the driver gave a stored record. *)
Definition oid_of (d : Doc) : option ObjectId :=
  match d !! "_id" with
  | Some (VOid o) => Some o
  | _ => None
  end.

(** Every record of the collection carries an identifier, and no two
    records share one. *)
Definition identified (docs : list Doc) : Prop :=
  Forall (fun d => is_Some (oid_of d)) docs ∧ NoDup (oid_of <$> docs).

(** Every record of the collection carries its insertion timestamp. *)
Definition dated (docs : list Doc) : Prop :=
  Forall (fun d => ∃ t, d !! "created_at" = Some (VDate t)) docs.

(** What holds of every collection: the records are identified, by
    identifiers the driver has already handed out, and dated. *)
Definition collection_ok (next : ObjectId) (docs : list Doc) : Prop :=
  identified docs ∧
  Forall (fun d => ∀ o, oid_of d = Some o → (o < next)%N) docs ∧
  dated docs.

(** The invariant of the store. *)
Definition wf (w : World) : Prop :=
  ∀ store name docs,
    db w = Some store → store !! name = Some docs → collection_ok (next_oid w) docs.

(** No membership of [e] was inserted after [m]. *)
Definition latest (e : string) (docs : list Doc) (m : Doc) : Prop :=
  ∃ tm, m !! "created_at" = Some (VDate tm) ∧
    ∀ d t, In d docs → d !! "email" = Some (VStr e) →
           d !! "created_at" = Some (VDate t) →
           Py.DateTime.instant t <= Py.DateTime.instant tm.

(** The stored user [login] checks the password against: the first
    record of the email, with the hash of the submitted password. *)
Definition authenticates (w : World) (req : LoginRequest.t) (u : Doc) : Prop :=
  Mongo.find_one (by_email (LoginRequest.email req)) (docs_of w "user") = Some u ∧
  u !! "password_hash" =
    Some (VStr (hash_password (LoginRequest.password req) (SECRET w))).

(** The body of a successful login. *)
Definition login_response (w : World) (req : LoginRequest.t) (u : Doc) : Doc :=
  <["token" := VStr (hash_password (LoginRequest.email req) (SECRET w))]>
  (<["email" := VStr (LoginRequest.email req)]>
  (<["name" := Mongo.field u "name"]> ∅)).

Definition unauthorized : exn := HTTPException 401 "Invalid credentials".

(** The clock readings [create_payment] makes for the reference: one
    when the request brings none (or an empty one). *)
Definition reference_reads (req : PaymentRequest.t) : nat :=
  match PaymentRequest.reference req with
  | Some r => if py_truthy (VStr r) then 0 else 1
  | None => 1
  end.

(** The reference the payment is recorded with. *)
Definition reference_of (req : PaymentRequest.t) (w : World) : string :=
  match PaymentRequest.reference req with
  | Some r =>
      if py_truthy (VStr r) then r
      else "REF-" +:+ Py.int_str (Py.DateTime.timestamp_int (clock w (ticks w)))
  | None => "REF-" +:+ Py.int_str (Py.DateTime.timestamp_int (clock w (ticks w)))
  end.

(** The payment record [create_payment] stores. *)
Definition payment_of (req : PaymentRequest.t) (w : World) : Payment.t :=
  {| Payment.email := PaymentRequest.email req;
     Payment.amount := PaymentRequest.amount req;
     Payment.purpose := PaymentRequest.purpose req;
     Payment.method := PaymentRequest.method req;
     Payment.status := "success";
     Payment.reference := Some (reference_of req w) |}.

(** The time of activation: the clock reading that follows those for the
    reference and for the payment record. *)
Definition activation_time (req : PaymentRequest.t) (w : World) : datetime :=
  Py.DateTime.now_utc (clock w (S (reference_reads req + ticks w))).

(** A membership once activated at [start]. *)
Definition activated (start : datetime) (m : Doc) : Doc :=
  <["status" := VStr "active"]> (<["start_date" := VDate start]>
  (<["end_date" :=
      VDate (Py.DateTime.add start (Py.DateTime.timedelta_days (delta_days m)))]> m)).

(** The answer of an accepted payment. *)
Definition paid (w : World) (membership : option Doc) : PaymentResponse :=
  {| payment_id := Bson.ObjectId_str (next_oid w); status := "success";
     membership := membership |}.

(** What the [Payment] model checks of a request. *)
Definition schema_accepts (req : PaymentRequest.t) : bool :=
  SFleb (S754_zero false) (PaymentRequest.amount req) &&
  literal ["gym_membership"; "booking"; "other"] (PaymentRequest.purpose req) &&
  literal ["upi"; "card"; "netbanking"; "cash"] (PaymentRequest.method req).

(** The record at position [i] is the only one the filter matches. *)
Definition only_match (filt : Mongo.Filter) (docs : list Doc) (i : nat) : Prop :=
  ∀ j d, docs !! j = Some d → Mongo.matches filt d = true → j = i.

(** The world once the reference is settled. *)
Definition referenced (req : PaymentRequest.t) (w : World) : World :=
  Nat.iter (reference_reads req) tick w.

(** The world after an accepted payment found [m] at position [i] of the
    memberships and activated it. *)
Definition after_payment (req : PaymentRequest.t) (w : World) (store : Database)
    (i : nat) (m : Doc) : World :=
  let w2 := tick (stored "payment" (Payment.model_dump (payment_of req w))
                    (referenced req w) store) in
  set_docs "gymmembership"
    (<[i := activated (activation_time req w) m]> (docs_of w "gymmembership")) w2.

(** A computation keeps the invariant, whether it returns or raises. *)
Definition preserves {A} (c : M A) : Prop := ∀ w, wf w → wf (c w).2.

(** The user record [register] stores for [req] in the state [w]. *)
Definition user_of (req : RegisterRequest.t) (w : World) : Doc :=
  let now := VDate (Py.DateTime.now_utc (clock w (ticks w))) in
  <["_id" := VOid (next_oid w)]> (<["updated_at" := now]> (<["created_at" := now]>
    (User.model_dump
       {| User.name := RegisterRequest.name req;
          User.email := RegisterRequest.email req;
          User.password_hash := hash_password (RegisterRequest.password req) (SECRET w);
          User.role := "student";
          User.phone := RegisterRequest.phone req;
          User.is_active := true |}))).

(** [HTTPException(status_code=404, detail=...)] *)
Definition not_found (detail : string) : exn := HTTPException 404 detail.

(** The membership record [create_membership] stores for [req] in the
    state [w]. *)
Definition membership_of (req : GymPlanRequest.t) (w : World) : Doc :=
  let now := VDate (Py.DateTime.now_utc (clock w (ticks w))) in
  <["_id" := VOid (next_oid w)]> (<["updated_at" := now]> (<["created_at" := now]>
    (Gymmembership.model_dump
       (Gymmembership.new (GymPlanRequest.email req) (GymPlanRequest.plan req))))).

(** The plans the [Gymmembership] model admits. *)
Definition plans : list string := ["monthly"; "quarterly"; "yearly"].

(** A computation keeps a property of the records of one collection,
    whether it returns or raises. *)
Definition keeps_docs {A} (name : string) (P : list Doc → Prop) (c : M A) : Prop :=
  ∀ w, P (docs_of w name) → P (docs_of (c w).2 name).

(** A membership as the handlers write them: an email, one of the three
    plans, pending or active. *)
Definition conforming (d : Doc) : Prop :=
  (∃ e, d !! "email" = Some (VStr e)) ∧
  (∃ p, d !! "plan" = Some (VStr p) ∧ p ∈ plans) ∧
  (d !! "status" = Some (VStr "pending") ∨ d !! "status" = Some (VStr "active")).

(** Every membership conforms, and no two are of the same email. *)
Definition one_membership_each (docs : list Doc) : Prop :=
  Forall conforming docs ∧ NoDup ((λ d : Doc, d !! "email") <$> docs).

(** The payment record [create_payment] stores for an accepted [req]
    in the state [w]. *)
Definition payment_record (req : PaymentRequest.t) (w : World) : Doc :=
  let now := VDate (Py.DateTime.now_utc (clock w (reference_reads req + ticks w))) in
  <["_id" := VOid (next_oid w)]> (<["updated_at" := now]> (<["created_at" := now]>
    (Payment.model_dump (payment_of req w)))).

(** The match record [create_match] stores for [req] in the state [w]. *)
Definition match_of (req : MatchCreateRequest.t) (w : World) : Doc :=
  let now := VDate (Py.DateTime.now_utc (clock w (ticks w))) in
  <["_id" := VOid (next_oid w)]> (<["updated_at" := now]> (<["created_at" := now]>
    (Match.model_dump
       {| Match.sport := MatchCreateRequest.sport req;
          Match.team_a := MatchCreateRequest.team_a req;
          Match.team_b := MatchCreateRequest.team_b req;
          Match.venue := MatchCreateRequest.venue req;
          Match.start_time := MatchCreateRequest.start_time req;
          Match.status := MatchCreateRequest.status req;
          Match.score_a := None; Match.score_b := None;
          Match.details := MatchCreateRequest.details req |}))).

(** The fields [update_match] writes for [req] in the state [w]. *)
Definition updates_of (req : MatchUpdateRequest.t) (w : World) : Doc :=
  <["updated_at" := VDate (Py.DateTime.now_utc (clock w (ticks w)))]>
    (supplied (MatchUpdateRequest.model_dump req)).

(** A field after a PATCH: the supplied text, or the old value. *)
Definition patched (new : option string) (old : option value) : option value :=
  match new with
  | Some s => Some (VStr s)
  | None => old
  end.

(** 24 hexadecimal digits. *)
Definition hex24 (text : string) : Prop :=
  String.length text = 24%nat ∧
  Forall (λ c, is_Some (Bson.hex_value c)) (list_ascii_of_string text).

(** The body of a PATCH that supplies no field. *)
Definition empty_patch : MatchUpdateRequest.t := MatchUpdateRequest.mk None None None None.

(** A record as the gateway stores it: the data under the identifier
    [o], inserted when the clock read [t]. *)
Definition record_of (o : ObjectId) (t : Z) (data : Doc) : Doc :=
  let now := VDate (Py.DateTime.now_utc t) in
  <["_id" := VOid o]> (<["updated_at" := now]> (<["created_at" := now]> data)).

(** A match without scores, as [seed] builds them. *)
Definition sample (sport team_a team_b venue : string) (start_time : datetime)
    (status : string) (details : option string) : Doc :=
  Match.model_dump
    {| Match.sport := sport; Match.team_a := team_a; Match.team_b := team_b;
       Match.venue := venue; Match.start_time := start_time; Match.status := status;
       Match.score_a := None; Match.score_b := None; Match.details := details |}.

(** The two sample matches of a sport, for a seeding at [now]. *)
Definition cricket_samples (now : datetime) : Doc * Doc :=
  (sample "cricket" "GBU Warriors" "Noida Knights" "GBU Cricket Ground" now "live"
     (Some "Friendly match"),
   sample "cricket" "GBU Titans" "Delhi Dynamos" "GBU Cricket Ground"
     (Py.DateTime.replace_hour now ((Py.DateTime.hour now + 2) mod 24)) "upcoming" None).

Definition indoor_samples (now : datetime) : Doc * Doc :=
  (sample "indoor" "GBU Falcons" "GBU Hawks" "Indoor Stadium" now "live"
     (Some "Badminton Doubles"),
   sample "indoor" "GBU Lions" "Lucknow Legends" "Indoor Stadium"
     (Py.DateTime.replace_hour now ((Py.DateTime.hour now + 3) mod 24)) "upcoming"
     (Some "Table Tennis")).

(** The records a seeding block stores in the state [w]: the first
    clock reading is the seeding time, the next two stamp the records. *)
Definition seeded_records (samples : datetime → Doc * Doc) (w : World) : list Doc :=
  let now := Py.DateTime.now_utc (clock w (ticks w)) in
  [record_of (next_oid w) (clock w (S (ticks w))) (samples now).1;
   record_of (N.succ (next_oid w)) (clock w (S (S (ticks w)))) (samples now).2].

(** The state after a seeding block. *)
Definition after_block (samples : datetime → Doc * Doc) (w : World) : World :=
  {| environ := environ w;
     db := (λ store : Database,
              <["match" := default [] (store !! "match") ++ seeded_records samples w]> store)
           <$> db w;
     clock := clock w; ticks := S (S (S (ticks w)));
     next_oid := N.succ (N.succ (next_oid w)) |}.

(** One block of [seed]: the samples are stored when no match of the
    sport is. *)
Definition seed_block (sport : string) (samples : datetime → Doc * Doc) (w : World) : World :=
  match Mongo.find_one (by_sport sport) (docs_of w "match") with
  | Some _ => w
  | None => after_block samples w
  end.

(** [n] hours, as a [timedelta]. *)
Definition hours (n : Z) : Py.DateTime.timedelta := n * 3600000000.

(** An environment variable that is set to a text that is not empty. *)
Definition env_set (name : string) (w : World) : Prop :=
  ∃ v, environ w !! name = Some v ∧ v ≠ EmptyString.

(** *** Example states

    The scenario of the specification: Alice registers with password
    "pw1", chooses the monthly plan and pays 500.  The clock starts at
    2024-01-01T00:00:00 UTC and advances one second per reading. *)

Definition example_clock (n : nat) : Z := Z.of_nat n * 1000000 + 1704067200000000.

Definition world_of (store : option Database) (n : nat) (next : ObjectId) : World :=
  {| environ := ∅; db := store; clock := example_clock; ticks := n; next_oid := next |}.

Definition fresh_world : World := world_of (Some ∅) 0 1%N.
Definition unconfigured_world : World := world_of None 0 1%N.

Definition alice : string := "alice@x.com".

Definition stamped (oid : ObjectId) (tick_no : nat) (data : Doc) : Doc :=
  let now := VDate (Py.DateTime.now_utc (example_clock tick_no)) in
  <["_id" := VOid oid]> (<["updated_at" := now]> (<["created_at" := now]> data)).

Definition user_alice : Doc :=
  stamped 1%N 0
    (User.model_dump
       {| User.name := "Alice"; User.email := alice;
          User.password_hash := hash_password "pw1" "gbu-sports-portal-secret";
          User.role := "student"; User.phone := None; User.is_active := true |}).

Definition registered_store : Database := {["user" := [user_alice]]}.
Definition registered_world : World := world_of (Some registered_store) 1 2%N.

Definition membership_of_alice (status : string) : Doc :=
  stamped 1%N 0
    (Gymmembership.model_dump
       {| Gymmembership.email := alice; Gymmembership.plan := "monthly";
          Gymmembership.status := status;
          Gymmembership.start_date := None; Gymmembership.end_date := None |}).

Definition membership_store (status : string) : Database :=
  {["gymmembership" := [membership_of_alice status]]}.
Definition pending_world : World := world_of (Some (membership_store "pending")) 1 2%N.
Definition expired_world : World := world_of (Some (membership_store "expired")) 1 2%N.

Definition alice_pays : PaymentRequest.t := PaymentRequest.new alice (Py.Float.of_Z 500).
Definition alice_pays_negative : PaymentRequest.t :=
  PaymentRequest.new alice (Py.Float.of_Z (-1)).
Definition bob_donates : PaymentRequest.t :=
  {| PaymentRequest.email := "bob@x.com"; PaymentRequest.amount := Py.Float.of_Z 100;
     PaymentRequest.purpose := "donation"; PaymentRequest.method := "upi";
     PaymentRequest.reference := None |}.
Definition bob_pays : PaymentRequest.t := PaymentRequest.new "bob@x.com" (Py.Float.of_Z 100).

(** A seeding at 23:00: the clock starts at 2024-01-01T23:00:00 UTC. *)
Definition late_world : World :=
  {| environ := ∅; db := Some ∅;
     clock := λ n, Z.of_nat n * 1000000 + 1704150000000000;
     ticks := 0; next_oid := 1%N |}.

Definition alice_registers : RegisterRequest.t := RegisterRequest.mk "Alice" alice "pw1" None.

(** The state after seeding the empty database. *)
Definition seeded_world : World := (seed fresh_world).2.

Definition final_score : MatchUpdateRequest.t :=
  MatchUpdateRequest.mk (Some "finished") (Some "120/3") None None.

Definition friendly : MatchCreateRequest.t :=
  {| MatchCreateRequest.sport := "cricket"; MatchCreateRequest.team_a := "A";
     MatchCreateRequest.team_b := "B"; MatchCreateRequest.venue := "Ground";
     MatchCreateRequest.start_time := Py.DateTime.now_utc (example_clock 0);
     MatchCreateRequest.status := "upcoming"; MatchCreateRequest.details := None |}.

(* ===================================================================== *)
(** ** The built-ins on known values *)
(* ===================================================================== *)

Section builtins.

(** The two test vectors of FIPS 180-4 that fit one block. *)
Example sha256_abc :
  Py.SHA256.hexdigest "abc"
  = "ba7816bf8f01cfea414140de5dae2223b00361a396177a9cb410ff61f20015ad".
Proof. vm_compute. reflexivity. Qed.

Example sha256_empty :
  Py.SHA256.hexdigest EmptyString
  = "e3b0c44298fc1c149afbf4c8996fb92427ae41e4649b934ca495991b7852b855".
Proof. vm_compute. reflexivity. Qed.

Example repr_floats :
  map Py.Float.repr
    [Py.Float.of_Z 500; Py.Float.of_Z (-1); S754_finite false 7205759403792794 (-56);
     Py.Float.of_Z (10 ^ 16); S754_finite false 1 (-1074)]
  = ["500.0"; "-1.0"; "0.1"; "1e+16"; "5e-324"].
Proof. vm_compute. reflexivity. Qed.

Example isoformat_leap_day :
  Py.DateTime.isoformat (Py.DateTime.now_utc 1709210096123456)
  = "2024-02-29T12:34:56.123456+00:00".
Proof. vm_compute. reflexivity. Qed.

Example isoformat_whole_second :
  Py.DateTime.isoformat (Py.DateTime.now_utc (example_clock 0))
  = "2024-01-01T00:00:00+00:00".
Proof. vm_compute. reflexivity. Qed.

Example objectid_text :
  Bson.ObjectId_of_str "65A1b2c3d4e5f60718293a4b" = Some 31453467242603790624579205707%N ∧
  Bson.ObjectId_str 31453467242603790624579205707%N = "65a1b2c3d4e5f60718293a4b" ∧
  Bson.ObjectId_of_str "not-an-object-id" = None.
Proof. vm_compute. repeat split. Qed.

End builtins.

(* ===================================================================== *)
(** ** Filters and lookups *)
(* ===================================================================== *)

Section filters.

Implicit Types (d : Doc) (docs : list Doc) (filt : Mongo.Filter).

Lemma bson_eqb_str (x : value) (s : string) :
  Mongo.bson_eqb x (VStr s) = bool_decide (x = VStr s).
Proof. by destruct x. Qed.

Lemma bson_eqb_oid (x : value) (o : ObjectId) :
  Mongo.bson_eqb x (VOid o) = bool_decide (x = VOid o).
Proof. by destruct x. Qed.

Lemma field_str d (k s : string) :
  Mongo.field d k = VStr s ↔ d !! k = Some (VStr s).
Proof.
  unfold Mongo.field. destruct (d !! k) as [v|]; simpl; split; congruence.
Qed.

Lemma field_oid d (k : string) (o : ObjectId) :
  Mongo.field d k = VOid o ↔ d !! k = Some (VOid o).
Proof.
  unfold Mongo.field. destruct (d !! k) as [v|]; simpl; split; congruence.
Qed.

Lemma matches_spec filt d :
  Mongo.matches filt d = true ↔
  ∀ k c, filt !! k = Some c → Mongo.cond_holds c (Mongo.field d k) = true.
Proof.
  unfold Mongo.matches. rewrite forallb_forall. split.
  - intros H k c Hk. apply (H (k, c)).
    apply list_elem_of_In, elem_of_map_to_list, Hk.
  - intros H [k c] Hin. apply H.
    apply elem_of_map_to_list, list_elem_of_In, Hin.
Qed.

Lemma matches_by_email (e : string) d :
  Mongo.matches (by_email e) d = true ↔ d !! "email" = Some (VStr e).
Proof.
  unfold Mongo.matches, by_email. rewrite map_to_list_singleton. simpl.
  rewrite andb_true_r, bson_eqb_str, bool_decide_eq_true. apply field_str.
Qed.

Lemma matches_by_id (o : ObjectId) d :
  Mongo.matches (by_id (VOid o)) d = true ↔ d !! "_id" = Some (VOid o).
Proof.
  unfold Mongo.matches, by_id. rewrite map_to_list_singleton. simpl.
  rewrite andb_true_r, bson_eqb_oid, bool_decide_eq_true. apply field_oid.
Qed.

Lemma matches_empty d : Mongo.matches ∅ d = true.
Proof. unfold Mongo.matches. by rewrite map_to_list_empty. Qed.

Lemma matches_open (e : string) d :
  Mongo.matches (open_membership e) d = true ↔ is_open e d.
Proof.
  rewrite matches_spec. unfold open_membership, is_open. split.
  - intros H. split.
    + specialize (H "email" (Is (VStr e))). rewrite lookup_insert_eq in H.
      specialize (H eq_refl). simpl in H.
      rewrite bson_eqb_str, bool_decide_eq_true in H. by apply field_str.
    + specialize (H "status" (In_ [VStr "pending"; VStr "active"])).
      rewrite lookup_insert_ne, lookup_singleton_eq in H by done.
      specialize (H eq_refl). simpl in H.
      rewrite !bson_eqb_str, orb_false_r, orb_true_iff, !bool_decide_eq_true in H.
      destruct H as [H|H]; [left|right]; by apply field_str.
  - intros [He Hs] k c Hk.
    destruct (decide (k = "email")) as [->|Hne].
    + rewrite lookup_insert_eq in Hk. injection Hk as <-. simpl.
      rewrite bson_eqb_str, bool_decide_eq_true. by apply field_str.
    + rewrite lookup_insert_ne in Hk by done.
      apply lookup_singleton_Some in Hk as [<- <-]. simpl.
      rewrite !bson_eqb_str, orb_false_r, orb_true_iff, !bool_decide_eq_true.
      destruct Hs as [Hs|Hs]; [left|right]; by apply field_str.
Qed.

Lemma doc_truthy_lookup d (k : string) (v : value) :
  d !! k = Some v → doc_truthy (Some d) = true.
Proof.
  intros H. unfold doc_truthy. apply bool_decide_eq_true. intros ->.
  by rewrite lookup_empty in H.
Qed.

Lemma find_one_Some filt docs d :
  Mongo.find_one filt docs = Some d → In d docs ∧ Mongo.matches filt d = true.
Proof. apply find_some. Qed.

Lemma find_one_None filt docs :
  Mongo.find_one filt docs = None ↔ ∀ d, In d docs → Mongo.matches filt d = false.
Proof.
  split; [apply find_none|]. unfold Mongo.find_one.
  induction docs as [|d docs IH]; simpl; [done|]. intros H.
  rewrite (H d) by auto. apply IH. intros d' Hd'. apply H. auto.
Qed.

Lemma find_one_is_Some filt docs d :
  In d docs → Mongo.matches filt d = true → is_Some (Mongo.find_one filt docs).
Proof.
  intros Hin Hm. destruct (Mongo.find_one filt docs) eqn:E; [eauto|].
  rewrite find_one_None in E. rewrite (E d Hin) in Hm. discriminate.
Qed.

End filters.

(* ===================================================================== *)
(** ** The serialization helper *)
(* ===================================================================== *)

Section serialization.

Implicit Types (d s : Doc) (v : value).

Lemma iso_value_idem v : iso_value (iso_value v) = iso_value v.
Proof. by destruct v. Qed.

Lemma iso_value_falsy v : py_truthy v = false → iso_value v = v.
Proof. by destruct v. Qed.

Lemma iso_fmap_idem d : iso_value <$> (iso_value <$> d) = iso_value <$> d.
Proof.
  rewrite <- map_fmap_compose. apply map_fmap_ext.
  intros k v _. apply iso_value_idem.
Qed.

Lemma doc_truthy_false d : doc_truthy (Some d) = false ↔ d = ∅.
Proof.
  unfold doc_truthy. rewrite bool_decide_eq_false. split.
  - intros H. destruct (decide (d = ∅)); [done | contradiction].
  - intros -> H. by apply H.
Qed.

Lemma doc_truthy_true d : doc_truthy (Some d) = true ↔ d ≠ ∅.
Proof. unfold doc_truthy. apply bool_decide_eq_true. Qed.

Lemma serialize_doc_empty : serialize_doc (Some ∅) = Some ∅.
Proof. reflexivity. Qed.

(** Without a true [_id] the record only has its dates rendered. *)
Lemma serialize_doc_plain d :
  d ≠ ∅ →
  (∀ v, d !! "_id" = Some v → py_truthy v = false) →
  serialize_doc (Some d) = Some (iso_value <$> d).
Proof.
  intros Hne Hid. unfold serialize_doc.
  rewrite (proj2 (doc_truthy_true d) Hne). simpl.
  destruct (d !! "_id") as [v|] eqn:E; [|done].
  by rewrite (Hid v eq_refl).
Qed.

Lemma serialize_doc_renamed d v :
  d !! "_id" = Some v → py_truthy v = true →
  serialize_doc (Some d) =
  Some (iso_value <$> <["id" := VStr (py_str v)]> (delete "_id" d)).
Proof.
  intros E Hv. unfold serialize_doc.
  rewrite (doc_truthy_lookup d "_id" v E). simpl. by rewrite E, Hv.
Qed.

(** A serialized record is a fixed point. *)
Lemma serialize_doc_fixed s :
  (∀ v, s !! "_id" = Some v → py_truthy v = false) →
  serialize_doc (Some (iso_value <$> s)) = Some (iso_value <$> s).
Proof.
  intros Hid. destruct (decide (s = ∅)) as [->|Hne].
  { by rewrite fmap_empty. }
  rewrite serialize_doc_plain.
  - by rewrite iso_fmap_idem.
  - intros H. apply fmap_empty_inv in H. contradiction.
  - intros v. rewrite lookup_fmap. destruct (s !! "_id") as [v'|] eqn:E; [|done].
    simpl. intros [= <-]. rewrite iso_value_falsy; eauto.
Qed.

(** C8. Serializing is idempotent, and this is what it does: absent and
    empty input come back unchanged; a record whose [_id] is set (true, as
    every database identifier is) loses [_id] and gains [id], the text of
    the identifier; every field that holds a datetime holds its ISO-8601
    text afterwards, and every other field its old value. *)
Theorem serialize_doc_idempotent (doc : option Doc) :
  serialize_doc (serialize_doc doc) = serialize_doc doc ∧
  match doc with
  | None => serialize_doc doc = None
  | Some d =>
      ∃ s, serialize_doc doc = Some s ∧ (d = ∅ → s = ∅) ∧
        match d !! "_id" with
        | Some v =>
            if py_truthy v then
              s !! "id" = Some (VStr (py_str v)) ∧ s !! "_id" = None ∧
              ∀ k, k ≠ "id" → k ≠ "_id" → s !! k = iso_value <$> d !! k
            else ∀ k, s !! k = iso_value <$> d !! k
        | None => ∀ k, s !! k = iso_value <$> d !! k
        end
  end.
Proof.
  destruct doc as [d|]; [|done].
  destruct (decide (d = ∅)) as [->|Hne].
  { split; [done|]. exists ∅. rewrite lookup_empty.
    split; [done|]. split; [done|]. intros k. by rewrite lookup_empty. }
  destruct (d !! "_id") as [v|] eqn:E; [destruct (py_truthy v) eqn:Hv|].
  - rewrite (serialize_doc_renamed d v E Hv). split.
    + apply serialize_doc_fixed. intros v'.
      by rewrite lookup_insert_ne, lookup_delete_eq.
    + eexists. split; [done|]. split; [done|].
      rewrite !lookup_fmap, lookup_insert_eq, lookup_insert_ne, lookup_delete_eq by done.
      repeat split. intros k Hk Hk'.
      by rewrite lookup_fmap, lookup_insert_ne, lookup_delete_ne.
  - assert (serialize_doc (Some d) = Some (iso_value <$> d)) as ->.
    { apply serialize_doc_plain; [done|]. intros v'. rewrite E. by intros [= <-]. }
    split.
    + apply serialize_doc_fixed. intros v'. rewrite E. by intros [= <-].
    + eexists. split; [done|]. split; [done|]. intros k. apply lookup_fmap.
  - assert (serialize_doc (Some d) = Some (iso_value <$> d)) as ->.
    { apply serialize_doc_plain; [done|]. intros v'. by rewrite E. }
    split.
    + apply serialize_doc_fixed. intros v'. by rewrite E.
    + eexists. split; [done|]. split; [done|]. intros k. apply lookup_fmap.
Qed.

End serialization.

(* ===================================================================== *)
(** ** The gateway and the collection handle *)
(* ===================================================================== *)

Section gateway.

Implicit Types (w : World) (store : Database) (d : Doc) (docs : list Doc).

Lemma collection_configured (name : string) w store :
  db w = Some store → collection name w = (Return name, w).
Proof. intros H. unfold collection. by rewrite H. Qed.

Lemma collection_unconfigured (name : string) w :
  db w = None → collection name w = (Raise unavailable, w).
Proof. intros H. unfold collection. by rewrite H. Qed.

Lemma docs_of_configured w store (name : string) :
  db w = Some store → docs_of w name = default [] (store !! name).
Proof. intros H. unfold docs_of. by rewrite H. Qed.

Lemma docs_of_unconfigured w (name : string) : db w = None → docs_of w name = [].
Proof. intros H. unfold docs_of. by rewrite H. Qed.

Lemma docs_configured w (name : string) d :
  In d (docs_of w name) → ∃ store, db w = Some store.
Proof.
  destruct (db w) as [store|] eqn:E; [eauto|].
  rewrite docs_of_unconfigured by done. intros [].
Qed.

Lemma create_document_configured (name : string) (data : Doc) w store :
  db w = Some store →
  create_document name data w =
  (Return (Bson.ObjectId_str (next_oid w)), stored name data w store).
Proof. intros H. unfold create_document. by rewrite H. Qed.

Lemma docs_of_stored_eq (name : string) (data : Doc) w store :
  db w = Some store →
  docs_of (stored name data w store) name =
  docs_of w name ++
  [<["_id" := VOid (next_oid w)]>
     (<["updated_at" := VDate (Py.DateTime.now_utc (clock w (ticks w)))]>
     (<["created_at" := VDate (Py.DateTime.now_utc (clock w (ticks w)))]> data))].
Proof.
  intros H. rewrite (docs_of_configured w store) by done.
  unfold docs_of, stored. simpl. by rewrite lookup_insert_eq.
Qed.

Lemma docs_of_stored_ne (name other : string) (data : Doc) w store :
  db w = Some store → name ≠ other →
  docs_of (stored name data w store) other = docs_of w other.
Proof.
  intros H Hne. rewrite (docs_of_configured w store) by done.
  unfold docs_of, stored. simpl. by rewrite lookup_insert_ne.
Qed.

Lemma find_one_app_r (filt : Mongo.Filter) docs d :
  (∀ d', In d' docs → Mongo.matches filt d' = false) →
  Mongo.matches filt d = true →
  Mongo.find_one filt (docs ++ [d]) = Some d.
Proof.
  intros Hno Hd. unfold Mongo.find_one.
  induction docs as [|d0 docs IH]; simpl.
  - by rewrite Hd.
  - rewrite (Hno d0) by (simpl; auto). apply IH. intros d' Hd'. apply Hno. simpl; auto.
Qed.

Lemma matches_by_email_false (e : string) d :
  Mongo.matches (by_email e) d = false ↔ d !! "email" ≠ Some (VStr e).
Proof.
  rewrite <- matches_by_email. by destruct (Mongo.matches (by_email e) d).
Qed.

End gateway.

(* ===================================================================== *)
(** ** Registration and login *)
(* ===================================================================== *)

Section auth.

Implicit Types (w : World) (store : Database) (u : Doc).

Lemma by_email_truthy (e : string) (docs : list Doc) u :
  Mongo.find_one (by_email e) docs = Some u → doc_truthy (Some u) = true.
Proof.
  intros H. apply find_one_Some in H as [_ H]. apply matches_by_email in H.
  by eapply doc_truthy_lookup.
Qed.

(** A registered email is refused, whatever else the request says. *)
Lemma register_conflict (req : RegisterRequest.t) w u :
  Mongo.find_one (by_email (RegisterRequest.email req)) (docs_of w "user") = Some u →
  register req w = (Raise (HTTPException 400 "Email already registered"), w).
Proof.
  intros Hu.
  destruct (docs_configured w "user" u) as [store Hdb].
  { by apply find_one_Some in Hu as [? _]. }
  unfold register, bind. rewrite (collection_configured _ _ _ Hdb).
  unfold find_one. rewrite Hu. by rewrite (by_email_truthy _ _ _ Hu).
Qed.

(** C5. The first registration of an email succeeds and stores a user
    with role "student" and [is_active] true; registering the email again
    is refused with 400 "Email already registered" whatever name,
    password or phone the second request carries, and stores nothing. *)
Theorem register_twice (req1 req2 : RegisterRequest.t) w store :
  db w = Some store →
  (∀ d, In d (docs_of w "user") →
        d !! "email" ≠ Some (VStr (RegisterRequest.email req1))) →
  RegisterRequest.email req2 = RegisterRequest.email req1 →
  let now := VDate (Py.DateTime.now_utc (clock w (ticks w))) in
  let user :=
    <["_id" := VOid (next_oid w)]> (<["updated_at" := now]> (<["created_at" := now]>
      (User.model_dump
         {| User.name := RegisterRequest.name req1;
            User.email := RegisterRequest.email req1;
            User.password_hash := hash_password (RegisterRequest.password req1) (SECRET w);
            User.role := "student";
            User.phone := RegisterRequest.phone req1;
            User.is_active := true |}))) in
  ∃ w1,
    register req1 w =
      (Return (<["id" := VStr (Bson.ObjectId_str (next_oid w))]>
              (<["token" := VStr (hash_password (RegisterRequest.email req1) (SECRET w))]>
              (<["email" := VStr (RegisterRequest.email req1)]>
              (<["name" := VStr (RegisterRequest.name req1)]> ∅)))), w1) ∧
    docs_of w1 "user" = docs_of w "user" ++ [user] ∧
    register req2 w1 = (Raise (HTTPException 400 "Email already registered"), w1).
Proof.
  intros Hdb Hfresh Hemail now user.
  assert (Mongo.find_one (by_email (RegisterRequest.email req1)) (docs_of w "user") = None)
    as Hnone.
  { apply find_one_None. intros d Hd. apply matches_by_email_false. auto. }
  eexists. split; [|split].
  - unfold register, bind. rewrite (collection_configured _ _ _ Hdb).
    unfold find_one. rewrite Hnone. simpl.
    unfold construct, ret. simpl.
    rewrite (create_document_configured _ _ _ _ Hdb). reflexivity.
  - by rewrite docs_of_stored_eq.
  - apply (register_conflict req2 _ user). rewrite Hemail.
    rewrite docs_of_stored_eq by done. apply find_one_app_r.
    + intros d Hd. apply matches_by_email_false. auto.
    + apply matches_by_email. reflexivity.
Qed.

Lemma login_cases (req : LoginRequest.t) w store :
  db w = Some store →
  (∃ u, authenticates w req u ∧ login req w = (Return (login_response w req u), w)) ∨
  ((∀ u, ¬ authenticates w req u) ∧ login req w = (Raise unauthorized, w)).
Proof.
  intros Hdb. unfold login, bind, authenticates.
  rewrite (collection_configured _ _ _ Hdb). unfold find_one.
  destruct (Mongo.find_one _ _) as [u|] eqn:Hu.
  - rewrite (by_email_truthy _ _ _ Hu). simpl.
    destruct (decide (Mongo.field u "password_hash" =
                VStr (hash_password (LoginRequest.password req) (SECRET w)))) as [Heq|Hne].
    + left. exists u. rewrite bool_decide_eq_true_2 by done. simpl.
      split; [|done]. split; [done|]. by apply field_str.
    + right. rewrite bool_decide_eq_false_2 by done. simpl.
      split; [|done]. intros u' [[= <-] Hh]. apply Hne. by apply field_str.
  - right. split; [|done]. intros u' [[=] _].
Qed.

(** C4 (as amended). With the database configured, login succeeds
    exactly when the user found for the email (the only one, when emails
    are unique) carries the SHA-256 hash of the submitted password
    followed by the secret; it then returns the token, the email and the
    stored name.  Every other login is refused with 401 "Invalid
    credentials", and no login changes the store. *)
Theorem login_outcome (req : LoginRequest.t) w store :
  db w = Some store →
  (∀ u, authenticates w req u → login req w = (Return (login_response w req u), w)) ∧
  (∀ resp, (login req w).1 = Return resp → ∃ u, authenticates w req u) ∧
  ((∀ u, ¬ authenticates w req u) → login req w = (Raise unauthorized, w)) ∧
  (http_status (login req w).1 = 200 ∨ http_status (login req w).1 = 401) ∧
  (login req w).2 = w ∧
  (∀ u, (∀ d, In d (docs_of w "user") →
              d !! "email" = Some (VStr (LoginRequest.email req)) → d = u) →
        (authenticates w req u ↔
         In u (docs_of w "user") ∧
         u !! "email" = Some (VStr (LoginRequest.email req)) ∧
         u !! "password_hash" =
           Some (VStr (hash_password (LoginRequest.password req) (SECRET w))))).
Proof.
  intros Hdb.
  assert (∀ u, (∀ d, In d (docs_of w "user") →
                     d !! "email" = Some (VStr (LoginRequest.email req)) → d = u) →
          (authenticates w req u ↔
           In u (docs_of w "user") ∧
           u !! "email" = Some (VStr (LoginRequest.email req)) ∧
           u !! "password_hash" =
             Some (VStr (hash_password (LoginRequest.password req) (SECRET w)))))
    as Hunique.
  { intros u Honly. unfold authenticates. split.
    - intros [Hf Hh]. apply find_one_Some in Hf as [Hin Hm].
      apply matches_by_email in Hm. done.
    - intros (Hin & He & Hh). split; [|done].
      destruct (find_one_is_Some (by_email (LoginRequest.email req)) _ u Hin)
        as [u' Hu']; [by apply matches_by_email|].
      rewrite Hu'. f_equal. apply find_one_Some in Hu' as [Hin' Hm'].
      apply matches_by_email in Hm'. by apply Honly. }
  destruct (login_cases req w store Hdb) as [(u & Hu & Hl)|[Hno Hl]]; rewrite Hl; simpl.
  - split; [|split; [|split; [|split; [|split]]]]; [| | | |done|done].
    + intros u' [Hf' _]. destruct Hu as [Hf _]. rewrite Hf in Hf'. by injection Hf' as <-.
    + intros resp _. eauto.
    + intros H. destruct (H u Hu).
    + by left.
  - split; [|split; [|split; [|split; [|split]]]]; [| | | |done|done].
    + intros u Hu. destruct (Hno u Hu).
    + intros resp [=].
    + done.
    + by right.
Qed.

(** Without a database, login is a 500. *)
Lemma login_unconfigured (req : LoginRequest.t) w :
  db w = None → login req w = (Raise unavailable, w).
Proof.
  intros H. unfold login, bind. by rewrite (collection_unconfigured _ _ H).
Qed.

End auth.

(* ===================================================================== *)
(** ** Creating a membership *)
(* ===================================================================== *)

Section membership.

Implicit Types (w : World) (store : Database) (d : Doc).

Lemma create_membership_existing (req : GymPlanRequest.t) w existing :
  Mongo.find_one (open_membership (GymPlanRequest.email req))
    (docs_of w "gymmembership") = Some existing →
  create_membership req w = (Return (serialize_doc (Some existing)), w).
Proof.
  intros Hex. pose proof Hex as Hm. apply find_one_Some in Hm as [Hin Hm].
  destruct (docs_configured _ _ _ Hin) as [store Hdb].
  apply matches_open in Hm as [He _].
  unfold create_membership, bind. rewrite (collection_configured _ _ _ Hdb).
  unfold find_one. rewrite Hex. by rewrite (doc_truthy_lookup _ _ _ He).
Qed.

Lemma create_membership_new (req : GymPlanRequest.t) w store :
  db w = Some store →
  Mongo.find_one (open_membership (GymPlanRequest.email req))
    (docs_of w "gymmembership") = None →
  let gm := Gymmembership.new (GymPlanRequest.email req) (GymPlanRequest.plan req) in
  create_membership req w =
  if Gymmembership.valid gm then
    (Return (Some (<["id" := VStr (Bson.ObjectId_str (next_oid w))]>
                  (<["email" := VStr (GymPlanRequest.email req)]>
                  (<["plan" := VStr (GymPlanRequest.plan req)]>
                  (<["status" := VStr "pending"]> ∅))))),
     stored "gymmembership" (Gymmembership.model_dump gm) w store)
  else (Raise (ValidationError "Gymmembership"), w).
Proof.
  intros Hdb Hnone gm. unfold create_membership, bind.
  rewrite (collection_configured _ _ _ Hdb). unfold find_one. rewrite Hnone. simpl.
  unfold construct. fold gm. destruct (Gymmembership.valid gm); [|done].
  unfold ret. by rewrite (create_document_configured _ _ _ _ Hdb).
Qed.

(** C2. When the email already has a pending or active membership,
    [create_membership] returns such a stored record (serialized) and
    leaves the store as it was, so the next call returns the same again;
    and the memberships change only by one new pending record, only when
    the email had no pending or active membership. *)
Theorem create_membership_idempotent (req : GymPlanRequest.t) w :
  let e := GymPlanRequest.email req in
  let memberships := docs_of w "gymmembership" in
  (∀ d, In d memberships → is_open e d →
     ∃ existing,
       In existing memberships ∧ is_open e existing ∧
       create_membership req w = (Return (serialize_doc (Some existing)), w) ∧
       ∀ plan, create_membership (GymPlanRequest.mk e plan) (create_membership req w).2
               = create_membership req w) ∧
  (docs_of (create_membership req w).2 "gymmembership" ≠ memberships →
     (∀ d, In d memberships → ¬ is_open e d) ∧
     ∃ new,
       docs_of (create_membership req w).2 "gymmembership" = memberships ++ [new] ∧
       new !! "email" = Some (VStr e) ∧
       new !! "plan" = Some (VStr (GymPlanRequest.plan req)) ∧
       new !! "status" = Some (VStr "pending")).
Proof.
  intros e memberships. split.
  - intros d Hin Hopen.
    destruct (find_one_is_Some (open_membership e) memberships d Hin) as [existing Hex].
    { by apply matches_open. }
    exists existing. pose proof Hex as Hm. apply find_one_Some in Hm as [Hin' Hm].
    apply matches_open in Hm.
    pose proof (create_membership_existing req w existing Hex) as Hcall.
    repeat split; try done; try apply Hm.
    intros plan. rewrite Hcall. simpl.
    by apply (create_membership_existing (GymPlanRequest.mk e plan)).
  - destruct (Mongo.find_one (open_membership e) memberships) as [existing|] eqn:Hex.
    { rewrite (create_membership_existing req w existing Hex). simpl. by intros []. }
    destruct (db w) as [store|] eqn:Hdb.
    2:{ unfold create_membership, bind.
        rewrite (collection_unconfigured _ _ Hdb). simpl. by intros []. }
    rewrite (create_membership_new req w store Hdb Hex).
    destruct (Gymmembership.valid _); simpl; [|by intros []].
    intros _. split.
    + intros d Hin Hopen. rewrite find_one_None in Hex.
      apply matches_open in Hopen. rewrite (Hex d Hin) in Hopen. discriminate.
    + eexists. split; [by apply docs_of_stored_eq|]. done.
Qed.

End membership.

(* ===================================================================== *)
(** ** Matches *)
(* ===================================================================== *)

Section matches.

Lemma find_many_all (limit : nat) (docs : list Doc) :
  Mongo.find_many ∅ limit docs = take limit docs.
Proof.
  unfold Mongo.find_many. f_equal.
  induction docs as [|d docs IH]; [done|].
  rewrite filter_cons_True by apply matches_empty. by rewrite IH.
Qed.

(** C9. A PATCH whose body supplies none of the four fields answers
    [{"updated": false}] for every well-formed identifier and leaves the
    whole state, the stored match and its update timestamp included, as
    it was. *)
Theorem update_match_empty_body (match_id : string) (oid : ObjectId) (w : World) :
  Bson.ObjectId_of_str match_id = Some oid →
  update_match match_id (MatchUpdateRequest.mk None None None None) w =
  (Return (Some {["updated" := VBool false]}), w).
Proof. intros H. unfold update_match. by rewrite H. Qed.

(** C10. An empty [sport] or [status] query parameter is dropped like an
    absent one: the filter stays empty and the answer is the unfiltered
    listing, cut to the limit. *)
Theorem list_matches_empty_string (sport status : option string) (limit : Z) (w : World) :
  list_matches (Some EmptyString) status limit w = list_matches None status limit w ∧
  list_matches sport (Some EmptyString) limit w = list_matches sport None limit w ∧
  ∀ store, db w = Some store →
    list_matches (Some EmptyString) (Some EmptyString) limit w =
    (Return (map (fun d => serialize_doc (Some d))
               (take (Z.to_nat limit) (docs_of w "match"))), w).
Proof.
  split; [done|]. split; [done|]. intros store Hdb.
  unfold list_matches, bind, get_documents. simpl. rewrite Hdb.
  by rewrite find_many_all.
Qed.

End matches.

(* ===================================================================== *)
(** ** Sorted lookup and in-place update *)
(* ===================================================================== *)

Section collection_calls.

Implicit Types (d m : Doc) (docs : list Doc) (filt : Mongo.Filter) (key : string).

Lemma keep_greater_fold filt key docs (best : option Doc) r :
  fold_left (Mongo.keep_greater filt key) docs best = Some r →
  best = Some r ∨ (In r docs ∧ Mongo.matches filt r = true).
Proof.
  revert best. induction docs as [|d docs IH]; simpl; intros best H; [by left|].
  apply IH in H as [H|[H1 H2]]; [|right; auto].
  unfold Mongo.keep_greater in H. destruct (Mongo.matches filt d) eqn:Hd; [|by left].
  destruct best as [b|].
  - destruct (Mongo.bson_ltb _ _); injection H as <-; [right; auto | by left].
  - injection H as <-. right; auto.
Qed.

Lemma keep_greater_fold_Some filt key docs b :
  is_Some (fold_left (Mongo.keep_greater filt key) docs (Some b)).
Proof.
  revert b. induction docs as [|d docs IH]; simpl; intros b; [eauto|].
  unfold Mongo.keep_greater at 2. destruct (Mongo.matches filt d); [|apply IH].
  destruct (Mongo.bson_ltb _ _); apply IH.
Qed.

Lemma keep_greater_fold_None filt key docs :
  (∀ d, In d docs → Mongo.matches filt d = false) →
  fold_left (Mongo.keep_greater filt key) docs None = None.
Proof.
  induction docs as [|d docs IH]; simpl; intros H; [done|].
  unfold Mongo.keep_greater at 2. rewrite (H d) by auto. apply IH. auto.
Qed.

Lemma find_one_desc_Some filt key docs m :
  Mongo.find_one_desc filt key docs = Some m →
  In m docs ∧ Mongo.matches filt m = true.
Proof. intros H. by apply keep_greater_fold in H as [?|?]. Qed.

Lemma find_one_desc_is_Some filt key docs d :
  In d docs → Mongo.matches filt d = true →
  is_Some (Mongo.find_one_desc filt key docs).
Proof.
  unfold Mongo.find_one_desc. generalize (@None Doc).
  induction docs as [|d0 docs IH]; simpl; intros best Hin Hd; [done|].
  destruct Hin as [->|Hin]; [|by apply IH].
  unfold Mongo.keep_greater at 2. rewrite Hd.
  destruct best as [b|]; [destruct (Mongo.bson_ltb _ _)|]; apply keep_greater_fold_Some.
Qed.

Lemma find_one_desc_None filt key docs :
  (∀ d, In d docs → Mongo.matches filt d = false) →
  Mongo.find_one_desc filt key docs = None.
Proof. apply keep_greater_fold_None. Qed.

(** Among records whose [key] is a date, the sorted lookup returns one
    that no other match is more recent than. *)
Lemma keep_greater_fold_max filt key docs (b r : Doc) (tb : datetime) :
  Forall (fun d => Mongo.matches filt d = true → ∃ t, Mongo.field d key = VDate t) docs →
  Mongo.field b key = VDate tb →
  fold_left (Mongo.keep_greater filt key) docs (Some b) = Some r →
  ∃ tr, Mongo.field r key = VDate tr ∧
        Py.DateTime.instant tb <= Py.DateTime.instant tr ∧
        ∀ d t, In d docs → Mongo.matches filt d = true → Mongo.field d key = VDate t →
               Py.DateTime.instant t <= Py.DateTime.instant tr.
Proof.
  revert b tb. induction docs as [|d docs IH]; simpl; intros b tb Hall Hb H.
  { injection H as <-. exists tb. repeat split; [done|lia|]. by intros ? ? []. }
  apply Forall_cons in Hall as [Hd Hall].
  unfold Mongo.keep_greater at 2 in H. destruct (Mongo.matches filt d) eqn:Hm.
  - destruct (Hd eq_refl) as [td Htd]. rewrite Hb, Htd in H. simpl in H.
    destruct (Z.ltb_spec (Py.DateTime.instant tb) (Py.DateTime.instant td)).
    + destruct (IH d td Hall Htd H) as (tr & Hr & Hle & Hmax).
      exists tr. repeat split; [done|lia|].
      intros d' t [<-|Hin] Hm' Hk; [|eauto].
      rewrite Htd in Hk. injection Hk as <-. done.
    + destruct (IH b tb Hall Hb H) as (tr & Hr & Hle & Hmax).
      exists tr. repeat split; [done|done|].
      intros d' t [<-|Hin] Hm' Hk; [|eauto].
      rewrite Htd in Hk. injection Hk as <-. lia.
  - destruct (IH b tb Hall Hb H) as (tr & Hr & Hle & Hmax).
    exists tr. repeat split; [done|done|].
    intros d' t [<-|Hin] Hm' Hk; [congruence|eauto].
Qed.

Lemma find_one_desc_most_recent filt key docs m :
  Forall (fun d => Mongo.matches filt d = true → ∃ t, Mongo.field d key = VDate t) docs →
  Mongo.find_one_desc filt key docs = Some m →
  ∃ tm, Mongo.field m key = VDate tm ∧
        ∀ d t, In d docs → Mongo.matches filt d = true → Mongo.field d key = VDate t →
               Py.DateTime.instant t <= Py.DateTime.instant tm.
Proof.
  unfold Mongo.find_one_desc.
  induction docs as [|d docs IH]; simpl; intros Hall H; [done|].
  pose proof Hall as Hall'. apply Forall_cons in Hall' as [Hd Hrest].
  unfold Mongo.keep_greater at 2 in H. destruct (Mongo.matches filt d) eqn:Hm.
  - destruct (Hd eq_refl) as [td Htd].
    destruct (keep_greater_fold_max filt key docs d m td Hrest Htd H) as (tr & Hr & Hle & Hmax).
    exists tr. split; [done|].
    intros d' t [<-|Hin] Hm' Hk; [|eauto].
    rewrite Htd in Hk. by injection Hk as <-.
  - destruct (IH Hrest H) as (tm & Hr & Hmax). exists tm. split; [done|].
    intros d' t [<-|Hin] Hm' Hk; [congruence|eauto].
Qed.

Lemma field_date d key (t : datetime) :
  Mongo.field d key = VDate t ↔ d !! key = Some (VDate t).
Proof.
  unfold Mongo.field. destruct (d !! key) as [v|]; simpl; split; congruence.
Qed.

(** Among dated records the sorted lookup returns the email's latest. *)
Lemma find_one_desc_latest (e : string) docs m :
  dated docs →
  Mongo.find_one_desc (by_email e) "created_at" docs = Some m →
  latest e docs m.
Proof.
  intros Hdated Hm.
  destruct (find_one_desc_most_recent (by_email e) "created_at" docs m) as (tm & Htm & Hmax).
  - eapply Forall_impl; [exact Hdated|]. intros d [t Ht] _. exists t. by apply field_date.
  - done.
  - exists tm. split; [by apply field_date|]. intros d t Hin He Ht.
    apply (Hmax d t Hin); [by apply matches_by_email | by apply field_date].
Qed.

(** When [m], at position [i], is the only match, the update rewrites
    position [i] and the plain lookup finds [m]. *)
Lemma update_one_at filt (fields : Doc) docs i m :
  docs !! i = Some m → Mongo.matches filt m = true → only_match filt docs i →
  Mongo.update_one filt fields docs = <[i := fields ∪ m]> docs.
Proof.
  revert i. induction docs as [|d docs IH]; intros i Hi Hm Honly; [done|].
  simpl. destruct (Mongo.matches filt d) eqn:Hd.
  - assert (0%nat = i) as <- by (by apply (Honly 0%nat d)).
    simpl in Hi. by injection Hi as ->.
  - destruct i as [|i]; simpl in Hi.
    { injection Hi as ->. congruence. }
    simpl. f_equal. apply IH; try done.
    intros j d' Hj Hd'. specialize (Honly (S j) d' Hj Hd'). lia.
Qed.

Lemma find_one_at filt docs i m :
  docs !! i = Some m → Mongo.matches filt m = true → only_match filt docs i →
  Mongo.find_one filt docs = Some m.
Proof.
  revert i. unfold Mongo.find_one.
  induction docs as [|d docs IH]; intros i Hi Hm Honly; [done|].
  simpl. destruct (Mongo.matches filt d) eqn:Hd.
  - assert (0%nat = i) as <- by (by apply (Honly 0%nat d)).
    simpl in Hi. by injection Hi as ->.
  - destruct i as [|i]; simpl in Hi.
    { injection Hi as ->. congruence. }
    apply (IH i); try done.
    intros j d' Hj Hd'. specialize (Honly (S j) d' Hj Hd'). lia.
Qed.

Lemma In_lookup docs d : In d docs → ∃ i, docs !! i = Some d.
Proof. intros H. by apply list_elem_of_lookup, list_elem_of_In. Qed.

Lemma lookup_In docs (i : nat) d : docs !! i = Some d → In d docs.
Proof. intros H. apply list_elem_of_In. by eapply list_elem_of_lookup_2. Qed.

Lemma oid_of_Some d (o : ObjectId) : oid_of d = Some o ↔ d !! "_id" = Some (VOid o).
Proof.
  unfold oid_of. destruct (d !! "_id") as [[]|]; split; congruence.
Qed.

Lemma identified_oid docs d : identified docs → In d docs → ∃ o, d !! "_id" = Some (VOid o).
Proof.
  intros [Hall _] Hin. rewrite Forall_forall in Hall.
  destruct (Hall d) as [o Ho]; [by apply list_elem_of_In|]. exists o. by apply oid_of_Some.
Qed.

Lemma identified_only docs (i : nat) m (o : ObjectId) :
  identified docs → docs !! i = Some m → m !! "_id" = Some (VOid o) →
  only_match (by_id (VOid o)) docs i.
Proof.
  intros [_ Hnd] Hi Hm j d Hj Hd. apply matches_by_id in Hd.
  apply (NoDup_lookup _ j i (Some o) Hnd); rewrite list_lookup_fmap.
  - rewrite Hj. simpl. f_equal. by apply oid_of_Some.
  - rewrite Hi. simpl. f_equal. by apply oid_of_Some.
Qed.

Lemma only_match_insert filt docs (i : nat) m' :
  only_match filt docs i → only_match filt (<[i := m']> docs) i.
Proof.
  intros Honly j d Hj Hd. destruct (decide (j = i)) as [|Hne]; [done|].
  rewrite list_lookup_insert_ne in Hj by done. eauto.
Qed.

End collection_calls.

(* ===================================================================== *)
(** ** Payments *)
(* ===================================================================== *)

Section payments.

Implicit Types (w : World) (store : Database) (d m : Doc) (req : PaymentRequest.t).

Lemma docs_of_tick w (name : string) : docs_of (tick w) name = docs_of w name.
Proof. reflexivity. Qed.

Lemma docs_of_set_docs_eq w store (name : string) (docs : list Doc) :
  db w = Some store → docs_of (set_docs name docs w) name = docs.
Proof. intros H. unfold docs_of, set_docs. simpl. rewrite H. simpl. by rewrite lookup_insert_eq. Qed.

Lemma docs_of_set_docs_ne w (name other : string) (docs : list Doc) :
  name ≠ other → docs_of (set_docs name docs w) other = docs_of w other.
Proof.
  intros Hne. unfold docs_of, set_docs. simpl.
  destruct (db w) as [store|]; simpl; [|done]. by rewrite lookup_insert_ne.
Qed.

Lemma update_one_nonempty (c : Collection) (filt : Mongo.Filter) (fields : Doc) w d :
  In d (docs_of w c) →
  update_one c filt fields w =
  (Return tt, set_docs c (Mongo.update_one filt fields (docs_of w c)) w).
Proof. unfold update_one. by destruct (docs_of w c); [intros []|]. Qed.

Lemma reference_or_generated_run req w :
  reference_or_generated req w = (Return (reference_of req w), referenced req w).
Proof.
  unfold reference_or_generated, reference_of, referenced, reference_reads.
  destruct (PaymentRequest.reference req) as [r|]; [destruct (py_truthy (VStr r))|]; done.
Qed.

Lemma referenced_facts req w :
  db (referenced req w) = db w ∧ clock (referenced req w) = clock w ∧
  next_oid (referenced req w) = next_oid w ∧
  ticks (referenced req w) = (reference_reads req + ticks w)%nat ∧
  ∀ name, docs_of (referenced req w) name = docs_of w name.
Proof.
  unfold referenced. induction (reference_reads req) as [|n IH]; simpl; [done|].
  destruct IH as (H1 & H2 & H3 & H4 & H5).
  split; [done|]. split; [done|]. split; [done|]. split; [by rewrite H4|].
  intros name. rewrite docs_of_tick. apply H5.
Qed.

Lemma schema_accepts_valid req w :
  Payment.valid (payment_of req w) = schema_accepts req.
Proof. unfold Payment.valid, schema_accepts. simpl. apply andb_true_r. Qed.

(** A request the [Payment] model refuses raises before anything is
    stored. *)
Lemma create_payment_refused req w :
  schema_accepts req = false →
  create_payment req w = (Raise (ValidationError "Payment"), referenced req w).
Proof.
  intros H. unfold create_payment, bind. rewrite reference_or_generated_run.
  unfold construct. fold (payment_of req w). by rewrite schema_accepts_valid, H.
Qed.

Lemma activated_union (start : datetime) m :
  <["status" := VStr "active"]> (<["start_date" := VDate start]>
  (<["end_date" :=
      VDate (Py.DateTime.add start (Py.DateTime.timedelta_days (delta_days m)))]> ∅)) ∪ m
  = activated start m.
Proof. unfold activated. by rewrite <- !insert_union_l, (left_id_L ∅ (∪)). Qed.

Lemma create_payment_found req w store m :
  db w = Some store →
  schema_accepts req = true →
  identified (docs_of w "gymmembership") →
  Mongo.find_one_desc (by_email (PaymentRequest.email req)) "created_at"
    (docs_of w "gymmembership") = Some m →
  ∃ i, docs_of w "gymmembership" !! i = Some m ∧
    create_payment req w =
    (Return (paid w (serialize_doc (Some (activated (activation_time req w) m)))),
     after_payment req w store i m).
Proof.
  intros Hdb Hok Hid Hm.
  destruct (referenced_facts req w) as (Hdb1 & Hclock1 & Hoid1 & Hticks1 & Hdocs1).
  rewrite Hdb in Hdb1.
  pose proof Hm as Hm'. apply find_one_desc_Some in Hm' as [Hin Hmatch].
  apply matches_by_email in Hmatch.
  destruct (In_lookup _ _ Hin) as [i Hi]. exists i. split; [done|].
  destruct (identified_oid _ _ Hid Hin) as [o Ho].
  pose proof (identified_only _ _ _ _ Hid Hi Ho) as Honly.
  set (start := activation_time req w).
  assert (activated start m !! "_id" = Some (VOid o)) as Ho'.
  { unfold activated. by rewrite !lookup_insert_ne. }
  unfold create_payment, bind. rewrite reference_or_generated_run.
  unfold construct. fold (payment_of req w). rewrite schema_accepts_valid, Hok.
  unfold ret at 1.
  rewrite (create_document_configured _ _ _ _ Hdb1).
  set (w2 := stored _ _ _ _).
  assert (db w2 = Some (<["payment" :=
            Mongo.insert_one (next_oid (referenced req w))
              (<["updated_at" := VDate (Py.DateTime.now_utc (clock (referenced req w) (ticks (referenced req w))))]>
               (<["created_at" := VDate (Py.DateTime.now_utc (clock (referenced req w) (ticks (referenced req w))))]>
                (Payment.model_dump (payment_of req w))))
              (default [] (store !! "payment"))]> store)) as Hdb2 by done.
  assert (docs_of w2 "gymmembership" = docs_of w "gymmembership") as Hdocs2.
  { unfold w2. rewrite docs_of_stored_ne by done. apply Hdocs1. }
  rewrite (collection_configured _ _ _ Hdb2).
  unfold find_one_desc. rewrite Hdocs2, Hm.
  rewrite (doc_truthy_lookup _ _ _ Hmatch).
  unfold activate, bind, clock_read, subscript. rewrite Ho. unfold ret at 1.
  rewrite (update_one_nonempty _ _ _ (tick w2) m)
    by (rewrite docs_of_tick, Hdocs2; exact Hin).
  rewrite docs_of_tick, Hdocs2.
  assert (clock w2 (ticks w2) = clock w (S (reference_reads req + ticks w))) as ->.
  { unfold w2, stored. simpl. by rewrite Hclock1, Hticks1. }
  fold (activation_time req w). fold start.
  rewrite (update_one_at _ _ _ i m Hi) by (by try apply matches_by_id).
  rewrite (activated_union start m).
  unfold ret at 1. unfold find_one.
  rewrite (docs_of_set_docs_eq (tick w2) _ _ _ Hdb2).
  assert (length_ok : (i < length (docs_of w "gymmembership"))%nat).
  { by eapply lookup_lt_Some. }
  rewrite (find_one_at _ _ i (activated start m)).
  - unfold ret. rewrite (doc_truthy_lookup _ _ _ Ho').
    unfold paid, after_payment. by rewrite Hoid1.
  - by apply list_lookup_insert_eq.
  - by apply matches_by_id.
  - by apply only_match_insert.
Qed.

Lemma create_payment_not_found req w store :
  db w = Some store →
  schema_accepts req = true →
  (∀ d, In d (docs_of w "gymmembership") →
        d !! "email" ≠ Some (VStr (PaymentRequest.email req))) →
  create_payment req w =
  (Return (paid w None),
   stored "payment" (Payment.model_dump (payment_of req w)) (referenced req w) store).
Proof.
  intros Hdb Hok Hnone.
  destruct (referenced_facts req w) as (Hdb1 & Hclock1 & Hoid1 & Hticks1 & Hdocs1).
  rewrite Hdb in Hdb1.
  unfold create_payment, bind. rewrite reference_or_generated_run.
  unfold construct. fold (payment_of req w). rewrite schema_accepts_valid, Hok.
  unfold ret at 1.
  rewrite (create_document_configured _ _ _ _ Hdb1).
  set (w2 := stored _ _ _ _).
  assert (∃ store2, db w2 = Some store2) as [store2 Hdb2] by (by eexists).
  assert (docs_of w2 "gymmembership" = docs_of w "gymmembership") as Hdocs2.
  { unfold w2. rewrite docs_of_stored_ne by done. apply Hdocs1. }
  rewrite (collection_configured _ _ _ Hdb2).
  unfold find_one_desc. rewrite Hdocs2.
  rewrite find_one_desc_None.
  - unfold ret. simpl. unfold paid. by rewrite Hoid1.
  - intros d Hd. apply matches_by_email_false. auto.
Qed.

End payments.

Section payment_properties.

Implicit Types (w : World) (store : Database) (d m : Doc) (req : PaymentRequest.t).

Lemma sub_add (t : datetime) (delta : Py.DateTime.timedelta) :
  Py.DateTime.sub (Py.DateTime.add t delta) t = delta.
Proof. unfold Py.DateTime.sub, Py.DateTime.add, Py.DateTime.instant. simpl. lia. Qed.

Lemma delta_days_cases m :
  (m !! "plan" = Some (VStr "monthly") → delta_days m = 30) ∧
  (m !! "plan" = Some (VStr "quarterly") → delta_days m = 90) ∧
  (m !! "plan" ≠ Some (VStr "monthly") → m !! "plan" ≠ Some (VStr "quarterly") →
   delta_days m = 365).
Proof.
  unfold delta_days. repeat split.
  - intros ->. done.
  - intros ->. done.
  - intros H1 H2. by rewrite !bool_decide_eq_false_2.
Qed.

Lemma after_payment_memberships req w store (i : nat) m :
  db w = Some store →
  docs_of (after_payment req w store i m) "gymmembership" =
  <[i := activated (activation_time req w) m]> (docs_of w "gymmembership").
Proof.
  intros Hdb. unfold after_payment.
  eapply (docs_of_set_docs_eq (tick _)). reflexivity.
Qed.

Lemma activated_lookup (start : datetime) m :
  activated start m !! "status" = Some (VStr "active") ∧
  activated start m !! "start_date" = Some (VDate start) ∧
  activated start m !! "end_date" =
    Some (VDate (Py.DateTime.add start (Py.DateTime.timedelta_days (delta_days m)))) ∧
  ∀ k, k ≠ "status" → k ≠ "start_date" → k ≠ "end_date" →
       activated start m !! k = m !! k.
Proof.
  unfold activated. split; [|split; [|split]].
  - by rewrite lookup_insert_eq.
  - rewrite lookup_insert_ne by done. by rewrite lookup_insert_eq.
  - rewrite !lookup_insert_ne by done. by rewrite lookup_insert_eq.
  - intros k H1 H2 H3. by rewrite !lookup_insert_ne.
Qed.

Lemma most_recent_exists (e : string) (docs : list Doc) d :
  In d docs → d !! "email" = Some (VStr e) →
  ∃ m, Mongo.find_one_desc (by_email e) "created_at" docs = Some m.
Proof.
  intros Hin He. apply (find_one_desc_is_Some _ _ _ d Hin). by apply matches_by_email.
Qed.

(** C1 (as amended). For every payment request the [Payment] model
    accepts (amount at least 0, purpose and method among the listed ones)
    whose email has a membership, [create_payment] rewrites the most
    recent membership of the email, and only it: status "active",
    [start_date] the time of activation and [end_date] 30 days later for
    plan "monthly", 90 for "quarterly", 365 for any other plan.  The most
    recent membership is the one the lookup sorted on [created_at]
    returns; it is the latest inserted when the records are dated.  The
    stored memberships are assumed to carry distinct identifiers, as they
    do in every state the handlers reach ([wf]). *)
Theorem create_payment_activates req w d :
  schema_accepts req = true →
  identified (docs_of w "gymmembership") →
  In d (docs_of w "gymmembership") →
  d !! "email" = Some (VStr (PaymentRequest.email req)) →
  ∃ m i w',
    Mongo.find_one_desc (by_email (PaymentRequest.email req)) "created_at"
      (docs_of w "gymmembership") = Some m ∧
    docs_of w "gymmembership" !! i = Some m ∧
    let start := activation_time req w in
    let end_ := Py.DateTime.add start (Py.DateTime.timedelta_days (delta_days m)) in
    create_payment req w =
      (Return (paid w (serialize_doc (Some (activated start m)))), w') ∧
    docs_of w' "gymmembership" = <[i := activated start m]> (docs_of w "gymmembership") ∧
    activated start m !! "status" = Some (VStr "active") ∧
    activated start m !! "start_date" = Some (VDate start) ∧
    activated start m !! "end_date" = Some (VDate end_) ∧
    (m !! "plan" = Some (VStr "monthly") →
     Py.DateTime.sub end_ start = Py.DateTime.timedelta_days 30) ∧
    (m !! "plan" = Some (VStr "quarterly") →
     Py.DateTime.sub end_ start = Py.DateTime.timedelta_days 90) ∧
    (m !! "plan" ≠ Some (VStr "monthly") → m !! "plan" ≠ Some (VStr "quarterly") →
     Py.DateTime.sub end_ start = Py.DateTime.timedelta_days 365) ∧
    (dated (docs_of w "gymmembership") →
     latest (PaymentRequest.email req) (docs_of w "gymmembership") m).
Proof.
  intros Hok Hid Hin He.
  destruct (docs_configured _ _ _ Hin) as [store Hdb].
  destruct (most_recent_exists _ _ _ Hin He) as [m Hm].
  destruct (create_payment_found req w store m Hdb Hok Hid Hm) as (i & Hi & Hrun).
  exists m, i, (after_payment req w store i m). simpl.
  destruct (activated_lookup (activation_time req w) m) as (Hs & Hstart & Hend & _).
  destruct (delta_days_cases m) as (H30 & H90 & H365).
  rewrite sub_add.
  split; [done|]. split; [done|]. split; [done|].
  split; [by apply after_payment_memberships|].
  split; [done|]. split; [done|]. split; [done|].
  split; [|split; [|split]].
  - intros H. by rewrite (H30 H).
  - intros H. by rewrite (H90 H).
  - intros H1 H2. by rewrite (H365 H1 H2).
  - intros Hdated. by apply find_one_desc_latest.
Qed.

(** C6. A payment (a request the [Payment] model accepts) activates the
    most recent membership of the email, the one the lookup sorted on
    [created_at] descending returns, whatever its status [s] is,
    "expired" included: the stored record becomes active with the time of
    activation as [start_date] and a fresh [end_date], its other fields
    untouched. *)
Theorem create_payment_any_status req w m (s : value) :
  schema_accepts req = true →
  identified (docs_of w "gymmembership") →
  Mongo.find_one_desc (by_email (PaymentRequest.email req)) "created_at"
    (docs_of w "gymmembership") = Some m →
  Mongo.field m "status" = s →
  ∃ m' w',
    create_payment req w = (Return (paid w (serialize_doc (Some m'))), w') ∧
    In m' (docs_of w' "gymmembership") ∧
    m' !! "status" = Some (VStr "active") ∧
    m' !! "start_date" = Some (VDate (activation_time req w)) ∧
    m' !! "end_date" =
      Some (VDate (Py.DateTime.add (activation_time req w)
                     (Py.DateTime.timedelta_days (delta_days m)))) ∧
    (∀ k, k ≠ "status" → k ≠ "start_date" → k ≠ "end_date" → m' !! k = m !! k) ∧
    (dated (docs_of w "gymmembership") →
     latest (PaymentRequest.email req) (docs_of w "gymmembership") m).
Proof.
  intros Hok Hid Hm _.
  destruct (docs_configured w "gymmembership" m) as [store Hdb].
  { by apply find_one_desc_Some in Hm as [? _]. }
  destruct (create_payment_found req w store m Hdb Hok Hid Hm) as (i & Hi & Hrun).
  exists (activated (activation_time req w) m), (after_payment req w store i m).
  destruct (activated_lookup (activation_time req w) m) as (Hs & Hstart & Hend & Hrest).
  split; [done|]. split.
  { rewrite (after_payment_memberships _ _ _ _ _ Hdb).
    apply (lookup_In _ i). apply list_lookup_insert_eq. by eapply lookup_lt_Some. }
  split; [done|]. split; [done|]. split; [done|]. split; [done|].
  intros Hdated. by apply find_one_desc_latest.
Qed.

(** C7 (as amended). For every payment request the [Payment] model
    accepts whose email has no membership, the payment is recorded and
    answered with status "success", its identifier and no membership, and
    the memberships are left as they were. *)
Theorem create_payment_without_membership req w store :
  db w = Some store →
  schema_accepts req = true →
  (∀ d, In d (docs_of w "gymmembership") →
        d !! "email" ≠ Some (VStr (PaymentRequest.email req))) →
  ∃ w' store',
    create_payment req w =
      (Return {| payment_id := Bson.ObjectId_str (next_oid w); status := "success";
                 membership := None |}, w') ∧
    db w' = Some store' ∧
    store' !! "gymmembership" = store !! "gymmembership" ∧
    docs_of w' "gymmembership" = docs_of w "gymmembership".
Proof.
  intros Hdb Hok Hnone.
  destruct (referenced_facts req w) as (Hdb1 & _ & _ & _ & Hdocs1). rewrite Hdb in Hdb1.
  eexists _, _. split; [by apply create_payment_not_found|].
  split; [reflexivity|]. split; [by rewrite lookup_insert_ne|].
  rewrite docs_of_stored_ne by done. apply Hdocs1.
Qed.

(** C3 (as amended). After a payment has activated a membership of the
    email, [create_membership] creates nothing: it returns a stored
    membership of the email that is pending or active and leaves the
    store as it was; when the email has a single membership, the returned
    record is the activated one. *)
Theorem create_membership_after_payment req (plan : string) w d :
  schema_accepts req = true →
  identified (docs_of w "gymmembership") →
  In d (docs_of w "gymmembership") →
  d !! "email" = Some (VStr (PaymentRequest.email req)) →
  let w' := (create_payment req w).2 in
  let again := GymPlanRequest.mk (PaymentRequest.email req) plan in
  ∃ existing,
    In existing (docs_of w' "gymmembership") ∧
    is_open (PaymentRequest.email req) existing ∧
    create_membership again w' = (Return (serialize_doc (Some existing)), w') ∧
    length (docs_of (create_membership again w').2 "gymmembership") =
      length (docs_of w "gymmembership") ∧
    ((∀ d', In d' (docs_of w "gymmembership") →
            d' !! "email" = Some (VStr (PaymentRequest.email req)) → d' = d) →
     existing = activated (activation_time req w) d).
Proof.
  intros Hok Hid Hin He w' again.
  destruct (docs_configured _ _ _ Hin) as [store Hdb].
  destruct (most_recent_exists _ _ _ Hin He) as [m Hm].
  destruct (create_payment_found req w store m Hdb Hok Hid Hm) as (i & Hi & Hrun).
  pose proof Hm as Hm'. apply find_one_desc_Some in Hm' as [Hmin Hmatch].
  apply matches_by_email in Hmatch.
  set (m' := activated (activation_time req w) m).
  assert (Hdocs' : docs_of w' "gymmembership" = <[i := m']> (docs_of w "gymmembership")).
  { unfold w'. rewrite Hrun. simpl. by apply after_payment_memberships. }
  destruct (activated_lookup (activation_time req w) m) as (Hs & _ & _ & Hrest).
  assert (Hopen : is_open (PaymentRequest.email req) m').
  { split; [|by right]. unfold m'. by rewrite Hrest. }
  assert (Hin' : In m' (docs_of w' "gymmembership")).
  { rewrite Hdocs'. apply (lookup_In _ i), list_lookup_insert_eq. by eapply lookup_lt_Some. }
  destruct (find_one_is_Some (open_membership (PaymentRequest.email req)) _ m' Hin')
    as [existing Hex]; [by apply matches_open|].
  pose proof (create_membership_existing again w' existing Hex) as Hcall.
  pose proof Hex as Hex'. apply find_one_Some in Hex' as [Hexin Hexm].
  apply matches_open in Hexm.
  exists existing. split; [done|]. split; [done|]. split; [done|]. split.
  { rewrite Hcall. simpl. by rewrite Hdocs', length_insert. }
  intros Honly. assert (m = d) as -> by (by apply Honly).
  rewrite Hdocs' in Hexin. apply In_lookup in Hexin as [j Hj].
  destruct (decide (j = i)) as [->|Hne].
  - rewrite list_lookup_insert_eq in Hj by (by eapply lookup_lt_Some). by injection Hj.
  - rewrite list_lookup_insert_ne in Hj by done.
    assert (existing = d) as ->.
    { apply Honly; [by eapply lookup_In|]. apply Hexm. }
    destruct Hid as [_ Hnd]. exfalso. apply Hne.
    apply (NoDup_lookup _ j i (oid_of d) Hnd); rewrite list_lookup_fmap.
    + by rewrite Hj.
    + by rewrite Hi.
Qed.

End payment_properties.

(* ===================================================================== *)
(** ** The invariant of the store *)
(* ===================================================================== *)

Section invariant.

Implicit Types (w : World) (store : Database) (d : Doc) (docs : list Doc).

Lemma preserves_ret {A} (a : A) : preserves (ret a).
Proof. by intros w. Qed.

Lemma preserves_raise {A} (e : exn) : preserves (@raise A e).
Proof. by intros w. Qed.

Lemma preserves_gets {A} (f : World → A) : preserves (gets f).
Proof. by intros w. Qed.

Lemma preserves_bind {A B} (c : M A) (k : A → M B) :
  preserves c → (∀ a, preserves (k a)) → preserves (bind c k).
Proof.
  intros Hc Hk w Hw. unfold bind. specialize (Hc w Hw).
  destruct (c w) as [[a|e] w1]; simpl in *; [by apply Hk | done].
Qed.

Lemma preserves_construct {A} (model : string) (valid : A → bool) (a : A) :
  preserves (construct model valid a).
Proof. unfold construct. destruct (valid a); [apply preserves_ret | apply preserves_raise]. Qed.

Lemma preserves_collection (name : string) : preserves (collection name).
Proof. intros w Hw. unfold collection. by destruct (db w). Qed.

Lemma preserves_find_one (c : Collection) (filt : Mongo.Filter) : preserves (find_one c filt).
Proof. by intros w. Qed.

Lemma preserves_find_one_desc (c : Collection) (filt : Mongo.Filter) (key : string) :
  preserves (find_one_desc c filt key).
Proof. by intros w. Qed.

Lemma preserves_subscript d (key : string) : preserves (subscript d key).
Proof. unfold subscript. destruct (d !! key); [apply preserves_ret | apply preserves_raise]. Qed.

Lemma wf_tick w : wf w → wf (tick w).
Proof. intros Hw store name docs Hdb Hdocs. by apply (Hw store name docs). Qed.

Lemma preserves_clock_read : preserves clock_read.
Proof. intros w Hw. by apply wf_tick. Qed.

Lemma preserves_get_documents (name : string) (filt : Mongo.Filter) (limit : Z) :
  preserves (get_documents name filt limit).
Proof. intros w Hw. unfold get_documents. by destruct (db w). Qed.

Lemma collection_ok_nil (next : ObjectId) : collection_ok next [].
Proof. repeat split; constructor. Qed.

Lemma collection_ok_default w store (name : string) :
  wf w → db w = Some store → collection_ok (next_oid w) (default [] (store !! name)).
Proof.
  intros Hw Hdb. destruct (store !! name) as [docs|] eqn:E; simpl.
  - by apply (Hw store name).
  - apply collection_ok_nil.
Qed.

Lemma collection_ok_succ (next : ObjectId) docs :
  collection_ok next docs → collection_ok (N.succ next) docs.
Proof.
  intros (Hid & Hlt & Hdated). split; [done|]. split; [|done].
  eapply Forall_impl; [exact Hlt|]. intros d Hd o Ho. specialize (Hd o Ho). lia.
Qed.

(** A record stored under the next identifier, with its insertion
    timestamp, extends a well-formed collection. *)
Lemma collection_ok_insert (next : ObjectId) docs (data : Doc) (t : datetime) :
  collection_ok next docs →
  collection_ok (N.succ next)
    (Mongo.insert_one next (<["updated_at" := VDate t]> (<["created_at" := VDate t]> data))
       docs).
Proof.
  intros ([Hall Hnd] & Hlt & Hdated). unfold Mongo.insert_one.
  set (new := <["_id" := VOid next]> _).
  assert (oid_of new = Some next) as Hnew.
  { unfold oid_of, new. by rewrite lookup_insert_eq. }
  split; [split|split].
  - apply Forall_app. split; [done|]. apply Forall_singleton. by rewrite Hnew.
  - rewrite fmap_app. simpl. apply NoDup_app. split; [done|].
    split; [|apply NoDup_singleton].
    intros x Hx Hx'. apply list_elem_of_singleton in Hx' as ->. rewrite Hnew in Hx.
    apply list_elem_of_fmap in Hx as (d' & Hd' & Hin).
    rewrite Forall_forall in Hlt. specialize (Hlt d' Hin next (eq_sym Hd')). lia.
  - apply Forall_app. split.
    + eapply Forall_impl; [exact Hlt|]. intros d Hd o Ho. specialize (Hd o Ho). lia.
    + apply Forall_singleton. intros o. rewrite Hnew. intros [= <-]. lia.
  - apply Forall_app. split; [done|]. apply Forall_singleton. exists t.
    unfold new. rewrite !lookup_insert_ne by done. by rewrite lookup_insert_eq.
Qed.

Lemma wf_stored (name : string) (data : Doc) w store :
  wf w → db w = Some store → wf (stored name data w store).
Proof.
  intros Hw Hdb store' name' docs' Hdb' Hdocs'. simpl in Hdb'. injection Hdb' as <-.
  simpl. destruct (decide (name' = name)) as [->|Hne].
  - rewrite lookup_insert_eq in Hdocs'. injection Hdocs' as <-.
    by apply collection_ok_insert, collection_ok_default.
  - rewrite lookup_insert_ne in Hdocs' by done.
    by apply collection_ok_succ, (Hw store name').
Qed.

Lemma preserves_create_document (name : string) (data : Doc) :
  preserves (create_document name data).
Proof.
  intros w Hw. unfold create_document. destruct (db w) as [store|] eqn:Hdb; [|done].
  simpl. by apply wf_stored.
Qed.

(** An update that names neither [_id] nor [created_at] keeps a
    collection well-formed. *)
Lemma update_one_keeps (P : Doc → Prop) (filt : Mongo.Filter) (fields : Doc) docs :
  (∀ d, P d → P (fields ∪ d)) →
  Forall P docs → Forall P (Mongo.update_one filt fields docs).
Proof.
  intros HP. induction 1 as [|d docs Hd Hall IH]; simpl; [constructor|].
  destruct (Mongo.matches filt d); constructor; auto.
Qed.

Lemma update_one_oids (filt : Mongo.Filter) (fields : Doc) docs :
  fields !! "_id" = None →
  oid_of <$> Mongo.update_one filt fields docs = oid_of <$> docs.
Proof.
  intros Hf. induction docs as [|d docs IH]; [done|]. cbn [Mongo.update_one].
  destruct (Mongo.matches filt d); rewrite !fmap_cons; f_equal; [|done].
  unfold oid_of. by rewrite lookup_union_r.
Qed.

Lemma collection_ok_update_one (next : ObjectId) (filt : Mongo.Filter) (fields : Doc) docs :
  fields !! "_id" = None → fields !! "created_at" = None →
  collection_ok next docs → collection_ok next (Mongo.update_one filt fields docs).
Proof.
  intros Hid Hcreated ([Hall Hnd] & Hlt & Hdated).
  assert (∀ d, oid_of (fields ∪ d) = oid_of d) as Hoid.
  { intros d. unfold oid_of. by rewrite lookup_union_r. }
  split; [split|split].
  - apply update_one_keeps; [|done]. intros d. by rewrite Hoid.
  - by rewrite update_one_oids.
  - apply update_one_keeps; [|done]. intros d. by rewrite Hoid.
  - apply update_one_keeps; [|done]. intros d [t Ht]. exists t.
    by rewrite lookup_union_r.
Qed.

Lemma wf_set_docs_update (c : Collection) (filt : Mongo.Filter) (fields : Doc) w :
  fields !! "_id" = None → fields !! "created_at" = None →
  wf w → wf (set_docs c (Mongo.update_one filt fields (docs_of w c)) w).
Proof.
  intros Hid Hcreated Hw store' name docs' Hdb' Hdocs'. simpl in *.
  destruct (db w) as [store|] eqn:Hdb; [|done]. simpl in Hdb'. injection Hdb' as <-.
  destruct (decide (name = c)) as [->|Hne].
  - rewrite lookup_insert_eq in Hdocs'. injection Hdocs' as <-.
    unfold docs_of. rewrite Hdb.
    by apply collection_ok_update_one, collection_ok_default.
  - rewrite lookup_insert_ne in Hdocs' by done. by apply (Hw store name).
Qed.

Lemma preserves_update_one (c : Collection) (filt : Mongo.Filter) (fields : Doc) :
  fields !! "_id" = None → fields !! "created_at" = None →
  preserves (update_one c filt fields).
Proof.
  intros Hid Hcreated w Hw. unfold update_one. simpl.
  pose proof (wf_set_docs_update c filt fields w Hid Hcreated Hw) as Hset.
  by destruct (docs_of w c).
Qed.

Lemma supplied_lacks (key : string) (fields : list (string * option string)) :
  Forall (fun kv => kv.1 ≠ key) fields → supplied fields !! key = None.
Proof.
  induction 1 as [|[k [v|]] fields Hk _ IH]; simpl; [done| |done].
  by rewrite lookup_insert_ne.
Qed.

(** Every handler keeps the invariant. *)
Lemma register_preserves (req : RegisterRequest.t) : preserves (register req).
Proof.
  unfold register.
  apply preserves_bind; [apply preserves_collection|]. intros users.
  apply preserves_bind; [apply preserves_find_one|]. intros found.
  destruct (doc_truthy found); [apply preserves_raise|].
  apply preserves_bind; [apply preserves_gets|]. intros secret.
  apply preserves_bind; [apply preserves_construct|]. intros user.
  apply preserves_bind; [apply preserves_create_document|]. intros user_id.
  apply preserves_ret.
Qed.

Lemma login_preserves (req : LoginRequest.t) : preserves (login req).
Proof.
  unfold login.
  apply preserves_bind; [apply preserves_collection|]. intros users.
  apply preserves_bind; [apply preserves_find_one|]. intros [u|]; [|apply preserves_raise].
  destruct (negb _); [apply preserves_raise|].
  apply preserves_bind; [apply preserves_gets|]. intros secret.
  destruct (negb _); [apply preserves_raise | apply preserves_ret].
Qed.

Lemma profile_preserves (email : string) : preserves (profile email).
Proof.
  unfold profile.
  apply preserves_bind; [apply preserves_collection|]. intros users.
  apply preserves_bind; [apply preserves_find_one|]. intros u.
  destruct (negb _); [apply preserves_raise | apply preserves_ret].
Qed.

Lemma get_membership_preserves (email : string) : preserves (get_membership email).
Proof.
  unfold get_membership.
  apply preserves_bind; [apply preserves_collection|]. intros memberships.
  apply preserves_bind; [apply preserves_find_one_desc|]. intros m.
  destruct (negb _); [apply preserves_raise | apply preserves_ret].
Qed.

Lemma create_membership_preserves (req : GymPlanRequest.t) :
  preserves (create_membership req).
Proof.
  unfold create_membership.
  apply preserves_bind; [apply preserves_collection|]. intros memberships.
  apply preserves_bind; [apply preserves_find_one|]. intros existing.
  destruct (doc_truthy existing); [apply preserves_ret|].
  apply preserves_bind; [apply preserves_construct|]. intros gm.
  apply preserves_bind; [apply preserves_create_document|]. intros _id.
  apply preserves_ret.
Qed.

Lemma activate_preserves (memberships : Collection) (m : Doc) :
  preserves (activate memberships m).
Proof.
  unfold activate.
  apply preserves_bind; [apply preserves_clock_read|]. intros now.
  apply preserves_bind; [apply preserves_subscript|]. intros oid.
  apply preserves_bind; [by apply preserves_update_one|]. intros _.
  apply preserves_bind; [apply preserves_subscript|]. intros oid'.
  apply preserves_find_one.
Qed.

Lemma create_payment_preserves (req : PaymentRequest.t) : preserves (create_payment req).
Proof.
  unfold create_payment.
  apply preserves_bind.
  { unfold reference_or_generated.
    destruct (PaymentRequest.reference req) as [r|]; [destruct (py_truthy (VStr r))|];
      try apply preserves_ret;
      (apply preserves_bind; [apply preserves_clock_read | intros; apply preserves_ret]). }
  intros reference.
  apply preserves_bind; [apply preserves_construct|]. intros payment.
  apply preserves_bind; [apply preserves_create_document|]. intros pay_id.
  apply preserves_bind; [apply preserves_collection|]. intros memberships.
  apply preserves_bind; [apply preserves_find_one_desc|]. intros m.
  apply preserves_bind; [|intros; apply preserves_ret].
  destruct m as [m'|]; [|apply preserves_ret].
  destruct (doc_truthy (Some m')); [apply activate_preserves | apply preserves_ret].
Qed.

Lemma list_matches_preserves (sport status : option string) (limit : Z) :
  preserves (list_matches sport status limit).
Proof.
  unfold list_matches.
  apply preserves_bind; [apply preserves_get_documents | intros; apply preserves_ret].
Qed.

Lemma create_match_preserves (req : MatchCreateRequest.t) : preserves (create_match req).
Proof.
  unfold create_match.
  apply preserves_bind; [apply preserves_construct|]. intros match_.
  apply preserves_bind; [apply preserves_create_document|]. intros _id.
  apply preserves_ret.
Qed.

Lemma update_match_preserves (match_id : string) (req : MatchUpdateRequest.t) :
  preserves (update_match match_id req).
Proof.
  unfold update_match.
  destruct (Bson.ObjectId_of_str match_id) as [oid|]; [|apply preserves_raise].
  destruct (negb _); [apply preserves_ret|].
  apply preserves_bind; [apply preserves_clock_read|]. intros now.
  apply preserves_bind; [apply preserves_collection|]. intros c.
  apply preserves_bind.
  { apply preserves_update_one; rewrite lookup_insert_ne by done;
      apply supplied_lacks; unfold MatchUpdateRequest.model_dump;
      repeat constructor; done. }
  intros _.
  apply preserves_bind; [apply preserves_collection|]. intros c'.
  apply preserves_bind; [apply preserves_find_one|]. intros doc.
  apply preserves_ret.
Qed.

(** A store without records satisfies the invariant, and the invariant
    gives what the payment theorems ask of the memberships. *)
Lemma wf_empty (env : gmap string string) (clk : nat → Z) (n : nat) (o : ObjectId) :
  wf {| environ := env; db := Some ∅; clock := clk; ticks := n; next_oid := o |}.
Proof. intros store name docs [= <-]. by rewrite lookup_empty. Qed.

Lemma wf_collection w (name : string) : wf w → collection_ok (next_oid w) (docs_of w name).
Proof.
  intros Hw. unfold docs_of. destruct (db w) as [store|] eqn:Hdb.
  - by apply collection_ok_default.
  - apply collection_ok_nil.
Qed.

Lemma wf_identified w (name : string) : wf w → identified (docs_of w name).
Proof. intros Hw. by destruct (wf_collection w name Hw) as (? & _ & _). Qed.

Lemma wf_dated w (name : string) : wf w → dated (docs_of w name).
Proof. intros Hw. by destruct (wf_collection w name Hw) as (_ & _ & ?). Qed.

End invariant.

(* ===================================================================== *)
(** ** The scenario of the specification, evaluated *)
(* ===================================================================== *)

Section scenario.

(** The proofs below compare hashes as terms; only [wrong_password_hash]
    computes them. *)
#[local] Opaque Py.SHA256.hexdigest.

Lemma identified_singleton (d : Doc) (o : ObjectId) :
  d !! "_id" = Some (VOid o) → identified [d].
Proof.
  intros H. split.
  - apply Forall_singleton. exists o. by apply oid_of_Some.
  - apply NoDup_singleton.
Qed.

Lemma pending_memberships (status : string) (n : nat) (next : ObjectId) :
  docs_of (world_of (Some (membership_store status)) n next) "gymmembership"
  = [membership_of_alice status].
Proof. reflexivity. Qed.

(** The example states are the ones the handlers produce. *)
Example registered_world_reached :
  (register (RegisterRequest.mk "Alice" alice "pw1" None) fresh_world).2 = registered_world.
Proof. reflexivity. Qed.

Example pending_world_reached :
  (create_membership (GymPlanRequest.mk alice "monthly") fresh_world).2 = pending_world.
Proof. reflexivity. Qed.

Example pending_world_wf : wf pending_world.
Proof.
  rewrite <- pending_world_reached. apply create_membership_preserves, wf_empty.
Qed.

(** Nothing in [main.py] ever writes the status "expired"; the state
    with an expired membership is given directly. *)
Example expired_memberships_identified :
  identified (docs_of expired_world "gymmembership").
Proof. apply (identified_singleton _ 1%N). reflexivity. Qed.

(** C1: a request with a negative amount is refused by the [Payment]
    model with an unhandled validation error (status 500), and Alice's
    pending membership stays pending. *)
Lemma create_payment_negative_amount :
  In (membership_of_alice "pending") (docs_of pending_world "gymmembership") ∧
  membership_of_alice "pending" !! "email"
    = Some (VStr (PaymentRequest.email alice_pays_negative)) ∧
  (create_payment alice_pays_negative pending_world).1 = Raise (ValidationError "Payment") ∧
  http_status (create_payment alice_pays_negative pending_world).1 = 500 ∧
  docs_of (create_payment alice_pays_negative pending_world).2 "gymmembership"
    = [membership_of_alice "pending"] ∧
  membership_of_alice "pending" !! "status" = Some (VStr "pending").
Proof. split; [left|repeat split]; reflexivity. Qed.

Lemma create_payment_activates_witness :
  ∃ i w',
    docs_of pending_world "gymmembership" !! i = Some (membership_of_alice "pending") ∧
    create_payment alice_pays pending_world =
      (Return (paid pending_world
         (serialize_doc (Some (activated (activation_time alice_pays pending_world)
                                 (membership_of_alice "pending"))))), w') ∧
    Py.DateTime.sub
      (Py.DateTime.add (activation_time alice_pays pending_world)
         (Py.DateTime.timedelta_days (delta_days (membership_of_alice "pending"))))
      (activation_time alice_pays pending_world) = Py.DateTime.timedelta_days 30.
Proof.
  destruct (create_payment_activates alice_pays pending_world
              (membership_of_alice "pending"))
    as (m & i & w' & Hm & Hi & Hrun & _ & _ & _ & _ & H30 & _).
  - reflexivity.
  - apply wf_identified, pending_world_wf.
  - left. reflexivity.
  - reflexivity.
  - assert (Some (membership_of_alice "pending") = Some m) as [= <-] by exact Hm.
    exists i, w'. split; [exact Hi|]. split; [exact Hrun|]. apply H30. reflexivity.
Defined.

Lemma create_payment_any_status_witness :
  ∃ m' w',
    Mongo.field (membership_of_alice "expired") "status" = VStr "expired" ∧
    create_payment alice_pays expired_world
      = (Return (paid expired_world (serialize_doc (Some m'))), w') ∧
    m' !! "status" = Some (VStr "active").
Proof.
  destruct (create_payment_any_status alice_pays expired_world
              (membership_of_alice "expired") (VStr "expired"))
    as (m' & w' & Hrun & _ & Hs & _).
  - reflexivity.
  - apply expired_memberships_identified.
  - reflexivity.
  - reflexivity.
  - exists m', w'. split; [reflexivity|]. split; [exact Hrun | exact Hs].
Defined.

(** C7: a request whose purpose is not one of the model's is refused
    too, although the email has no membership. *)
Lemma create_payment_unknown_purpose :
  docs_of fresh_world "gymmembership" = [] ∧
  (create_payment bob_donates fresh_world).1 = Raise (ValidationError "Payment") ∧
  http_status (create_payment bob_donates fresh_world).1 = 500.
Proof. repeat split; reflexivity. Qed.

Lemma create_payment_without_membership_witness :
  ∃ w',
    create_payment bob_pays pending_world =
      (Return {| payment_id := "000000000000000000000002"; status := "success";
                 membership := None |}, w') ∧
    docs_of w' "gymmembership" = [membership_of_alice "pending"].
Proof.
  destruct (create_payment_without_membership bob_pays pending_world
              (membership_store "pending"))
    as (w' & store' & Hrun & _ & _ & Hdocs).
  - reflexivity.
  - reflexivity.
  - intros d Hd. unfold pending_world in Hd. rewrite pending_memberships in Hd.
    destruct Hd as [<-|[]]. discriminate.
  - exists w'. split; [exact Hrun | exact Hdocs].
Defined.

(** C3: after Alice's payment her membership is active, and asking for a
    membership again returns that active record; the collection still
    holds the one record. *)
Lemma create_membership_returns_active :
  let w' := (create_payment alice_pays pending_world).2 in
  let m' := activated (Py.DateTime.now_utc (example_clock 3)) (membership_of_alice "pending") in
  m' !! "status" = Some (VStr "active") ∧
  docs_of w' "gymmembership" = [m'] ∧
  create_membership (GymPlanRequest.mk alice "monthly") w'
    = (Return (serialize_doc (Some m')), w') ∧
  docs_of (create_membership (GymPlanRequest.mk alice "monthly") w').2 "gymmembership" = [m'].
Proof. repeat split; reflexivity. Qed.

Lemma create_membership_after_payment_witness :
  let w' := (create_payment alice_pays pending_world).2 in
  create_membership (GymPlanRequest.mk alice "yearly") w' =
    (Return (serialize_doc (Some (activated (activation_time alice_pays pending_world)
                                    (membership_of_alice "pending")))), w').
Proof.
  destruct (create_membership_after_payment alice_pays "yearly" pending_world
              (membership_of_alice "pending"))
    as (existing & _ & _ & Hrun & _ & Honly).
  - reflexivity.
  - apply wf_identified, pending_world_wf.
  - left. reflexivity.
  - reflexivity.
  - rewrite <- Honly; [exact Hrun|].
    intros d' Hd' _. unfold pending_world in Hd'. rewrite pending_memberships in Hd'.
    by destruct Hd' as [<-|[]].
Defined.

(** C4: with no database configured, login answers 500, not 401. *)
Lemma login_without_database :
  login (LoginRequest.mk alice "pw1") unconfigured_world =
    (Raise (HTTPException 500 "Database not configured"), unconfigured_world) ∧
  http_status (login (LoginRequest.mk alice "pw1") unconfigured_world).1 = 500.
Proof. split; reflexivity. Qed.

Lemma stored_hash_inj (a b : string) : Some (VStr a) = Some (VStr b) → a = b.
Proof. by intros [= ->]. Qed.

Lemma wrong_password_hash :
  String.eqb (hash_password "pw2" (SECRET registered_world))
             (hash_password "pw1" "gbu-sports-portal-secret") = false.
Proof. vm_compute. reflexivity. Qed.

Lemma login_outcome_witness :
  login (LoginRequest.mk alice "pw1") registered_world =
    (Return (login_response registered_world (LoginRequest.mk alice "pw1") user_alice),
     registered_world) ∧
  login (LoginRequest.mk alice "pw2") registered_world =
    (Raise unauthorized, registered_world).
Proof.
  split.
  - apply (login_outcome (LoginRequest.mk alice "pw1") registered_world registered_store eq_refl).
    split; reflexivity.
  - apply (login_outcome (LoginRequest.mk alice "pw2") registered_world registered_store eq_refl).
    intros u [Hu Hh].
    assert (Some user_alice = Some u) as [= <-] by exact Hu.
    assert (hash_password "pw1" "gbu-sports-portal-secret"
            = hash_password "pw2" (SECRET registered_world)) as Heq
      by exact (stored_hash_inj _ _ Hh).
    pose proof wrong_password_hash as Hne.
    rewrite <- Heq, String.eqb_refl in Hne. discriminate Hne.
Defined.

Lemma register_twice_witness :
  ∃ w1,
    (register (RegisterRequest.mk "Alice" alice "pw1" None) fresh_world).2 = w1 ∧
    docs_of w1 "user" = [user_alice] ∧
    register (RegisterRequest.mk "Mallory" alice "other" (Some "555")) w1 =
      (Raise (HTTPException 400 "Email already registered"), w1).
Proof.
  destruct (register_twice (RegisterRequest.mk "Alice" alice "pw1" None)
              (RegisterRequest.mk "Mallory" alice "other" (Some "555"))
              fresh_world ∅)
    as (w1 & Hrun & Hdocs & Hagain).
  - reflexivity.
  - intros d [].
  - reflexivity.
  - exists w1. split; [by rewrite Hrun|]. split; [exact Hdocs | exact Hagain].
Defined.

Lemma create_membership_idempotent_witness :
  create_membership (GymPlanRequest.mk alice "quarterly") pending_world =
    (Return (serialize_doc (Some (membership_of_alice "pending"))), pending_world).
Proof.
  destruct (proj1 (create_membership_idempotent (GymPlanRequest.mk alice "quarterly")
                     pending_world) (membership_of_alice "pending"))
    as (existing & Hin & _ & Hrun & _).
  - left. reflexivity.
  - split; [|left]; reflexivity.
  - unfold pending_world in Hin. rewrite pending_memberships in Hin.
    destruct Hin as [<-|[]]. exact Hrun.
Defined.

Lemma update_match_empty_body_witness :
  update_match "65a1b2c3d4e5f60718293a4b" (MatchUpdateRequest.mk None None None None)
    fresh_world = (Return (Some {["updated" := VBool false]}), fresh_world).
Proof.
  apply (update_match_empty_body _ 31453467242603790624579205707%N). reflexivity.
Defined.

End scenario.

(* ===================================================================== *)
(** ** Accounts: registration, login and profile *)
(* ===================================================================== *)

Section accounts.

Implicit Types (w : World) (store : Database) (u d s : Doc).

(** Every field but [id] and [_id] of a serialized record is the stored
    one, rendered. *)
Lemma serialize_doc_fields d :
  d ≠ ∅ →
  ∃ s, serialize_doc (Some d) = Some s ∧
       ∀ k, k ≠ "id" → k ≠ "_id" → s !! k = iso_value <$> d !! k.
Proof.
  intros Hne. unfold serialize_doc.
  rewrite (proj2 (doc_truthy_true d) Hne). simpl.
  destruct (d !! "_id") as [v|] eqn:E; [destruct (py_truthy v)|];
    eexists; (split; [reflexivity|]); intros k Hk Hk'; rewrite lookup_fmap; [|done|done].
  by rewrite lookup_insert_ne, lookup_delete_ne.
Qed.

Lemma serialize_doc_oid d (o : ObjectId) :
  d !! "_id" = Some (VOid o) →
  ∃ s, serialize_doc (Some d) = Some s ∧
       s !! "id" = Some (VStr (Bson.ObjectId_str o)) ∧ s !! "_id" = None ∧
       ∀ k, k ≠ "id" → k ≠ "_id" → s !! k = iso_value <$> d !! k.
Proof.
  intros E. rewrite (serialize_doc_renamed d (VOid o) E eq_refl).
  eexists. split; [reflexivity|].
  rewrite !lookup_fmap, lookup_insert_eq, lookup_insert_ne, lookup_delete_eq by done.
  repeat split. intros k Hk Hk'.
  by rewrite lookup_fmap, lookup_insert_ne, lookup_delete_ne.
Qed.

Lemma register_fresh (req : RegisterRequest.t) w store :
  db w = Some store →
  (∀ d, In d (docs_of w "user") →
        d !! "email" ≠ Some (VStr (RegisterRequest.email req))) →
  register req w =
    (Return (<["id" := VStr (Bson.ObjectId_str (next_oid w))]>
            (<["token" := VStr (hash_password (RegisterRequest.email req) (SECRET w))]>
            (<["email" := VStr (RegisterRequest.email req)]>
            (<["name" := VStr (RegisterRequest.name req)]> ∅)))),
     stored "user" (User.model_dump
         {| User.name := RegisterRequest.name req;
            User.email := RegisterRequest.email req;
            User.password_hash := hash_password (RegisterRequest.password req) (SECRET w);
            User.role := "student";
            User.phone := RegisterRequest.phone req;
            User.is_active := true |}) w store).
Proof.
  intros Hdb Hfresh.
  assert (Mongo.find_one (by_email (RegisterRequest.email req)) (docs_of w "user") = None)
    as Hnone.
  { apply find_one_None. intros d Hd. apply matches_by_email_false. auto. }
  unfold register, bind. rewrite (collection_configured _ _ _ Hdb).
  unfold find_one. rewrite Hnone. simpl.
  unfold construct, ret. simpl.
  by rewrite (create_document_configured _ _ _ _ Hdb).
Qed.

(** After a first registration the user of the email is the stored one. *)
Lemma registered_user (req : RegisterRequest.t) w store :
  db w = Some store →
  (∀ d, In d (docs_of w "user") →
        d !! "email" ≠ Some (VStr (RegisterRequest.email req))) →
  let w1 := (register req w).2 in
  (∃ store1, db w1 = Some store1) ∧ SECRET w1 = SECRET w ∧
  docs_of w1 "user" = docs_of w "user" ++ [user_of req w] ∧
  Mongo.find_one (by_email (RegisterRequest.email req)) (docs_of w1 "user")
    = Some (user_of req w).
Proof.
  intros Hdb Hfresh w1. unfold w1. rewrite (register_fresh req w store Hdb Hfresh).
  cbn [snd]. split; [by eexists|]. split; [done|].
  rewrite docs_of_stored_eq by done. split; [done|].
  apply find_one_app_r.
  - intros d Hd. apply matches_by_email_false. auto.
  - apply matches_by_email. reflexivity.
Qed.

(** X1. A first registration followed by a login with the same email and
    password succeeds: the login returns the token the registration
    returned, with the email and the registered name, and changes
    nothing. *)
Theorem register_then_login (req : RegisterRequest.t) w store :
  db w = Some store →
  (∀ d, In d (docs_of w "user") →
        d !! "email" ≠ Some (VStr (RegisterRequest.email req))) →
  let w1 := (register req w).2 in
  let token := VStr (hash_password (RegisterRequest.email req) (SECRET w)) in
  (∃ resp, (register req w).1 = Return resp ∧ resp !! "token" = Some token) ∧
  login (LoginRequest.mk (RegisterRequest.email req) (RegisterRequest.password req)) w1 =
    (Return (<["token" := token]> (<["email" := VStr (RegisterRequest.email req)]>
            (<["name" := VStr (RegisterRequest.name req)]> ∅))), w1).
Proof.
  intros Hdb Hfresh w1 token.
  destruct (registered_user req w store Hdb Hfresh) as ([store1 Hdb1] & Hsecret & _ & Hfind).
  fold w1 in Hdb1, Hsecret, Hfind. split.
  - rewrite (register_fresh req w store Hdb Hfresh). eexists. split; [reflexivity|].
    rewrite lookup_insert_ne by done. by rewrite lookup_insert_eq.
  - unfold login, bind. rewrite (collection_configured _ _ _ Hdb1).
    unfold find_one. cbn [LoginRequest.email LoginRequest.password]. rewrite Hfind.
    rewrite (by_email_truthy _ _ _ Hfind). cbn [negb]. unfold gets. rewrite Hsecret.
    assert (Mongo.field (user_of req w) "password_hash" =
            VStr (hash_password (RegisterRequest.password req) (SECRET w))) as -> by done.
    rewrite bool_decide_eq_true_2 by done. done.
Qed.

Lemma profile_found (email : string) w u :
  Mongo.find_one (by_email email) (docs_of w "user") = Some u →
  profile email w = (Return (serialize_doc (Some (delete "password_hash" u))), w).
Proof.
  intros Hu. destruct (docs_configured w "user" u) as [store Hdb].
  { by apply find_one_Some in Hu as [? _]. }
  unfold profile, bind. rewrite (collection_configured _ _ _ Hdb).
  unfold find_one. rewrite Hu. by rewrite (by_email_truthy _ _ _ Hu).
Qed.

Lemma profile_missing (email : string) w store :
  db w = Some store →
  Mongo.find_one (by_email email) (docs_of w "user") = None →
  profile email w = (Raise (not_found "User not found"), w).
Proof.
  intros Hdb Hu. unfold profile, bind. rewrite (collection_configured _ _ _ Hdb).
  unfold find_one. by rewrite Hu.
Qed.

(** X2. The profile never shows the password hash.  Whatever the state,
    [profile] changes nothing; when it answers, the answer is the first
    user stored with the email, serialized, without the field
    [password_hash], every other field as stored; and with a database it
    answers 404 "User not found" exactly when no user has the email. *)
Theorem profile_hides_password_hash (email : string) w :
  (profile email w).2 = w ∧
  (∀ r, (profile email w).1 = Return r →
     ∃ u s, Mongo.find_one (by_email email) (docs_of w "user") = Some u ∧
       r = Some s ∧
       s !! "password_hash" = None ∧
       s !! "email" = Some (VStr email) ∧
       ∀ k, k ≠ "id" → k ≠ "_id" → k ≠ "password_hash" →
            s !! k = iso_value <$> u !! k) ∧
  (∀ store, db w = Some store →
     ((profile email w).1 = Raise (not_found "User not found") ↔
      ∀ d, In d (docs_of w "user") → d !! "email" ≠ Some (VStr email))).
Proof.
  destruct (Mongo.find_one (by_email email) (docs_of w "user")) as [u|] eqn:Hu.
  - rewrite (profile_found email w u Hu). cbn [fst snd].
    pose proof Hu as Hm. apply find_one_Some in Hm as [Hin Hm].
    apply matches_by_email in Hm.
    assert (delete "password_hash" u !! "email" = Some (VStr email)) as He.
    { by rewrite lookup_delete_ne. }
    destruct (serialize_doc_fields (delete "password_hash" u)) as (s & Hs & Hk).
    { intros H. rewrite H in He. by rewrite lookup_empty in He. }
    rewrite Hs. split; [done|]. split.
    + intros r [= <-]. exists u, s. split; [done|]. split; [done|].
      split; [by rewrite Hk, lookup_delete_eq|].
      split; [by rewrite Hk, He|].
      intros k H1 H2 H3. by rewrite Hk, lookup_delete_ne.
    + intros store Hdb. split; [done|]. intros Hno. destruct (Hno u Hin Hm).
  - split; [|split].
    + destruct (db w) as [store|] eqn:Hdb.
      * by rewrite (profile_missing email w store Hdb Hu).
      * unfold profile, bind. by rewrite (collection_unconfigured _ _ Hdb).
    + intros r. destruct (db w) as [store|] eqn:Hdb.
      * by rewrite (profile_missing email w store Hdb Hu).
      * unfold profile, bind. by rewrite (collection_unconfigured _ _ Hdb).
    + intros store Hdb. rewrite (profile_missing email w store Hdb Hu). cbn [fst].
      split; [|done]. intros _ d Hd. apply matches_by_email_false.
      rewrite find_one_None in Hu. auto.
Qed.

(** X3. After a first registration the profile of the email shows the
    registered name, phone and email, the role "student", the active
    flag, and as [id] the identifier the registration returned; it shows
    neither [_id] nor the password hash. *)
Theorem register_then_profile (req : RegisterRequest.t) w store :
  db w = Some store →
  (∀ d, In d (docs_of w "user") →
        d !! "email" ≠ Some (VStr (RegisterRequest.email req))) →
  let w1 := (register req w).2 in
  ∃ resp s,
    (register req w).1 = Return resp ∧
    profile (RegisterRequest.email req) w1 = (Return (Some s), w1) ∧
    s !! "id" = resp !! "id" ∧
    s !! "id" = Some (VStr (Bson.ObjectId_str (next_oid w))) ∧
    s !! "name" = Some (VStr (RegisterRequest.name req)) ∧
    s !! "email" = Some (VStr (RegisterRequest.email req)) ∧
    s !! "phone" = Some (opt_str (RegisterRequest.phone req)) ∧
    s !! "role" = Some (VStr "student") ∧
    s !! "is_active" = Some (VBool true) ∧
    s !! "password_hash" = None ∧
    s !! "_id" = None.
Proof.
  intros Hdb Hfresh w1.
  destruct (registered_user req w store Hdb Hfresh) as (_ & _ & _ & Hfind).
  fold w1 in Hfind.
  rewrite (profile_found _ w1 _ Hfind).
  destruct (serialize_doc_oid (delete "password_hash" (user_of req w)) (next_oid w))
    as (s & Hs & Hid & Hno & Hk); [done|].
  rewrite Hs. rewrite (register_fresh req w store Hdb Hfresh). cbn [fst].
  eexists _, s. split; [reflexivity|]. split; [reflexivity|].
  rewrite lookup_insert_eq.
  split; [done|]. split; [done|].
  repeat split; rewrite ?Hk by done; try done.
  by destruct req as [? ? ? [phone|]].
Qed.

End accounts.

(* ===================================================================== *)
(** ** Memberships: plans and the latest membership *)
(* ===================================================================== *)

Section memberships.

Implicit Types (w : World) (store : Database) (d m : Doc) (docs : list Doc).

Lemma literal_true (allowed : list string) (s : string) :
  literal allowed s = true ↔ s ∈ allowed.
Proof. apply bool_decide_eq_true. Qed.

Lemma literal_false (allowed : list string) (s : string) :
  literal allowed s = false ↔ s ∉ allowed.
Proof. apply bool_decide_eq_false. Qed.

Lemma find_one_open_None (e : string) docs :
  Mongo.find_one (open_membership e) docs = None ↔ ∀ d, In d docs → ¬ is_open e d.
Proof.
  rewrite find_one_None. split; intros H d Hd.
  - rewrite <- matches_open. rewrite (H d Hd). discriminate.
  - specialize (H d Hd). rewrite <- matches_open in H.
    by destruct (Mongo.matches (open_membership e) d).
Qed.

Lemma create_membership_stored (req : GymPlanRequest.t) w store :
  db w = Some store →
  (∀ d, In d (docs_of w "gymmembership") → ¬ is_open (GymPlanRequest.email req) d) →
  GymPlanRequest.plan req ∈ plans →
  (create_membership req w).1 =
    Return (Some (<["id" := VStr (Bson.ObjectId_str (next_oid w))]>
                 (<["email" := VStr (GymPlanRequest.email req)]>
                 (<["plan" := VStr (GymPlanRequest.plan req)]>
                 (<["status" := VStr "pending"]> ∅))))) ∧
  docs_of (create_membership req w).2 "gymmembership" =
    docs_of w "gymmembership" ++ [membership_of req w].
Proof.
  intros Hdb Hnone Hplan. apply find_one_open_None in Hnone.
  rewrite (create_membership_new req w store Hdb Hnone).
  unfold Gymmembership.valid. cbn [Gymmembership.plan Gymmembership.status Gymmembership.new].
  apply literal_true in Hplan. unfold plans in Hplan. rewrite Hplan. cbn [andb].
  assert (literal ["pending"; "active"; "expired"] "pending" = true) as -> by done.
  cbn [fst snd]. split; [done|]. by rewrite docs_of_stored_eq.
Qed.

(** X4. For an email without a pending or active membership, the plan
    decides: one of "monthly", "quarterly", "yearly" stores a pending
    membership and answers with its identifier; any other plan is
    refused by the [Gymmembership] model with a validation error (status
    500) and nothing is stored. *)
Theorem create_membership_checks_plan (req : GymPlanRequest.t) w store :
  db w = Some store →
  (∀ d, In d (docs_of w "gymmembership") → ¬ is_open (GymPlanRequest.email req) d) →
  (GymPlanRequest.plan req ∈ plans →
     ∃ w1,
       create_membership req w =
         (Return (Some (<["id" := VStr (Bson.ObjectId_str (next_oid w))]>
                       (<["email" := VStr (GymPlanRequest.email req)]>
                       (<["plan" := VStr (GymPlanRequest.plan req)]>
                       (<["status" := VStr "pending"]> ∅))))), w1) ∧
       docs_of w1 "gymmembership" = docs_of w "gymmembership" ++ [membership_of req w]) ∧
  (GymPlanRequest.plan req ∉ plans →
     create_membership req w = (Raise (ValidationError "Gymmembership"), w) ∧
     http_status (create_membership req w).1 = 500).
Proof.
  intros Hdb Hnone. apply find_one_open_None in Hnone.
  rewrite (create_membership_new req w store Hdb Hnone).
  unfold Gymmembership.valid. cbn [Gymmembership.plan Gymmembership.status Gymmembership.new].
  split.
  - intros Hplan. apply literal_true in Hplan. unfold plans in Hplan. rewrite Hplan. cbn [andb].
    assert (literal ["pending"; "active"; "expired"] "pending" = true) as -> by done.
    eexists. split; [reflexivity|]. by rewrite docs_of_stored_eq.
  - intros Hplan. apply literal_false in Hplan. unfold plans in Hplan. by rewrite Hplan.
Qed.

Lemma get_membership_found (email : string) w m :
  Mongo.find_one_desc (by_email email) "created_at" (docs_of w "gymmembership") = Some m →
  get_membership email w = (Return (serialize_doc (Some m)), w).
Proof.
  intros Hm. pose proof Hm as Hm'. apply find_one_desc_Some in Hm' as [Hin Hmatch].
  apply matches_by_email in Hmatch.
  destruct (docs_configured _ _ _ Hin) as [store Hdb].
  unfold get_membership, bind. rewrite (collection_configured _ _ _ Hdb).
  unfold find_one_desc. rewrite Hm. by rewrite (doc_truthy_lookup _ _ _ Hmatch).
Qed.

Lemma get_membership_missing (email : string) w store :
  db w = Some store →
  (∀ d, In d (docs_of w "gymmembership") → d !! "email" ≠ Some (VStr email)) →
  get_membership email w = (Raise (not_found "No membership found"), w).
Proof.
  intros Hdb Hnone. unfold get_membership, bind.
  rewrite (collection_configured _ _ _ Hdb). unfold find_one_desc.
  rewrite find_one_desc_None; [done|].
  intros d Hd. apply matches_by_email_false. auto.
Qed.

(** X5. [get_membership] answers with a stored membership of the email,
    serialized: the one no other membership of the email was inserted
    after, when the records carry their insertion timestamps.  It answers
    404 "No membership found" when the email has none, and it never
    changes the state. *)
Theorem get_membership_latest (email : string) w :
  (get_membership email w).2 = w ∧
  (∀ d, In d (docs_of w "gymmembership") → d !! "email" = Some (VStr email) →
     ∃ m, In m (docs_of w "gymmembership") ∧ m !! "email" = Some (VStr email) ∧
          get_membership email w = (Return (serialize_doc (Some m)), w) ∧
          (dated (docs_of w "gymmembership") →
           latest email (docs_of w "gymmembership") m)) ∧
  (∀ store, db w = Some store →
     (∀ d, In d (docs_of w "gymmembership") → d !! "email" ≠ Some (VStr email)) →
     get_membership email w = (Raise (not_found "No membership found"), w)).
Proof.
  split; [|split].
  - destruct (Mongo.find_one_desc (by_email email) "created_at"
                (docs_of w "gymmembership")) as [m|] eqn:Hm.
    + by rewrite (get_membership_found email w m Hm).
    + unfold get_membership, bind, collection.
      destruct (db w); [|done]. unfold find_one_desc. by rewrite Hm.
  - intros d Hin He. destruct (most_recent_exists _ _ _ Hin He) as [m Hm].
    exists m. pose proof Hm as Hm'. apply find_one_desc_Some in Hm' as [Hmin Hmatch].
    apply matches_by_email in Hmatch.
    split; [done|]. split; [done|]. split; [by apply get_membership_found|].
    intros Hdated. by apply find_one_desc_latest.
  - intros store. apply get_membership_missing.
Qed.

(** The sorted lookup commutes with a rewriting of the records that
    changes neither what the filter sees nor the sort key. *)
Lemma keep_greater_fmap (filt : Mongo.Filter) (key : string) (f : Doc → Doc)
    (best : option Doc) d :
  (∀ d, Mongo.matches filt (f d) = Mongo.matches filt d) →
  (∀ d, Mongo.field (f d) key = Mongo.field d key) →
  Mongo.keep_greater filt key (f <$> best) (f d) =
  f <$> Mongo.keep_greater filt key best d.
Proof.
  intros Hm Hk. unfold Mongo.keep_greater. rewrite Hm.
  destruct (Mongo.matches filt d); [|done].
  destruct best as [b|]; [|done]. simpl. rewrite !Hk.
  by destruct (Mongo.bson_ltb _ _).
Qed.

Lemma find_one_desc_fmap (filt : Mongo.Filter) (key : string) (f : Doc → Doc) docs :
  (∀ d, Mongo.matches filt (f d) = Mongo.matches filt d) →
  (∀ d, Mongo.field (f d) key = Mongo.field d key) →
  Mongo.find_one_desc filt key (f <$> docs) = f <$> Mongo.find_one_desc filt key docs.
Proof.
  intros Hm Hk. unfold Mongo.find_one_desc.
  change (@None Doc) with (f <$> @None Doc) at 1. generalize (@None Doc).
  induction docs as [|d docs IH]; intros best; [done|].
  rewrite fmap_cons. cbn [fold_left]. rewrite keep_greater_fmap by done. apply IH.
Qed.

(** Rewriting the one record [m] of a list without repetitions. *)
Lemma insert_as_fmap docs (i : nat) m m' :
  NoDup docs → docs !! i = Some m →
  <[i := m']> docs = (λ d, if decide (d = m) then m' else d) <$> docs.
Proof.
  intros Hnd Hi. apply list_eq. intros j. rewrite list_lookup_fmap.
  destruct (decide (j = i)) as [->|Hne].
  - rewrite list_lookup_insert_eq by (by eapply lookup_lt_Some).
    rewrite Hi. simpl. by rewrite decide_True.
  - rewrite list_lookup_insert_ne by done.
    destruct (docs !! j) as [d|] eqn:Hj; [|done]. simpl.
    rewrite decide_False; [done|]. intros ->.
    apply Hne. by apply (NoDup_lookup docs j i m).
Qed.

Lemma identified_NoDup docs : identified docs → NoDup docs.
Proof. intros [_ H]. by apply NoDup_fmap_1 in H. Qed.

Lemma matches_by_email_iff (e : string) d d' :
  d' !! "email" = d !! "email" →
  Mongo.matches (by_email e) d' = Mongo.matches (by_email e) d.
Proof.
  intros H. apply eq_true_iff_eq. rewrite !matches_by_email. by rewrite H.
Qed.

Lemma find_one_desc_activated (e : string) docs (i : nat) m (start : datetime) :
  identified docs → docs !! i = Some m →
  Mongo.find_one_desc (by_email e) "created_at" docs = Some m →
  Mongo.find_one_desc (by_email e) "created_at" (<[i := activated start m]> docs)
  = Some (activated start m).
Proof.
  intros Hid Hi Hm.
  destruct (activated_lookup start m) as (_ & _ & _ & Hrest).
  rewrite (insert_as_fmap docs i m _ (identified_NoDup _ Hid) Hi).
  rewrite find_one_desc_fmap.
  - rewrite Hm. simpl. by rewrite decide_True.
  - intros d. destruct (decide (d = m)) as [->|]; [|done].
    apply matches_by_email_iff. by apply Hrest.
  - intros d. destruct (decide (d = m)) as [->|]; [|done].
    unfold Mongo.field. by rewrite Hrest.
Qed.

(** X6. What a payment answers as [membership] is what [get_membership]
    answers for the email right afterwards. *)
Theorem get_membership_after_payment (req : PaymentRequest.t) w d :
  schema_accepts req = true →
  identified (docs_of w "gymmembership") →
  In d (docs_of w "gymmembership") →
  d !! "email" = Some (VStr (PaymentRequest.email req)) →
  let w' := (create_payment req w).2 in
  ∃ resp m',
    (create_payment req w).1 = Return resp ∧
    membership resp = Some m' ∧
    m' !! "status" = Some (VStr "active") ∧
    get_membership (PaymentRequest.email req) w' = (Return (membership resp), w').
Proof.
  intros Hok Hid Hin He w'.
  destruct (docs_configured _ _ _ Hin) as [store Hdb].
  destruct (most_recent_exists _ _ _ Hin He) as [m Hm].
  destruct (create_payment_found req w store m Hdb Hok Hid Hm) as (i & Hi & Hrun).
  set (m1 := activated (activation_time req w) m).
  assert (Hdocs' : docs_of w' "gymmembership" = <[i := m1]> (docs_of w "gymmembership")).
  { unfold w'. rewrite Hrun. cbn [snd]. by apply after_payment_memberships. }
  assert (Hfind : Mongo.find_one_desc (by_email (PaymentRequest.email req)) "created_at"
                    (docs_of w' "gymmembership") = Some m1).
  { rewrite Hdocs'. by apply find_one_desc_activated. }
  destruct (activated_lookup (activation_time req w) m) as (Hs & _ & _ & Hrest).
  destruct (identified_oid _ _ Hid (lookup_In _ _ _ Hi)) as [o Ho].
  destruct (serialize_doc_oid m1 o) as (s & Hser & _ & _ & Hk).
  { unfold m1. by rewrite Hrest. }
  rewrite (get_membership_found _ w' m1 Hfind).
  rewrite Hrun. cbn [fst membership paid]. fold m1. rewrite Hser.
  exists (paid w (Some s)), s. split; [done|]. split; [done|]. split; [|done].
  rewrite Hk by done. fold m1 in Hs. by rewrite Hs.
Qed.

End memberships.

(* ===================================================================== *)
(** ** What each handler writes *)
(* ===================================================================== *)

Section frames.

Implicit Types (w : World) (store : Database) (d m : Doc) (docs : list Doc).
Context (name : string) (P : list Doc → Prop).

Lemma keeps_docs_ret {A} (a : A) : keeps_docs name P (ret a).
Proof. by intros w. Qed.

Lemma keeps_docs_raise {A} (e : exn) : keeps_docs name P (@raise A e).
Proof. by intros w. Qed.

Lemma keeps_docs_gets {A} (f : World → A) : keeps_docs name P (gets f).
Proof. by intros w. Qed.

Lemma keeps_docs_bind {A B} (c : M A) (k : A → M B) :
  keeps_docs name P c → (∀ a, keeps_docs name P (k a)) → keeps_docs name P (bind c k).
Proof.
  intros Hc Hk w Hw. unfold bind. specialize (Hc w Hw).
  destruct (c w) as [[a|e] w1]; simpl in *; [by apply Hk | done].
Qed.

Lemma keeps_docs_construct {A} (model : string) (valid : A → bool) (a : A) :
  keeps_docs name P (construct model valid a).
Proof.
  unfold construct. destruct (valid a); [apply keeps_docs_ret | apply keeps_docs_raise].
Qed.

Lemma keeps_docs_collection (c : string) : keeps_docs name P (collection c).
Proof. intros w Hw. unfold collection. by destruct (db w). Qed.

(** The handle [collection] returns is the name it was asked for. *)
Lemma keeps_docs_bind_collection {B} (c : string) (k : Collection → M B) :
  keeps_docs name P (k c) → keeps_docs name P (bind (collection c) k).
Proof.
  intros Hk w Hw. unfold bind, collection. destruct (db w); [by apply Hk | done].
Qed.

Lemma keeps_docs_find_one (c : Collection) (filt : Mongo.Filter) :
  keeps_docs name P (find_one c filt).
Proof. by intros w. Qed.

Lemma keeps_docs_find_one_desc (c : Collection) (filt : Mongo.Filter) (key : string) :
  keeps_docs name P (find_one_desc c filt key).
Proof. by intros w. Qed.

Lemma keeps_docs_subscript d (key : string) : keeps_docs name P (subscript d key).
Proof.
  unfold subscript. destruct (d !! key); [apply keeps_docs_ret | apply keeps_docs_raise].
Qed.

Lemma keeps_docs_clock_read : keeps_docs name P clock_read.
Proof. by intros w. Qed.

Lemma keeps_docs_get_documents (c : string) (filt : Mongo.Filter) (limit : Z) :
  keeps_docs name P (get_documents c filt limit).
Proof. intros w Hw. unfold get_documents. by destruct (db w). Qed.

Lemma keeps_docs_reference (req : PaymentRequest.t) :
  keeps_docs name P (reference_or_generated req).
Proof.
  intros w Hw. rewrite reference_or_generated_run. cbn [snd].
  by rewrite (proj2 (proj2 (proj2 (proj2 (referenced_facts req w))))).
Qed.

(** A write to another collection. *)
Lemma keeps_docs_create_document_ne (c : string) (data : Doc) :
  c ≠ name → keeps_docs name P (create_document c data).
Proof.
  intros Hne w Hw. unfold create_document. destruct (db w) as [store|] eqn:Hdb; [|done].
  cbn [snd]. by rewrite docs_of_stored_ne.
Qed.

Lemma keeps_docs_update_one_ne (c : Collection) (filt : Mongo.Filter) (fields : Doc) :
  c ≠ name → keeps_docs name P (update_one c filt fields).
Proof.
  intros Hne w Hw. unfold update_one. cbn [snd].
  destruct (docs_of w c); [done|]. by rewrite docs_of_set_docs_ne.
Qed.

(** A write to the collection itself. *)
Lemma keeps_docs_create_document (data : Doc) :
  (∀ docs (o : ObjectId) (t : value),
     P docs →
     P (docs ++ [<["_id" := VOid o]> (<["updated_at" := t]> (<["created_at" := t]> data))])) →
  keeps_docs name P (create_document name data).
Proof.
  intros HP w Hw. unfold create_document. destruct (db w) as [store|] eqn:Hdb; [|done].
  cbn [snd]. rewrite docs_of_stored_eq by done. by apply HP.
Qed.

Lemma keeps_docs_update_one (filt : Mongo.Filter) (fields : Doc) :
  (∀ docs, P docs → P (Mongo.update_one filt fields docs)) →
  keeps_docs name P (update_one name filt fields).
Proof.
  intros HP w Hw. unfold update_one. cbn [snd].
  destruct (docs_of w name) as [|d docs] eqn:Hdocs; [by rewrite Hdocs|].
  destruct (db w) as [store|] eqn:Hdb.
  - rewrite (docs_of_set_docs_eq w store) by done. by apply HP.
  - by rewrite docs_of_unconfigured in Hdocs.
Qed.

End frames.

Ltac keeps_docs_step :=
  lazymatch goal with
  | |- keeps_docs _ _ (bind (collection _) _) => apply keeps_docs_bind_collection
  | |- keeps_docs _ _ (bind _ _) => apply keeps_docs_bind; [|intros ?]
  | |- keeps_docs _ _ (ret _) => apply keeps_docs_ret
  | |- keeps_docs _ _ (raise _) => apply keeps_docs_raise
  | |- keeps_docs _ _ (gets _) => apply keeps_docs_gets
  | |- keeps_docs _ _ (construct _ _ _) => apply keeps_docs_construct
  | |- keeps_docs _ _ (collection _) => apply keeps_docs_collection
  | |- keeps_docs _ _ (find_one _ _) => apply keeps_docs_find_one
  | |- keeps_docs _ _ (find_one_desc _ _ _) => apply keeps_docs_find_one_desc
  | |- keeps_docs _ _ (subscript _ _) => apply keeps_docs_subscript
  | |- keeps_docs _ _ clock_read => apply keeps_docs_clock_read
  | |- keeps_docs _ _ (get_documents _ _ _) => apply keeps_docs_get_documents
  | |- keeps_docs _ _ (reference_or_generated _) => apply keeps_docs_reference
  | |- keeps_docs ?n _ (create_document ?c _) =>
      first [ apply keeps_docs_create_document_ne; done ]
  | |- keeps_docs ?n _ (update_one ?c _ _) =>
      first [ apply keeps_docs_update_one_ne; done ]
  | |- keeps_docs _ _ (if ?b then _ else _) => destruct b
  | |- keeps_docs _ _ (match ?x with _ => _ end) => destruct x
  end.

Ltac keeps_docs_auto := repeat keeps_docs_step.

Section frame_properties.

Implicit Types (w : World) (store : Database) (d m : Doc) (docs : list Doc).

Lemma activate_frame (name : string) (P : list Doc → Prop) (c : Collection) m :
  c ≠ name → keeps_docs name P (activate c m).
Proof. intros Hne. unfold activate. keeps_docs_auto. Qed.

(** X7. Each handler writes to its own collections only: [register]
    to "user", [create_membership] to "gymmembership", [create_payment]
    to "payment" and "gymmembership", [create_match], [update_match] and
    [seed] to "match"; [login], [profile], [get_membership] and
    [list_matches] write nowhere.  Whatever the outcome, every other
    collection holds the records it held. *)
Theorem handlers_write_their_collections (name : string) w :
  (∀ req, name ≠ "user" → docs_of (register req w).2 name = docs_of w name) ∧
  (∀ req, docs_of (login req w).2 name = docs_of w name) ∧
  (∀ email, docs_of (profile email w).2 name = docs_of w name) ∧
  (∀ req, name ≠ "gymmembership" →
     docs_of (create_membership req w).2 name = docs_of w name) ∧
  (∀ email, docs_of (get_membership email w).2 name = docs_of w name) ∧
  (∀ req, name ≠ "payment" → name ≠ "gymmembership" →
     docs_of (create_payment req w).2 name = docs_of w name) ∧
  (∀ sport status limit, docs_of (list_matches sport status limit w).2 name = docs_of w name) ∧
  (∀ req, name ≠ "match" → docs_of (create_match req w).2 name = docs_of w name) ∧
  (∀ match_id req, name ≠ "match" →
     docs_of (update_match match_id req w).2 name = docs_of w name) ∧
  (name ≠ "match" → docs_of (seed w).2 name = docs_of w name).
Proof.
  set (P := λ docs : list Doc, docs = docs_of w name).
  assert (∀ A (c : M A), keeps_docs name P c → docs_of (c w).2 name = docs_of w name) as Huse.
  { intros A c Hc. by apply Hc. }
  repeat split; intros; apply Huse.
  - unfold register. keeps_docs_auto.
  - unfold login. keeps_docs_auto.
  - unfold profile. keeps_docs_auto.
  - unfold create_membership. keeps_docs_auto.
  - unfold get_membership. keeps_docs_auto.
  - unfold create_payment. keeps_docs_auto; by apply activate_frame.
  - unfold list_matches. keeps_docs_auto.
  - unfold create_match. keeps_docs_auto.
  - unfold update_match. keeps_docs_auto.
  - unfold seed. keeps_docs_auto.
Qed.

End frame_properties.

Section membership_invariant.

Implicit Types (w : World) (store : Database) (d m : Doc) (docs : list Doc).

Lemma conforming_open d : conforming d → ∃ e, d !! "email" = Some (VStr e) ∧ is_open e d.
Proof. intros ([e He] & _ & Hs). exists e. by split. Qed.

Lemma one_membership_each_nil : one_membership_each [].
Proof. split; constructor. Qed.

(** A new pending membership of an email that has no open one. *)
Lemma one_membership_each_snoc docs d (e p : string) :
  one_membership_each docs →
  (∀ d', In d' docs → ¬ is_open e d') →
  d !! "email" = Some (VStr e) → d !! "plan" = Some (VStr p) → p ∈ plans →
  d !! "status" = Some (VStr "pending") →
  one_membership_each (docs ++ [d]).
Proof.
  intros [Hall Hnd] Hnone He Hp Hin Hs. split.
  - apply Forall_app. split; [done|]. apply Forall_singleton.
    split; [eauto|]. split; [eauto|]. by left.
  - rewrite fmap_app. apply NoDup_app. split; [done|]. split; [|apply NoDup_singleton].
    intros x Hx Hx'. apply list_elem_of_singleton in Hx' as ->.
    apply list_elem_of_fmap in Hx as (d' & Hd' & Hin').
    rewrite Forall_forall in Hall. destruct (conforming_open d' (Hall d' Hin')) as (e' & He' & Hopen).
    apply (Hnone d'); [by apply list_elem_of_In|].
    assert (e' = e) as -> by congruence. done.
Qed.

(** Activating a membership keeps the memberships as they should be. *)
Lemma one_membership_each_update (filt : Mongo.Filter) (fields : Doc) docs :
  fields !! "email" = None → fields !! "plan" = None →
  fields !! "status" = Some (VStr "active") →
  one_membership_each docs → one_membership_each (Mongo.update_one filt fields docs).
Proof.
  intros He Hp Hs [Hall Hnd].
  assert (∀ d, (fields ∪ d) !! "email" = d !! "email") as Hemail.
  { intros d. by rewrite lookup_union_r. }
  split.
  - apply update_one_keeps; [|done]. intros d ([e Hde] & (p & Hdp & Hin) & _).
    split; [exists e; by rewrite Hemail|]. split.
    + exists p. split; [|done]. by rewrite lookup_union_r.
    + right. by apply lookup_union_Some_l.
  - assert ((λ d : Doc, d !! "email") <$> Mongo.update_one filt fields docs
            = (λ d : Doc, d !! "email") <$> docs) as ->; [|done].
    clear Hall Hnd. induction docs as [|d docs IH]; [done|]. cbn [Mongo.update_one].
    destruct (Mongo.matches filt d); rewrite !fmap_cons; f_equal; [apply Hemail | done].
Qed.

Lemma create_membership_keeps (req : GymPlanRequest.t) :
  keeps_docs "gymmembership" one_membership_each (create_membership req).
Proof.
  intros w Hw.
  destruct (Mongo.find_one (open_membership (GymPlanRequest.email req))
              (docs_of w "gymmembership")) as [existing|] eqn:Hex.
  { by rewrite (create_membership_existing req w existing Hex). }
  destruct (db w) as [store|] eqn:Hdb.
  2:{ unfold create_membership, bind. by rewrite (collection_unconfigured _ _ Hdb). }
  rewrite (create_membership_new req w store Hdb Hex).
  destruct (Gymmembership.valid _) eqn:Hvalid; [|done]. cbn [snd].
  rewrite docs_of_stored_eq by done.
  apply andb_true_iff in Hvalid as [Hplan _]. apply literal_true in Hplan.
  eapply one_membership_each_snoc; try done.
  by apply find_one_open_None.
Qed.

Lemma create_payment_keeps (req : PaymentRequest.t) :
  keeps_docs "gymmembership" one_membership_each (create_payment req).
Proof.
  unfold create_payment. keeps_docs_auto.
  unfold activate. keeps_docs_auto.
  apply keeps_docs_update_one. intros docs. by apply one_membership_each_update.
Qed.

(** X8. Through the handlers an email never has two memberships.  When
    every stored membership has an email, one of the three plans and the
    status "pending" or "active", and no two are of the same email, the
    same holds after every handler, whatever it was called with and
    whether it returned or raised; it holds of the empty collection. *)
Theorem handlers_keep_one_membership_each :
  one_membership_each [] ∧
  (∀ req, keeps_docs "gymmembership" one_membership_each (register req)) ∧
  (∀ req, keeps_docs "gymmembership" one_membership_each (login req)) ∧
  (∀ email, keeps_docs "gymmembership" one_membership_each (profile email)) ∧
  (∀ req, keeps_docs "gymmembership" one_membership_each (create_membership req)) ∧
  (∀ email, keeps_docs "gymmembership" one_membership_each (get_membership email)) ∧
  (∀ req, keeps_docs "gymmembership" one_membership_each (create_payment req)) ∧
  (∀ sport status limit,
     keeps_docs "gymmembership" one_membership_each (list_matches sport status limit)) ∧
  (∀ req, keeps_docs "gymmembership" one_membership_each (create_match req)) ∧
  (∀ match_id req,
     keeps_docs "gymmembership" one_membership_each (update_match match_id req)) ∧
  keeps_docs "gymmembership" one_membership_each seed.
Proof.
  split; [apply one_membership_each_nil|].
  repeat lazymatch goal with |- _ ∧ _ => split end; intros.
  - unfold register. keeps_docs_auto.
  - unfold login. keeps_docs_auto.
  - unfold profile. keeps_docs_auto.
  - apply create_membership_keeps.
  - unfold get_membership. keeps_docs_auto.
  - apply create_payment_keeps.
  - unfold list_matches. keeps_docs_auto.
  - unfold create_match. keeps_docs_auto.
  - unfold update_match. keeps_docs_auto.
  - unfold seed. keeps_docs_auto.
Qed.

End membership_invariant.

(* ===================================================================== *)
(** ** Memberships and payments, continued *)
(* ===================================================================== *)

Section more_memberships.

Implicit Types (w : World) (store : Database) (d m : Doc) (docs : list Doc).

(** A date sorts after everything that is not a later date. *)
Lemma bson_ltb_date (v : value) (t : datetime) :
  (∀ t', v = VDate t' → Py.DateTime.instant t' < Py.DateTime.instant t) →
  Mongo.bson_ltb v (VDate t) = true.
Proof.
  intros H. destruct v as [| | | |t'|]; try done.
  simpl. apply Z.ltb_lt. by apply H.
Qed.

Lemma find_one_desc_snoc (filt : Mongo.Filter) (key : string) docs d (t : datetime) :
  Mongo.matches filt d = true →
  Mongo.field d key = VDate t →
  (∀ d' t', In d' docs → Mongo.matches filt d' = true → Mongo.field d' key = VDate t' →
            Py.DateTime.instant t' < Py.DateTime.instant t) →
  Mongo.find_one_desc filt key (docs ++ [d]) = Some d.
Proof.
  intros Hd Hk Hlt. unfold Mongo.find_one_desc. rewrite fold_left_app. cbn [fold_left].
  unfold Mongo.keep_greater at 1. rewrite Hd.
  destruct (fold_left _ docs None) as [b|] eqn:Hb; [|done].
  apply find_one_desc_Some in Hb as [Hin Hm].
  rewrite Hk, bson_ltb_date; [done|]. intros t' Ht'. by apply (Hlt b).
Qed.

(** X9. A membership that [create_membership] has just stored is the
    one [get_membership] answers with, under the identifier the creation
    returned, provided the clock reads later than the insertion
    timestamps of the email's earlier memberships. *)
Theorem create_membership_then_get (req : GymPlanRequest.t) w store :
  db w = Some store →
  GymPlanRequest.plan req ∈ plans →
  (∀ d, In d (docs_of w "gymmembership") → ¬ is_open (GymPlanRequest.email req) d) →
  (∀ d t, In d (docs_of w "gymmembership") →
          d !! "email" = Some (VStr (GymPlanRequest.email req)) →
          d !! "created_at" = Some (VDate t) →
          Py.DateTime.instant t < clock w (ticks w)) →
  let w1 := (create_membership req w).2 in
  ∃ resp s,
    (create_membership req w).1 = Return (Some resp) ∧
    get_membership (GymPlanRequest.email req) w1 = (Return (Some s), w1) ∧
    s !! "id" = resp !! "id" ∧
    s !! "id" = Some (VStr (Bson.ObjectId_str (next_oid w))) ∧
    s !! "email" = Some (VStr (GymPlanRequest.email req)) ∧
    s !! "plan" = Some (VStr (GymPlanRequest.plan req)) ∧
    s !! "status" = Some (VStr "pending").
Proof.
  intros Hdb Hplan Hnone Hclock w1.
  destruct (create_membership_stored req w store Hdb Hnone Hplan) as [Hrun Hdocs].
  fold w1 in Hdocs.
  assert (Mongo.find_one_desc (by_email (GymPlanRequest.email req)) "created_at"
            (docs_of w1 "gymmembership") = Some (membership_of req w)) as Hfind.
  { rewrite Hdocs.
    apply (find_one_desc_snoc _ _ _ _ (Py.DateTime.now_utc (clock w (ticks w)))).
    - by apply matches_by_email.
    - done.
    - intros d' t' Hin Hm Ht'. apply matches_by_email in Hm. apply field_date in Ht'.
      specialize (Hclock d' t' Hin Hm Ht').
      unfold Py.DateTime.instant at 2. simpl. lia. }
  rewrite (get_membership_found _ w1 _ Hfind).
  destruct (serialize_doc_oid (membership_of req w) (next_oid w)) as (s & Hs & Hid & _ & Hk);
    [done|].
  rewrite Hs, Hrun. cbn [fst]. eexists _, s. split; [reflexivity|]. split; [reflexivity|].
  rewrite lookup_insert_eq. split; [done|]. split; [done|].
  rewrite !Hk by done. done.
Qed.

End more_memberships.

Section payment_records.

Implicit Types (w : World) (store : Database) (d m : Doc) (req : PaymentRequest.t).

Lemma str_truthy (s : string) : py_truthy (VStr s) = true ↔ s ≠ EmptyString.
Proof.
  simpl. rewrite negb_true_iff. split.
  - intros H ->. by rewrite String.eqb_refl in H.
  - intros H. by apply String.eqb_neq.
Qed.

Lemma reference_of_supplied req w (r : string) :
  PaymentRequest.reference req = Some r → r ≠ EmptyString → reference_of req w = r.
Proof.
  intros Hr Hne. unfold reference_of. rewrite Hr.
  by rewrite (proj2 (str_truthy r) Hne).
Qed.

Lemma reference_of_generated req w :
  PaymentRequest.reference req = None ∨ PaymentRequest.reference req = Some EmptyString →
  reference_of req w =
  "REF-" +:+ Py.int_str (Py.DateTime.timestamp_int (clock w (ticks w))).
Proof. unfold reference_of. by intros [->| ->]. Qed.

Lemma create_payment_payments req w store :
  db w = Some store →
  docs_of (create_payment req w).2 "payment" =
  if schema_accepts req then docs_of w "payment" ++ [payment_record req w]
  else docs_of w "payment".
Proof.
  intros Hdb.
  destruct (referenced_facts req w) as (Hdb1 & Hclock1 & Hoid1 & Hticks1 & Hdocs1).
  rewrite Hdb in Hdb1.
  destruct (schema_accepts req) eqn:Hok.
  2:{ rewrite (create_payment_refused req w Hok). cbn [snd]. apply Hdocs1. }
  unfold create_payment. unfold bind at 1. rewrite reference_or_generated_run.
  unfold bind at 1. unfold construct. fold (payment_of req w).
  rewrite schema_accepts_valid, Hok. unfold ret at 1.
  unfold bind at 1. rewrite (create_document_configured _ _ _ _ Hdb1).
  match goal with |- docs_of (?k ?w2).2 _ = _ =>
    assert (keeps_docs "payment" (λ docs, docs = docs_of w2 "payment") k) as Hk
  end.
  { keeps_docs_auto. by apply activate_frame. }
  rewrite Hk by done.
  rewrite docs_of_stored_eq by done. rewrite Hdocs1.
  unfold payment_record. by rewrite Hclock1, Hoid1, Hticks1.
Qed.

(** X10. An accepted payment is recorded once: the payments gain one
    record, with the request's email, amount, purpose and method, the
    status "success", and as reference the one supplied or, when none or
    an empty one is supplied, "REF-" followed by the seconds of the clock
    since the epoch.  A refused payment records nothing. *)
Theorem create_payment_records req w store :
  db w = Some store →
  (schema_accepts req = true →
     ∃ rec,
       docs_of (create_payment req w).2 "payment" = docs_of w "payment" ++ [rec] ∧
       rec !! "_id" = Some (VOid (next_oid w)) ∧
       rec !! "email" = Some (VStr (PaymentRequest.email req)) ∧
       rec !! "amount" = Some (VFloat (PaymentRequest.amount req)) ∧
       rec !! "purpose" = Some (VStr (PaymentRequest.purpose req)) ∧
       rec !! "method" = Some (VStr (PaymentRequest.method req)) ∧
       rec !! "status" = Some (VStr "success") ∧
       (∀ r, PaymentRequest.reference req = Some r → r ≠ EmptyString →
             rec !! "reference" = Some (VStr r)) ∧
       (PaymentRequest.reference req = None ∨
        PaymentRequest.reference req = Some EmptyString →
          rec !! "reference" =
            Some (VStr ("REF-" +:+ Py.int_str (Z.quot (clock w (ticks w)) 1000000))))) ∧
  (schema_accepts req = false →
     docs_of (create_payment req w).2 "payment" = docs_of w "payment").
Proof.
  intros Hdb. rewrite (create_payment_payments req w store Hdb). split.
  - intros ->. exists (payment_record req w). split; [done|].
    assert (payment_record req w !! "reference" = Some (VStr (reference_of req w))) as Href
      by done.
    repeat split; try done.
    + intros r Hr Hne. by rewrite Href, (reference_of_supplied req w r).
    + intros Hr. by rewrite Href, (reference_of_generated req w Hr).
  - by intros ->.
Qed.

End payment_records.

(* ===================================================================== *)
(** ** Matches *)
(* ===================================================================== *)

Section identifiers.

Lemma fixed_digits_length (base : Z) (width : nat) (n : Z) (acc : string) :
  String.length (Py.fixed_digits base width n acc) = (width + String.length acc)%nat.
Proof.
  revert n acc. induction width as [|k IH]; intros n acc; [done|].
  cbn [Py.fixed_digits]. rewrite IH. simpl. lia.
Qed.

Lemma hex_value_digit_char (d : Z) :
  0 <= d < 16 → Bson.hex_value (Py.digit_char d) = Some d.
Proof.
  intros H.
  assert (d = 0 ∨ d = 1 ∨ d = 2 ∨ d = 3 ∨ d = 4 ∨ d = 5 ∨ d = 6 ∨ d = 7 ∨ d = 8 ∨
          d = 9 ∨ d = 10 ∨ d = 11 ∨ d = 12 ∨ d = 13 ∨ d = 14 ∨ d = 15) as Hd by lia.
  repeat (destruct Hd as [->|Hd]; [reflexivity|]). by subst.
Qed.

Lemma parse_hex_fixed_digits (width : nat) (n : Z) (acc : string) (a : Z) :
  0 <= n →
  Bson.parse_hex (Py.fixed_digits 16 width n acc) a =
  Bson.parse_hex acc (a * 16 ^ Z.of_nat width + n mod 16 ^ Z.of_nat width).
Proof.
  revert n acc a. induction width as [|k IH]; intros n acc a Hn.
  { simpl. rewrite Z.mod_1_r. f_equal. lia. }
  cbn [Py.fixed_digits]. rewrite IH by (apply Z.div_pos; lia).
  cbn [Bson.parse_hex]. rewrite hex_value_digit_char by (apply Z.mod_pos_bound; lia).
  f_equal. rewrite Nat2Z.inj_succ, Z.pow_succ_r by lia.
  rewrite (Z.rem_mul_r n 16 (16 ^ Z.of_nat k)) by lia. lia.
Qed.

(** The text of an identifier reads back as the identifier. *)
Lemma ObjectId_round_trip (o : ObjectId) :
  (o < 2 ^ 96)%N → Bson.ObjectId_of_str (Bson.ObjectId_str o) = Some o.
Proof.
  intros Ho. unfold Bson.ObjectId_of_str, Bson.ObjectId_str, Py.hex_pad.
  rewrite fixed_digits_length. cbn [String.length Nat.add Nat.eqb].
  rewrite parse_hex_fixed_digits by lia. cbn [Bson.parse_hex fmap option_fmap option_map].
  f_equal. rewrite Z.mul_0_l, Z.add_0_l, Z.mod_small; [apply N2Z.id|].
  split; [lia|]. change (16 ^ Z.of_nat 24) with (Z.of_N (2 ^ 96)). lia.
Qed.

Lemma parse_hex_Some (s : string) (a : Z) :
  is_Some (Bson.parse_hex s a) ↔
  Forall (λ c, is_Some (Bson.hex_value c)) (list_ascii_of_string s).
Proof.
  revert a. induction s as [|c s IH]; intros a; simpl.
  - split; [constructor | eauto].
  - rewrite Forall_cons. destruct (Bson.hex_value c) as [d|].
    + rewrite IH. split; [eauto | by intros [_ ?]].
    + split; [by intros [? ?] | by intros [[? ?] _]].
Qed.

Lemma ObjectId_of_str_Some (text : string) :
  is_Some (Bson.ObjectId_of_str text) ↔ hex24 text.
Proof.
  unfold Bson.ObjectId_of_str, hex24.
  destruct (Nat.eqb_spec (String.length text) 24) as [Hlen|Hlen].
  - rewrite fmap_is_Some, parse_hex_Some. by split; [|intros [_ ?]].
  - split; [by intros [? ?] | by intros [? _]].
Qed.

End identifiers.

Section match_handlers.

Implicit Types (w : World) (store : Database) (d m : Doc) (docs : list Doc).

Lemma match_valid (req : MatchCreateRequest.t) :
  Match.valid
    {| Match.sport := MatchCreateRequest.sport req;
       Match.team_a := MatchCreateRequest.team_a req;
       Match.team_b := MatchCreateRequest.team_b req;
       Match.venue := MatchCreateRequest.venue req;
       Match.start_time := MatchCreateRequest.start_time req;
       Match.status := MatchCreateRequest.status req;
       Match.score_a := None; Match.score_b := None;
       Match.details := MatchCreateRequest.details req |} = true ↔
  MatchCreateRequest.sport req ∈ ["cricket"; "indoor"] ∧
  MatchCreateRequest.status req ∈ ["upcoming"; "live"; "finished"].
Proof.
  unfold Match.valid. cbn [Match.sport Match.status].
  by rewrite andb_true_iff, !literal_true.
Qed.

Lemma create_match_accepted (req : MatchCreateRequest.t) w store :
  db w = Some store →
  MatchCreateRequest.sport req ∈ ["cricket"; "indoor"] →
  MatchCreateRequest.status req ∈ ["upcoming"; "live"; "finished"] →
  ∃ w1 store1,
    create_match req w = (Return {["id" := VStr (Bson.ObjectId_str (next_oid w))]}, w1) ∧
    db w1 = Some store1 ∧ next_oid w1 = N.succ (next_oid w) ∧
    clock w1 = clock w ∧ ticks w1 = S (ticks w) ∧
    docs_of w1 "match" = docs_of w "match" ++ [match_of req w].
Proof.
  intros Hdb Hsport Hstatus. unfold create_match, bind, construct.
  rewrite (proj2 (match_valid req)) by done. unfold ret at 1.
  rewrite (create_document_configured _ _ _ _ Hdb).
  eexists _, _. split; [reflexivity|]. split; [reflexivity|].
  split; [done|]. split; [done|]. split; [done|]. by rewrite docs_of_stored_eq.
Qed.

Lemma create_match_refused (req : MatchCreateRequest.t) w :
  ¬ (MatchCreateRequest.sport req ∈ ["cricket"; "indoor"] ∧
     MatchCreateRequest.status req ∈ ["upcoming"; "live"; "finished"]) →
  create_match req w = (Raise (ValidationError "Match"), w).
Proof.
  intros H. rewrite <- match_valid in H. apply not_true_is_false in H.
  unfold create_match, bind, construct. by rewrite H.
Qed.

(** X11. [create_match] stores what the [Match] model accepts, and only
    that: with a sport among "cricket", "indoor" and a status among
    "upcoming", "live", "finished" the match is appended with the
    request's fields and no scores, and its identifier returned; any
    other sport or status is a validation error (status 500) that leaves
    the state as it was, database or not. *)
Theorem create_match_validates (req : MatchCreateRequest.t) w :
  (MatchCreateRequest.sport req ∈ ["cricket"; "indoor"] ∧
   MatchCreateRequest.status req ∈ ["upcoming"; "live"; "finished"] →
   ∀ store, db w = Some store →
     ∃ w1 rec,
       create_match req w = (Return {["id" := VStr (Bson.ObjectId_str (next_oid w))]}, w1) ∧
       docs_of w1 "match" = docs_of w "match" ++ [rec] ∧
       rec !! "_id" = Some (VOid (next_oid w)) ∧
       rec !! "sport" = Some (VStr (MatchCreateRequest.sport req)) ∧
       rec !! "team_a" = Some (VStr (MatchCreateRequest.team_a req)) ∧
       rec !! "team_b" = Some (VStr (MatchCreateRequest.team_b req)) ∧
       rec !! "venue" = Some (VStr (MatchCreateRequest.venue req)) ∧
       rec !! "start_time" = Some (VDate (MatchCreateRequest.start_time req)) ∧
       rec !! "status" = Some (VStr (MatchCreateRequest.status req)) ∧
       rec !! "details" = Some (opt_str (MatchCreateRequest.details req)) ∧
       rec !! "score_a" = Some VNone ∧ rec !! "score_b" = Some VNone) ∧
  (¬ (MatchCreateRequest.sport req ∈ ["cricket"; "indoor"] ∧
      MatchCreateRequest.status req ∈ ["upcoming"; "live"; "finished"]) →
   create_match req w = (Raise (ValidationError "Match"), w) ∧
   http_status (create_match req w).1 = 500).
Proof.
  split.
  - intros [Hsport Hstatus] store Hdb.
    destruct (create_match_accepted req w store Hdb Hsport Hstatus)
      as (w1 & store1 & Hrun & _ & _ & _ & _ & Hdocs).
    exists w1, (match_of req w). split; [done|]. split; [done|]. repeat split.
  - intros H. rewrite (create_match_refused req w H). done.
Qed.

Lemma supplied_empty (req : MatchUpdateRequest.t) :
  supplied (MatchUpdateRequest.model_dump req) = ∅ ↔ req = empty_patch.
Proof.
  destruct req as [[s|] [a|] [b|] [d|]]; cbn; (split; [|done]); intros H; try done;
    by apply insert_non_empty in H.
Qed.

Lemma updates_of_truthy (req : MatchUpdateRequest.t) :
  req ≠ empty_patch →
  doc_truthy (Some (supplied (MatchUpdateRequest.model_dump req))) = true.
Proof. intros H. apply doc_truthy_true. by rewrite supplied_empty. Qed.

Lemma updates_of_lookup (req : MatchUpdateRequest.t) w m :
  let m' := updates_of req w ∪ m in
  m' !! "status" = patched (MatchUpdateRequest.status req) (m !! "status") ∧
  m' !! "score_a" = patched (MatchUpdateRequest.score_a req) (m !! "score_a") ∧
  m' !! "score_b" = patched (MatchUpdateRequest.score_b req) (m !! "score_b") ∧
  m' !! "details" = patched (MatchUpdateRequest.details req) (m !! "details") ∧
  m' !! "updated_at" = Some (VDate (Py.DateTime.now_utc (clock w (ticks w)))) ∧
  ∀ k, k ∉ ["status"; "score_a"; "score_b"; "details"; "updated_at"] →
       m' !! k = m !! k.
Proof.
  intros m'. unfold m', updates_of.
  split; [|split; [|split; [|split; [|split]]]].
  5:{ apply lookup_union_Some_l. by rewrite lookup_insert_eq. }
  5:{ intros k Hk. apply lookup_union_r. rewrite !not_elem_of_cons in Hk.
      destruct Hk as (H1 & H2 & H3 & H4 & H5 & _).
      rewrite lookup_insert_ne by done.
      destruct req as [[s|] [a|] [b|] [d|]]; cbn;
        rewrite ?lookup_insert_ne by done; apply lookup_empty. }
  all: destruct req as [[s|] [a|] [b|] [d|]]; cbn;
    first [ apply lookup_union_Some_l; rewrite ?lookup_insert_ne by done;
            by rewrite lookup_insert_eq
          | apply lookup_union_r; rewrite ?lookup_insert_ne by done; apply lookup_empty ].
Qed.

Lemma update_one_no_match (filt : Mongo.Filter) (fields : Doc) docs :
  (∀ d, In d docs → Mongo.matches filt d = false) →
  Mongo.update_one filt fields docs = docs.
Proof.
  induction docs as [|d docs IH]; intros H; [done|]. simpl.
  rewrite (H d) by (simpl; auto). f_equal. apply IH. intros d' Hd'. apply H. simpl; auto.
Qed.

(** Writing back the records a collection holds changes nothing. *)
Lemma set_docs_same w (name : string) d docs :
  docs_of w name = d :: docs → set_docs name (d :: docs) w = w.
Proof.
  intros H. destruct w as [env [store|] clk n o]; cbn in *; [|done].
  unfold set_docs. cbn. f_equal. f_equal. apply insert_id.
  destruct (store !! name) as [l|]; cbn in H; by subst.
Qed.

Lemma update_one_unmatched (c : Collection) (filt : Mongo.Filter) (fields : Doc) w :
  (∀ d, In d (docs_of w c) → Mongo.matches filt d = false) →
  update_one c filt fields w = (Return tt, w).
Proof.
  intros H. unfold update_one. f_equal.
  destruct (docs_of w c) as [|d docs] eqn:Hdocs; [done|].
  rewrite (update_one_no_match _ _ _ H). by apply set_docs_same.
Qed.

Lemma matches_by_id_false (o : ObjectId) d :
  Mongo.matches (by_id (VOid o)) d = false ↔ d !! "_id" ≠ Some (VOid o).
Proof.
  rewrite <- matches_by_id. by destruct (Mongo.matches (by_id (VOid o)) d).
Qed.

(** X12. A PATCH that names a match that is not stored is not an error:
    with a well-formed identifier and at least one field supplied, the
    answer is an empty body (null) with status 200 rather than 404; the
    clock has been read once and nothing else has changed. *)
Theorem update_match_not_stored (match_id : string) (oid : ObjectId)
    (req : MatchUpdateRequest.t) w store :
  Bson.ObjectId_of_str match_id = Some oid →
  db w = Some store →
  req ≠ empty_patch →
  (∀ d, In d (docs_of w "match") → d !! "_id" ≠ Some (VOid oid)) →
  update_match match_id req w = (Return None, tick w) ∧
  http_status (update_match match_id req w).1 = 200 ∧
  ∀ name, docs_of (update_match match_id req w).2 name = docs_of w name.
Proof.
  intros Hoid Hdb Hreq Hnone.
  assert (update_match match_id req w = (Return None, tick w)) as Hrun.
  { unfold update_match. rewrite Hoid, (updates_of_truthy req Hreq). cbn [negb].
    unfold bind, clock_read.
    rewrite (collection_configured _ (tick w) store) by done.
    rewrite update_one_unmatched.
    2:{ intros d Hd. apply matches_by_id_false. by apply Hnone. }
    rewrite (collection_configured _ (tick w) store) by done.
    unfold find_one. rewrite docs_of_tick.
    rewrite (proj2 (find_one_None _ _)); [done|].
    intros d Hd. apply matches_by_id_false. by apply Hnone. }
  rewrite Hrun. done.
Qed.

Lemma update_match_found (match_id : string) (oid : ObjectId)
    (req : MatchUpdateRequest.t) w store (i : nat) m :
  Bson.ObjectId_of_str match_id = Some oid →
  db w = Some store →
  req ≠ empty_patch →
  identified (docs_of w "match") →
  docs_of w "match" !! i = Some m →
  m !! "_id" = Some (VOid oid) →
  update_match match_id req w =
    (Return (serialize_doc (Some (updates_of req w ∪ m))),
     set_docs "match" (<[i := updates_of req w ∪ m]> (docs_of w "match")) (tick w)).
Proof.
  intros Hoid Hdb Hreq Hid Hi Hm.
  pose proof (identified_only _ _ _ _ Hid Hi Hm) as Honly.
  assert ((updates_of req w ∪ m) !! "_id" = Some (VOid oid)) as Hm'.
  { destruct (updates_of_lookup req w m) as (_ & _ & _ & _ & _ & Hk).
    rewrite Hk; [done|]. rewrite !not_elem_of_cons. repeat split; try done.
    apply not_elem_of_nil. }
  unfold update_match. rewrite Hoid, (updates_of_truthy req Hreq). cbn [negb].
  unfold bind at 1. unfold clock_read. fold (updates_of req w).
  unfold bind at 1. rewrite (collection_configured _ (tick w) store) by done.
  unfold bind at 1.
  rewrite (update_one_nonempty _ _ _ (tick w) m) by (rewrite docs_of_tick; by eapply lookup_In).
  rewrite docs_of_tick.
  rewrite (update_one_at _ _ _ i m Hi) by (by try apply matches_by_id).
  unfold bind at 1.
  erewrite (collection_configured _ (set_docs _ _ _)) by (cbn; by rewrite Hdb).
  unfold bind, find_one.
  rewrite (docs_of_set_docs_eq (tick w) store) by done.
  rewrite (find_one_at _ _ i (updates_of req w ∪ m)); [done| | |].
  - apply list_lookup_insert_eq. by eapply lookup_lt_Some.
  - by apply matches_by_id.
  - by apply only_match_insert.
Qed.

(** X13. A PATCH of a stored match rewrites that record and no other:
    each supplied field takes the supplied text (any text: the status is
    not checked against the model), [updated_at] the time of the call,
    every other field keeps its value; the answer is the rewritten
    record, serialized. *)
Theorem update_match_sets_fields (match_id : string) (oid : ObjectId)
    (req : MatchUpdateRequest.t) w (i : nat) m :
  Bson.ObjectId_of_str match_id = Some oid →
  req ≠ empty_patch →
  identified (docs_of w "match") →
  docs_of w "match" !! i = Some m →
  m !! "_id" = Some (VOid oid) →
  ∃ m' w',
    update_match match_id req w = (Return (serialize_doc (Some m')), w') ∧
    docs_of w' "match" = <[i := m']> (docs_of w "match") ∧
    m' !! "status" = patched (MatchUpdateRequest.status req) (m !! "status") ∧
    m' !! "score_a" = patched (MatchUpdateRequest.score_a req) (m !! "score_a") ∧
    m' !! "score_b" = patched (MatchUpdateRequest.score_b req) (m !! "score_b") ∧
    m' !! "details" = patched (MatchUpdateRequest.details req) (m !! "details") ∧
    m' !! "updated_at" = Some (VDate (Py.DateTime.now_utc (clock w (ticks w)))) ∧
    ∀ k, k ∉ ["status"; "score_a"; "score_b"; "details"; "updated_at"] →
         m' !! k = m !! k.
Proof.
  intros Hoid Hreq Hid Hi Hm.
  destruct (docs_configured w "match" m (lookup_In _ _ _ Hi)) as [store Hdb].
  eexists _, _. split; [by eapply update_match_found|].
  split; [by rewrite (docs_of_set_docs_eq (tick w) store)|].
  apply updates_of_lookup.
Qed.


End match_handlers.

Section match_round_trip.

Implicit Types (w : World) (store : Database) (d m : Doc) (docs : list Doc).

(** X15. The identifier [create_match] returns designates the match it
    stored: a PATCH under that identifier rewrites the new match, it
    answers with the same [id], the supplied fields as supplied and the
    fields of the creation otherwise, and it leaves the matches stored
    before as they were. *)
Theorem create_match_then_update (create : MatchCreateRequest.t)
    (patch : MatchUpdateRequest.t) w store :
  db w = Some store → wf w → (next_oid w < 2 ^ 96)%N →
  MatchCreateRequest.sport create ∈ ["cricket"; "indoor"] →
  MatchCreateRequest.status create ∈ ["upcoming"; "live"; "finished"] →
  patch ≠ empty_patch →
  ∃ id w1 s w2 m',
    create_match create w = (Return {["id" := VStr id]}, w1) ∧
    update_match id patch w1 = (Return (Some s), w2) ∧
    docs_of w2 "match" = docs_of w "match" ++ [m'] ∧
    s !! "id" = Some (VStr id) ∧
    s !! "sport" = Some (VStr (MatchCreateRequest.sport create)) ∧
    s !! "team_a" = Some (VStr (MatchCreateRequest.team_a create)) ∧
    s !! "team_b" = Some (VStr (MatchCreateRequest.team_b create)) ∧
    s !! "venue" = Some (VStr (MatchCreateRequest.venue create)) ∧
    s !! "status" =
      Some (VStr (default (MatchCreateRequest.status create)
                    (MatchUpdateRequest.status patch))) ∧
    s !! "score_a" = Some (opt_str (MatchUpdateRequest.score_a patch)) ∧
    s !! "score_b" = Some (opt_str (MatchUpdateRequest.score_b patch)).
Proof.
  intros Hdb Hwf Hoid Hsport Hstatus Hpatch.
  destruct (create_match_accepted create w store Hdb Hsport Hstatus)
    as (w1 & store1 & Hrun & Hdb1 & _ & _ & _ & Hdocs1).
  assert (wf w1) as Hwf1.
  { pose proof (create_match_preserves create w Hwf) as H. by rewrite Hrun in H. }
  set (i := length (docs_of w "match")).
  assert (docs_of w1 "match" !! i = Some (match_of create w)) as Hi.
  { rewrite Hdocs1. by apply list_lookup_middle. }
  pose proof (update_match_found (Bson.ObjectId_str (next_oid w)) (next_oid w) patch
                w1 store1 i (match_of create w) (ObjectId_round_trip _ Hoid) Hdb1 Hpatch
                (wf_identified w1 "match" Hwf1) Hi eq_refl) as Hupdate.
  set (m' := updates_of patch w1 ∪ match_of create w) in *.
  destruct (updates_of_lookup patch w1 (match_of create w))
    as (Hs & Ha & Hb & _ & _ & Hk). fold m' in Hs, Ha, Hb, Hk.
  destruct (serialize_doc_oid m' (next_oid w)) as (s & Hser & Hid & _ & Hfields).
  { rewrite Hk; [done|]. rewrite !not_elem_of_cons. repeat split; try done.
    apply not_elem_of_nil. }
  rewrite Hser in Hupdate.
  eexists _, w1, s, _, m'. split; [exact Hrun|]. split; [exact Hupdate|].
  split.
  { rewrite (docs_of_set_docs_eq (tick w1) store1) by done. rewrite Hdocs1.
    unfold i. rewrite insert_app_r_alt by lia. by rewrite Nat.sub_diag. }
  split; [done|].
  assert (∀ k, k ∉ ["status"; "score_a"; "score_b"; "details"; "updated_at"] →
               k ≠ "id" → k ≠ "_id" → s !! k = iso_value <$> match_of create w !! k) as Hold.
  { intros k H1 H2 H3. by rewrite Hfields, Hk. }
  rewrite !Hold by (try done; rewrite !not_elem_of_cons; repeat split; try done;
                    apply not_elem_of_nil).
  rewrite !Hfields, Hs, Ha, Hb by done.
  repeat split; try done.
  - by destruct (MatchUpdateRequest.status patch).
  - by destruct (MatchUpdateRequest.score_a patch).
  - by destruct (MatchUpdateRequest.score_b patch).
Qed.

End match_round_trip.

(* ===================================================================== *)
(** ** Seeding *)
(* ===================================================================== *)

Section seeding.

Implicit Types (w : World) (store : Database) (d m : Doc) (docs : list Doc).

Lemma matches_by_sport (sport : string) d :
  Mongo.matches (by_sport sport) d = true ↔ d !! "sport" = Some (VStr sport).
Proof.
  unfold Mongo.matches, by_sport. rewrite map_to_list_singleton. simpl.
  rewrite andb_true_r, bson_eqb_str, bool_decide_eq_true. apply field_str.
Qed.

Lemma by_sport_truthy (sport : string) docs d :
  Mongo.find_one (by_sport sport) docs = Some d → doc_truthy (Some d) = true.
Proof.
  intros H. apply find_one_Some in H as [_ H]. apply matches_by_sport in H.
  by eapply doc_truthy_lookup.
Qed.

Lemma after_block_docs (samples : datetime → Doc * Doc) w store :
  db w = Some store →
  docs_of (after_block samples w) "match" = docs_of w "match" ++ seeded_records samples w.
Proof.
  intros Hdb. unfold docs_of, after_block. cbn. rewrite Hdb. cbn.
  by rewrite lookup_insert_eq.
Qed.

Lemma seed_block_db (sport : string) (samples : datetime → Doc * Doc) w store :
  db w = Some store → ∃ store', db (seed_block sport samples w) = Some store'.
Proof.
  intros Hdb. unfold seed_block. destruct (Mongo.find_one _ _); [eauto|].
  cbn. rewrite Hdb. eauto.
Qed.

Lemma construct_valid {A} (model : string) (valid : A → bool) (a : A) w :
  valid a = true → construct model valid a w = (Return a, w).
Proof. intros H. unfold construct. by rewrite H. Qed.

(** Two records stored one after the other, after one reading of the
    clock. *)
Lemma stored_twice (d1 d2 : Doc) w store :
  db w = Some store →
  ∃ store1,
    db (stored "match" d1 (tick w) store) = Some store1 ∧
    stored "match" d2 (stored "match" d1 (tick w) store) store1 =
    {| environ := environ w;
       db := Some (<["match" := default [] (store !! "match") ++
                      [record_of (next_oid w) (clock w (S (ticks w))) d1;
                       record_of (N.succ (next_oid w)) (clock w (S (S (ticks w)))) d2]]>
                     store);
       clock := clock w; ticks := S (S (S (ticks w)));
       next_oid := N.succ (N.succ (next_oid w)) |}.
Proof.
  intros Hdb. eexists. split; [reflexivity|].
  unfold stored, Mongo.insert_one, record_of. cbn.
  rewrite lookup_insert_eq, insert_insert_eq. cbn. by rewrite <- app_assoc.
Qed.

Ltac seed_block_run Hdb :=
  intros _; unfold bind at 1; unfold clock_read;
  unfold bind at 1; rewrite construct_valid by done;
  unfold bind at 1; rewrite (create_document_configured _ _ (tick _) _ Hdb);
  unfold bind at 1; rewrite construct_valid by done;
  lazymatch goal with
  | |- bind (create_document "match" ?d2) _ (stored "match" ?d1 (tick ?w) ?store) = _ =>
      let store1 := fresh "store" in
      let Hdb1 := fresh "Hdb" in
      let Htwice := fresh "Htwice" in
      destruct (stored_twice d1 d2 w store Hdb) as (store1 & Hdb1 & Htwice);
      unfold bind; rewrite (create_document_configured _ _ _ _ Hdb1), Htwice
  end;
  unfold ret, after_block, seeded_records; rewrite Hdb; reflexivity.

(** What [seed] does, block by block. *)
Lemma seed_run w store :
  db w = Some store →
  seed w =
  (Return {["seeded" := VBool true]},
   seed_block "indoor" indoor_samples (seed_block "cricket" cricket_samples w)).
Proof.
  intros Hdb.
  assert (∀ (sport : string) (samples : datetime → Doc * Doc) w store
            (block : M unit) B (k : unit → M B),
            db w = Some store →
            (Mongo.find_one (by_sport sport) (docs_of w "match") = None →
             block w = (Return tt, after_block samples w)) →
            bind (collection "match") (λ c,
              bind (find_one c (by_sport sport)) (λ found,
                bind (if negb (doc_truthy found) then block else ret tt) k)) w
            = k tt (seed_block sport samples w)) as Hblock.
  { clear. intros sport samples w store block B k Hdb Hrun.
    unfold bind at 1. rewrite (collection_configured _ _ _ Hdb).
    unfold bind at 1. unfold find_one at 1. unfold seed_block.
    destruct (Mongo.find_one _ _) as [d|] eqn:Hfind.
    - rewrite (by_sport_truthy _ _ _ Hfind). done.
    - unfold bind. cbn [doc_truthy negb]. by rewrite Hrun. }
  unfold seed.
  rewrite (Hblock "cricket" cricket_samples w store); [|done|seed_block_run Hdb].
  destruct (seed_block_db "cricket" cricket_samples w store Hdb) as [store1 Hdb1].
  set (w1 := seed_block "cricket" cricket_samples w) in *.
  rewrite (Hblock "indoor" indoor_samples w1 store1); [|done|seed_block_run Hdb1].
  done.
Qed.

Lemma find_one_app_l (filt : Mongo.Filter) docs docs' d :
  Mongo.find_one filt docs = Some d → Mongo.find_one filt (docs ++ docs') = Some d.
Proof.
  unfold Mongo.find_one. induction docs as [|d0 docs IH]; simpl; [done|].
  by destruct (Mongo.matches filt d0).
Qed.

Lemma find_one_app_None (filt : Mongo.Filter) docs docs' :
  Mongo.find_one filt docs = None →
  Mongo.find_one filt (docs ++ docs') = Mongo.find_one filt docs'.
Proof.
  unfold Mongo.find_one. induction docs as [|d0 docs IH]; simpl; [done|].
  by destruct (Mongo.matches filt d0).
Qed.

Lemma seed_block_docs (sport : string) (samples : datetime → Doc * Doc) w store :
  db w = Some store →
  docs_of (seed_block sport samples w) "match" =
  docs_of w "match" ++
  match Mongo.find_one (by_sport sport) (docs_of w "match") with
  | Some _ => []
  | None => seeded_records samples w
  end.
Proof.
  intros Hdb. unfold seed_block. destruct (Mongo.find_one _ _).
  - by rewrite app_nil_r.
  - by apply (after_block_docs _ _ store).
Qed.

(** Once a block has run, the sport has a match. *)
Lemma seed_block_found (sport : string) (samples : datetime → Doc * Doc) w store :
  db w = Some store →
  (∀ now, (samples now).1 !! "sport" = Some (VStr sport)) →
  is_Some (Mongo.find_one (by_sport sport) (docs_of (seed_block sport samples w) "match")).
Proof.
  intros Hdb Hsport. rewrite (seed_block_docs _ _ _ _ Hdb).
  destruct (Mongo.find_one (by_sport sport) (docs_of w "match")) as [d|] eqn:Hfind.
  - rewrite app_nil_r, Hfind. eauto.
  - rewrite (find_one_app_None _ _ _ Hfind). unfold seeded_records, Mongo.find_one.
    cbn [find]. rewrite (proj2 (matches_by_sport _ _)); [eauto|].
    unfold record_of. rewrite !lookup_insert_ne by done. apply Hsport.
Qed.

Lemma seed_block_present (sport : string) (samples : datetime → Doc * Doc) w :
  is_Some (Mongo.find_one (by_sport sport) (docs_of w "match")) →
  seed_block sport samples w = w.
Proof. intros [d Hd]. unfold seed_block. by rewrite Hd. Qed.

Lemma find_one_by_sport_Some (sport : string) docs :
  is_Some (Mongo.find_one (by_sport sport) docs) ↔
  ∃ d, In d docs ∧ d !! "sport" = Some (VStr sport).
Proof.
  split.
  - intros [d Hd]. apply find_one_Some in Hd as [Hin Hm]. exists d.
    split; [done | by apply matches_by_sport].
  - intros (d & Hin & Hd). apply (find_one_is_Some _ _ d Hin). by apply matches_by_sport.
Qed.

Lemma find_one_by_sport_None (sport : string) docs :
  Mongo.find_one (by_sport sport) docs = None ↔
  ∀ d, In d docs → d !! "sport" ≠ Some (VStr sport).
Proof.
  rewrite find_one_None. split; intros H d Hd.
  - intros Hs. apply matches_by_sport in Hs. rewrite (H d Hd) in Hs. discriminate.
  - specialize (H d Hd). destruct (Mongo.matches (by_sport sport) d) eqn:Hm; [|done].
    by apply matches_by_sport in Hm.
Qed.

(** X16. Seeding a database that holds no cricket and no indoor match
    stores four matches after the ones there, in this order: the live and
    the upcoming cricket sample, the live and the upcoming indoor sample,
    under four consecutive identifiers; the live samples start at the
    seeding times.  The answer is [{"seeded": true}]. *)
Theorem seed_adds_samples w store :
  db w = Some store →
  (∀ d, In d (docs_of w "match") → d !! "sport" ≠ Some (VStr "cricket")) →
  (∀ d, In d (docs_of w "match") → d !! "sport" ≠ Some (VStr "indoor")) →
  ∃ w' c1 c2 i1 i2,
    seed w = (Return {["seeded" := VBool true]}, w') ∧
    docs_of w' "match" = docs_of w "match" ++ [c1; c2; i1; i2] ∧
    (λ d : Doc, d !! "_id") <$> [c1; c2; i1; i2] =
      [Some (VOid (next_oid w)); Some (VOid (next_oid w + 1)%N);
       Some (VOid (next_oid w + 2)%N); Some (VOid (next_oid w + 3)%N)] ∧
    (λ d : Doc, d !! "sport") <$> [c1; c2; i1; i2] =
      [Some (VStr "cricket"); Some (VStr "cricket");
       Some (VStr "indoor"); Some (VStr "indoor")] ∧
    (λ d : Doc, d !! "team_a") <$> [c1; c2; i1; i2] =
      [Some (VStr "GBU Warriors"); Some (VStr "GBU Titans");
       Some (VStr "GBU Falcons"); Some (VStr "GBU Lions")] ∧
    (λ d : Doc, d !! "status") <$> [c1; c2; i1; i2] =
      [Some (VStr "live"); Some (VStr "upcoming");
       Some (VStr "live"); Some (VStr "upcoming")] ∧
    c1 !! "start_time" = Some (VDate (Py.DateTime.now_utc (clock w (ticks w)))) ∧
    i1 !! "start_time" = Some (VDate (Py.DateTime.now_utc (clock w (3 + ticks w)%nat))).
Proof.
  intros Hdb Hcricket Hindoor.
  apply find_one_by_sport_None in Hcricket, Hindoor.
  rewrite (seed_run w store Hdb).
  destruct (seed_block_db "cricket" cricket_samples w store Hdb) as [store1 Hdb1].
  pose proof (seed_block_docs "cricket" cricket_samples w store Hdb) as Hdocs1.
  pose proof (seed_block_docs "indoor" indoor_samples _ store1 Hdb1) as Hdocs2.
  rewrite Hdocs1, Hcricket in Hdocs2.
  rewrite (find_one_app_None _ _ _ Hindoor) in Hdocs2.
  assert (Mongo.find_one (by_sport "indoor") (seeded_records cricket_samples w) = None) as Hnone.
  { apply find_one_by_sport_None. intros d [<-|[<-|[]]]; done. }
  rewrite Hnone, <- app_assoc in Hdocs2.
  assert (seed_block "cricket" cricket_samples w = after_block cricket_samples w) as Hw1.
  { unfold seed_block. by rewrite Hcricket. }
  rewrite Hw1 in Hdocs2 at 2.
  replace (next_oid w + 1)%N with (N.succ (next_oid w)) by lia.
  replace (next_oid w + 2)%N with (N.succ (N.succ (next_oid w))) by lia.
  replace (next_oid w + 3)%N with (N.succ (N.succ (N.succ (next_oid w)))) by lia.
  eexists _, _, _, _, _. split; [reflexivity|]. split; [exact Hdocs2|].
  repeat split; reflexivity.
Qed.

(** X17. Seeding is idempotent.  When a cricket match and an indoor
    match are stored, whatever they are, [seed] changes nothing at all;
    and that is the case after any seeding, so a second seeding in a row
    leaves the state of the first. *)
Theorem seed_idempotent w store :
  db w = Some store →
  ((∃ d, In d (docs_of w "match") ∧ d !! "sport" = Some (VStr "cricket")) →
   (∃ d, In d (docs_of w "match") ∧ d !! "sport" = Some (VStr "indoor")) →
   seed w = (Return {["seeded" := VBool true]}, w)) ∧
  seed (seed w).2 = (Return {["seeded" := VBool true]}, (seed w).2).
Proof.
  intros Hdb.
  assert (∀ w store, db w = Some store →
            is_Some (Mongo.find_one (by_sport "cricket") (docs_of w "match")) →
            is_Some (Mongo.find_one (by_sport "indoor") (docs_of w "match")) →
            seed w = (Return {["seeded" := VBool true]}, w)) as Hpresent.
  { clear. intros w store Hdb Hc Hi. rewrite (seed_run w store Hdb).
    rewrite (seed_block_present "cricket" _ w Hc).
    by rewrite (seed_block_present "indoor" _ w Hi). }
  split.
  - intros Hc Hi. apply (Hpresent w store Hdb); by apply find_one_by_sport_Some.
  - rewrite (seed_run w store Hdb). cbn [snd].
    destruct (seed_block_db "cricket" cricket_samples w store Hdb) as [store1 Hdb1].
    destruct (seed_block_db "indoor" indoor_samples _ store1 Hdb1) as [store2 Hdb2].
    apply (Hpresent _ store2 Hdb2).
    + rewrite (seed_block_docs "indoor" _ _ store1 Hdb1).
      destruct (seed_block_found "cricket" cricket_samples w store Hdb) as [d Hd]; [done|].
      rewrite (find_one_app_l _ _ _ d Hd). eauto.
    + by apply (seed_block_found "indoor" indoor_samples _ store1).
Qed.

Lemma hour_range (d : datetime) : 0 <= Py.DateTime.hour d < 24.
Proof.
  unfold Py.DateTime.hour.
  pose proof (Z.mod_pos_bound (Py.DateTime.wall d) 86400000000 ltac:(lia)).
  split; [apply Z.div_pos; lia|]. apply Z.div_lt_upper_bound; lia.
Qed.

(** Moving the hour hand [k] hours on stays within the day. *)
Lemma replace_hour_ahead (d : datetime) (k : Z) :
  0 <= k < 24 →
  let d' := Py.DateTime.replace_hour d ((Py.DateTime.hour d + k) mod 24) in
  0 <= (Py.DateTime.hour d + k) mod 24 < 24 ∧
  (Py.DateTime.hour d + k < 24 → Py.DateTime.sub d' d = hours k) ∧
  (24 <= Py.DateTime.hour d + k → Py.DateTime.sub d' d = hours (k - 24)).
Proof.
  intros Hk d'. pose proof (hour_range d) as Hh.
  split; [apply Z.mod_pos_bound; lia|].
  unfold d', Py.DateTime.sub, Py.DateTime.instant, Py.DateTime.replace_hour, hours.
  cbn [Py.DateTime.wall Py.DateTime.utcoffset].
  pose proof (Z.div_mod (Py.DateTime.hour d + k) 24 ltac:(lia)) as Hdiv.
  pose proof (Z.mod_pos_bound (Py.DateTime.hour d + k) 24 ltac:(lia)) as Hmod.
  split; intros H; lia.
Qed.

(** X18. The upcoming sample does not always lie ahead.  Its start is
    the seeding time with the hour advanced by two (cricket) and taken
    modulo 24 on the same day: two hours after the seeding when that is
    before 22:00, and 22 hours before it otherwise. *)
Theorem seed_upcoming_start_time w store :
  db w = Some store →
  (∀ d, In d (docs_of w "match") → d !! "sport" ≠ Some (VStr "cricket")) →
  let now := Py.DateTime.now_utc (clock w (ticks w)) in
  ∃ upcoming start,
    docs_of (seed w).2 "match" !! S (length (docs_of w "match")) = Some upcoming ∧
    upcoming !! "team_a" = Some (VStr "GBU Titans") ∧
    upcoming !! "status" = Some (VStr "upcoming") ∧
    upcoming !! "start_time" = Some (VDate start) ∧
    (Py.DateTime.hour now < 22 → Py.DateTime.sub start now = hours 2) ∧
    (22 <= Py.DateTime.hour now → Py.DateTime.sub start now = hours (-22)).
Proof.
  intros Hdb Hcricket now. apply find_one_by_sport_None in Hcricket.
  rewrite (seed_run w store Hdb). cbn [snd].
  destruct (seed_block_db "cricket" cricket_samples w store Hdb) as [store1 Hdb1].
  rewrite (seed_block_docs "indoor" indoor_samples _ store1 Hdb1).
  rewrite (seed_block_docs "cricket" cricket_samples w store Hdb), Hcricket.
  destruct (replace_hour_ahead now 2) as (_ & Hearly & Hlate); [lia|].
  eexists _, _. split.
  { rewrite <- app_assoc. rewrite lookup_app_r by lia.
    replace (S (length (docs_of w "match")) - length (docs_of w "match"))%nat with 1%nat by lia.
    reflexivity. }
  split; [done|]. split; [done|]. split; [reflexivity|].
  split; intros H; [apply Hearly | apply Hlate]; lia.
Qed.

End seeding.

(* ===================================================================== *)
(** ** Diagnostics, serialization and the invariant, continued *)
(* ===================================================================== *)

Section diagnostics.

Implicit Types (w : World) (store : Database) (s : string).

Lemma str_len_app s1 s2 : Py.str_len (s1 +:+ s2) = (Py.str_len s1 + Py.str_len s2)%nat.
Proof.
  induction s1 as [|c s1 IH]; [done|]. simpl. rewrite IH.
  destruct (Py.continuation c); lia.
Qed.

Lemma str_len_take (n : nat) s : (Py.str_len (Py.str_take n s) <= n)%nat.
Proof.
  revert n. induction s as [|c s IH]; intros n; cbn [Py.str_take Py.str_len]; [lia|].
  destruct (Py.continuation c) eqn:Hc.
  - cbn [Py.str_len]. rewrite Hc. apply IH.
  - destruct n as [|n]; cbn [Py.str_len]; [lia|]. rewrite Hc. specialize (IH n). lia.
Qed.

(** A slice that is long enough is the text itself. *)
Lemma str_take_all (n : nat) s : (Py.str_len s <= n)%nat → Py.str_take n s = s.
Proof.
  revert n. induction s as [|c s IH]; intros n; cbn [Py.str_take Py.str_len]; [done|].
  destruct (Py.continuation c).
  - intros H. by rewrite IH.
  - destruct n as [|n]; [lia|]. intros H. rewrite IH; [done | lia].
Qed.

Lemma opt_str_truthy_env (name : string) w :
  py_truthy (opt_str (os_getenv_opt name w)) = true ↔ env_set name w.
Proof.
  unfold os_getenv_opt, env_set. destruct (environ w !! name) as [v|]; cbn [opt_str].
  - rewrite str_truthy. split; [eauto|]. by intros (v' & [= <-] & ?).
  - split; [done|]. by intros (v' & [=] & _).
Qed.

(** X19. The diagnostic route never fails and changes nothing.  It
    always reports the backend as running; a variable of the environment
    counts as set only when its text is not empty; without a database
    object it reports "Not Available", "Not Connected" and no
    collections; with one it reports "Connected" even when listing the
    collections raised, in which case the [database] entry is the error
    mark followed by at most 80 characters of the exception's text. *)
Theorem test_database_report (list_collection_names : Database → string + list string) w :
  ∃ r,
    test_database list_collection_names w = (Return r, w) ∧
    TestResponse.backend r = "✅ Running" ∧
    (TestResponse.database_url r = "✅ Set" ↔ env_set "DATABASE_URL" w) ∧
    (TestResponse.database_name r = "✅ Set" ↔ env_set "DATABASE_NAME" w) ∧
    match db w with
    | None =>
        TestResponse.database r = "❌ Not Available" ∧
        TestResponse.connection_status r = "Not Connected" ∧
        TestResponse.collections r = []
    | Some store =>
        TestResponse.connection_status r = "Connected" ∧
        match list_collection_names store with
        | inr names =>
            TestResponse.database r = "✅ Connected & Working" ∧
            TestResponse.collections r = names
        | inl text =>
            TestResponse.database r = "⚠️ Error: " +:+ Py.str_take 80 text ∧
            (Py.str_len (TestResponse.database r) <= 90)%nat ∧
            ((Py.str_len text <= 80)%nat →
             TestResponse.database r = "⚠️ Error: " +:+ text) ∧
            TestResponse.collections r = []
        end
    end.
Proof.
  assert (∀ name (r : TestResponse.t) (f : TestResponse.t → string),
            f r = (if py_truthy (opt_str (os_getenv_opt name w)) then "✅ Set" else "❌ Not Set") →
            f r = "✅ Set" ↔ env_set name w) as Hset.
  { intros name r f ->. rewrite <- opt_str_truthy_env.
    by destruct (py_truthy _). }
  unfold test_database, bind, gets, ret.
  destruct (db w) as [store|]; [destruct (list_collection_names store) as [text|names]|];
    eexists; (split; [reflexivity|]); (split; [reflexivity|]);
    (split; [by apply (Hset _ _ TestResponse.database_url)|]);
    (split; [by apply (Hset _ _ TestResponse.database_name)|]).
  - cbn [TestResponse.database TestResponse.connection_status TestResponse.collections
         TestResponse.set_database TestResponse.set_connection_status].
    split; [done|]. split; [done|]. split; [|split; [|done]].
    + rewrite str_len_app. pose proof (str_len_take 80 text).
      change (Py.str_len "⚠️ Error: ") with 10%nat. lia.
    + intros H. by rewrite str_take_all.
  - done.
  - done.
Qed.

End diagnostics.

Section serialization_more.

(** X20. A serialized record holds no datetime: every datetime of the
    record has become a text. *)
Theorem serialize_doc_no_datetime (doc : option Doc) (s : Doc) (k : string) (v : value) :
  serialize_doc doc = Some s → s !! k = Some v → ∀ t, v ≠ VDate t.
Proof.
  intros Hs Hk t ->. destruct doc as [d|]; [|done].
  assert (∃ d' : Doc, s = iso_value <$> d') as [d' ->].
  { unfold serialize_doc in Hs. destruct (doc_truthy (Some d)) eqn:Hd; cbn [negb] in Hs.
    - injection Hs as <-. eauto.
    - injection Hs as <-. apply doc_truthy_false in Hd as ->. exists ∅.
      by rewrite fmap_empty. }
  rewrite lookup_fmap in Hk. destruct (d' !! k) as [[]|]; done.
Qed.

End serialization_more.

Ltac preserves_step :=
  lazymatch goal with
  | |- preserves (bind _ _) => apply preserves_bind; [|intros ?]
  | |- preserves (ret _) => apply preserves_ret
  | |- preserves (raise _) => apply preserves_raise
  | |- preserves (gets _) => apply preserves_gets
  | |- preserves (construct _ _ _) => apply preserves_construct
  | |- preserves (collection _) => apply preserves_collection
  | |- preserves (find_one _ _) => apply preserves_find_one
  | |- preserves (find_one_desc _ _ _) => apply preserves_find_one_desc
  | |- preserves (subscript _ _) => apply preserves_subscript
  | |- preserves clock_read => apply preserves_clock_read
  | |- preserves (get_documents _ _ _) => apply preserves_get_documents
  | |- preserves (create_document _ _) => apply preserves_create_document
  | |- preserves (if ?b then _ else _) => destruct b
  | |- preserves (match ?x with _ => _ end) => destruct x
  end.

Section invariant_more.

Lemma seed_preserves : preserves seed.
Proof. unfold seed. repeat preserves_step. Qed.

Lemma test_database_preserves (list_collection_names : Database → string + list string) :
  preserves (test_database list_collection_names).
Proof.
  unfold test_database. repeat preserves_step.
Qed.

(** X21. Every handler keeps the store well formed: in every
    collection the records carry identifiers, no two the same, all of
    them below the next identifier to be handed out, and every record
    carries its insertion timestamp.  This holds whether the handler
    returns or raises, and it holds of the empty store. *)
Theorem handlers_keep_wf :
  (∀ env clk n o,
     wf {| environ := env; db := Some ∅; clock := clk; ticks := n; next_oid := o |}) ∧
  preserves root ∧
  (∀ listing, preserves (test_database listing)) ∧
  (∀ req, preserves (register req)) ∧
  (∀ req, preserves (login req)) ∧
  (∀ email, preserves (profile email)) ∧
  (∀ req, preserves (create_membership req)) ∧
  (∀ email, preserves (get_membership email)) ∧
  (∀ req, preserves (create_payment req)) ∧
  (∀ sport status limit, preserves (list_matches sport status limit)) ∧
  (∀ req, preserves (create_match req)) ∧
  (∀ match_id req, preserves (update_match match_id req)) ∧
  preserves seed.
Proof.
  repeat lazymatch goal with |- _ ∧ _ => split end; intros.
  - apply wf_empty.
  - apply preserves_ret.
  - apply test_database_preserves.
  - apply register_preserves.
  - apply login_preserves.
  - apply profile_preserves.
  - apply create_membership_preserves.
  - apply get_membership_preserves.
  - apply create_payment_preserves.
  - apply list_matches_preserves.
  - apply create_match_preserves.
  - apply update_match_preserves.
  - apply seed_preserves.
Qed.

(** X22. Without a configured database the handlers that begin with
    [collection(...)] answer 500 "Database not configured" and change
    nothing; [update_match], which reads the clock first, has read it
    once. *)
Theorem handlers_without_database w :
  db w = None →
  (∀ req, register req w = (Raise unavailable, w)) ∧
  (∀ req, login req w = (Raise unavailable, w)) ∧
  (∀ email, profile email w = (Raise unavailable, w)) ∧
  (∀ req, create_membership req w = (Raise unavailable, w)) ∧
  (∀ email, get_membership email w = (Raise unavailable, w)) ∧
  seed w = (Raise unavailable, w) ∧
  (∀ match_id req, hex24 match_id → req ≠ empty_patch →
     update_match match_id req w = (Raise unavailable, tick w)) ∧
  http_status (@Raise Doc unavailable) = 500.
Proof.
  intros Hdb.
  repeat lazymatch goal with |- _ ∧ _ => split end; try intros ?;
    try (unfold register, login, profile, create_membership, get_membership, seed, bind;
         by rewrite (collection_unconfigured _ _ Hdb)).
  - intros req Hid Hreq. apply ObjectId_of_str_Some in Hid as [oid Hoid].
    unfold update_match. rewrite Hoid, (updates_of_truthy req Hreq). cbn [negb].
    unfold bind, clock_read. by rewrite (collection_unconfigured _ (tick w)).
  - done.
Qed.

End invariant_more.

(* ===================================================================== *)
(** ** Further scenarios, evaluated *)
(* ===================================================================== *)

Section scenario_more.

#[local] Opaque Py.SHA256.hexdigest.

Lemma register_then_login_witness :
  let w1 := (register alice_registers fresh_world).2 in
  login (LoginRequest.mk alice "pw1") w1 =
    (Return (<["token" := VStr (hash_password alice (SECRET fresh_world))]>
            (<["email" := VStr alice]> (<["name" := VStr "Alice"]> ∅))), w1).
Proof.
  destruct (register_then_login alice_registers fresh_world ∅) as [_ H].
  - reflexivity.
  - intros d [].
  - exact H.
Defined.

Lemma register_then_profile_witness :
  let w1 := (register alice_registers fresh_world).2 in
  ∃ s, profile alice w1 = (Return (Some s), w1) ∧
       s !! "id" = Some (VStr "000000000000000000000001") ∧
       s !! "name" = Some (VStr "Alice") ∧
       s !! "password_hash" = None.
Proof.
  destruct (register_then_profile alice_registers fresh_world ∅)
    as (resp & s & _ & Hrun & _ & Hid & Hname & _ & _ & _ & _ & Hhash & _).
  - reflexivity.
  - intros d [].
  - exists s. split; [exact Hrun|]. split; [exact Hid|]. split; [exact Hname | exact Hhash].
Defined.

Lemma handlers_without_database_witness :
  seed unconfigured_world = (Raise unavailable, unconfigured_world) ∧
  update_match "65a1b2c3d4e5f60718293a4b" final_score unconfigured_world =
    (Raise unavailable, tick unconfigured_world).
Proof.
  destruct (handlers_without_database unconfigured_world eq_refl)
    as (_ & _ & _ & _ & _ & Hseed & Hupdate & _).
  split; [exact Hseed|]. apply Hupdate; [|discriminate].
  apply ObjectId_of_str_Some. by eexists.
Defined.

Lemma create_membership_checks_plan_witness :
  create_membership (GymPlanRequest.mk alice "weekly") fresh_world =
    (Raise (ValidationError "Gymmembership"), fresh_world).
Proof.
  destruct (create_membership_checks_plan (GymPlanRequest.mk alice "weekly") fresh_world ∅)
    as [_ H].
  - reflexivity.
  - intros d [].
  - apply H. apply (bool_decide_unpack _). by vm_compute.
Defined.

Lemma get_membership_after_payment_witness :
  ∃ resp,
    (create_payment alice_pays pending_world).1 = Return resp ∧
    get_membership alice (create_payment alice_pays pending_world).2 =
      (Return (membership resp), (create_payment alice_pays pending_world).2).
Proof.
  destruct (get_membership_after_payment alice_pays pending_world
              (membership_of_alice "pending"))
    as (resp & m' & Hrun & _ & _ & Hget).
  - reflexivity.
  - apply wf_identified, pending_world_wf.
  - left. reflexivity.
  - reflexivity.
  - exists resp. split; [exact Hrun | exact Hget].
Defined.

Lemma create_membership_then_get_witness :
  let w1 := (create_membership (GymPlanRequest.mk alice "monthly") fresh_world).2 in
  ∃ s, get_membership alice w1 = (Return (Some s), w1) ∧
       s !! "id" = Some (VStr "000000000000000000000001") ∧
       s !! "status" = Some (VStr "pending").
Proof.
  destruct (create_membership_then_get (GymPlanRequest.mk alice "monthly") fresh_world ∅)
    as (resp & s & _ & Hget & _ & Hid & _ & _ & Hstatus).
  - reflexivity.
  - apply (bool_decide_unpack _). by vm_compute.
  - intros d [].
  - intros d t [].
  - exists s. split; [exact Hget|]. split; [exact Hid | exact Hstatus].
Defined.

Lemma create_payment_records_witness :
  ∃ rec,
    docs_of (create_payment alice_pays pending_world).2 "payment" = [rec] ∧
    rec !! "status" = Some (VStr "success") ∧
    rec !! "reference" = Some (VStr "REF-1704067201").
Proof.
  destruct (create_payment_records alice_pays pending_world (membership_store "pending")
              eq_refl) as [H _].
  destruct (H eq_refl) as (rec & Hdocs & _ & _ & _ & _ & _ & Hstatus & _ & Href).
  exists rec. split; [exact Hdocs|]. split; [exact Hstatus|].
  exact (Href (or_introl eq_refl)).
Defined.

Lemma update_match_not_stored_witness :
  update_match "65a1b2c3d4e5f60718293a4b" final_score fresh_world =
    (Return None, tick fresh_world).
Proof.
  destruct (update_match_not_stored "65a1b2c3d4e5f60718293a4b"
              31453467242603790624579205707%N final_score fresh_world ∅) as [H _].
  - reflexivity.
  - reflexivity.
  - discriminate.
  - intros d [].
  - exact H.
Defined.

Lemma seeded_world_wf : wf seeded_world.
Proof. apply seed_preserves, wf_empty. Qed.

Lemma update_match_sets_fields_witness :
  ∃ m' w',
    update_match "000000000000000000000001" final_score seeded_world =
      (Return (serialize_doc (Some m')), w') ∧
    m' !! "team_a" = Some (VStr "GBU Warriors") ∧
    m' !! "status" = Some (VStr "finished") ∧
    m' !! "score_a" = Some (VStr "120/3") ∧
    m' !! "score_b" = Some VNone.
Proof.
  destruct (update_match_sets_fields "000000000000000000000001" 1%N final_score
              seeded_world 0
              (record_of 1%N (example_clock 1)
                 (cricket_samples (Py.DateTime.now_utc (example_clock 0))).1))
    as (m' & w' & Hrun & _ & Hstatus & Ha & Hb & _ & _ & Hk).
  - reflexivity.
  - discriminate.
  - apply wf_identified, seeded_world_wf.
  - reflexivity.
  - reflexivity.
  - exists m', w'. split; [exact Hrun|]. split; [|split; [exact Hstatus|split; [exact Ha | exact Hb]]].
    rewrite Hk; [reflexivity|]. apply (bool_decide_unpack _). by vm_compute.
Defined.

Lemma create_match_then_update_witness :
  ∃ id w1 s w2,
    create_match friendly fresh_world = (Return {["id" := VStr id]}, w1) ∧
    update_match id final_score w1 = (Return (Some s), w2) ∧
    s !! "id" = Some (VStr id) ∧
    s !! "status" = Some (VStr "finished").
Proof.
  destruct (create_match_then_update friendly final_score fresh_world ∅)
    as (id & w1 & s & w2 & m' & Hcreate & Hupdate & _ & Hid & _ & _ & _ & _ & Hstatus & _).
  - reflexivity.
  - apply wf_empty.
  - reflexivity.
  - apply (bool_decide_unpack _). by vm_compute.
  - apply (bool_decide_unpack _). by vm_compute.
  - discriminate.
  - exists id, w1, s, w2. split; [exact Hcreate|]. split; [exact Hupdate|].
    split; [exact Hid | exact Hstatus].
Defined.

Lemma seed_adds_samples_witness :
  ∃ w', seed fresh_world = (Return {["seeded" := VBool true]}, w') ∧
        length (docs_of w' "match") = 4%nat.
Proof.
  destruct (seed_adds_samples fresh_world ∅)
    as (w' & c1 & c2 & i1 & i2 & Hrun & Hdocs & _).
  - reflexivity.
  - intros d [].
  - intros d [].
  - exists w'. split; [exact Hrun|]. by rewrite Hdocs.
Defined.

Lemma seed_idempotent_witness :
  seed seeded_world = (Return {["seeded" := VBool true]}, seeded_world).
Proof. exact (proj2 (seed_idempotent fresh_world ∅ eq_refl)). Defined.

(** Seeded at 23:00, the upcoming cricket match starts at 01:00 of the
    same day. *)
Lemma seed_upcoming_start_time_witness :
  ∃ upcoming start,
    docs_of (seed late_world).2 "match" !! 1%nat = Some upcoming ∧
    upcoming !! "status" = Some (VStr "upcoming") ∧
    upcoming !! "start_time" = Some (VDate start) ∧
    Py.DateTime.sub start (Py.DateTime.now_utc (clock late_world 0)) = hours (-22).
Proof.
  destruct (seed_upcoming_start_time late_world ∅)
    as (upcoming & start & Hi & _ & Hstatus & Hstart & _ & Hlate).
  - reflexivity.
  - intros d [].
  - exists upcoming, start. split; [exact Hi|]. split; [exact Hstatus|].
    split; [exact Hstart|]. apply Hlate. apply Z.leb_le. reflexivity.
Defined.

Lemma serialize_doc_no_datetime_witness :
  ∃ s, serialize_doc (Some (membership_of_alice "pending")) = Some s ∧
       s !! "created_at" = Some (VStr "2024-01-01T00:00:00+00:00") ∧
       VStr "2024-01-01T00:00:00+00:00" ≠ VDate (Py.DateTime.now_utc (example_clock 0)).
Proof.
  eexists. split; [reflexivity|]. split; [reflexivity|].
  eapply (serialize_doc_no_datetime (Some (membership_of_alice "pending")) _ "created_at");
    reflexivity.
Defined.

Lemma profile_hides_password_hash_witness :
  is_Some (user_alice !! "password_hash") ∧
  ∃ s, (profile alice registered_world).1 = Return (Some s) ∧
       s !! "password_hash" = None ∧
       s !! "email" = Some (VStr alice).
Proof.
  split; [by eexists|].
  destruct (profile_hides_password_hash alice registered_world) as (_ & Hret & _).
  destruct (Hret (serialize_doc (Some (delete "password_hash" user_alice))) eq_refl)
    as (u & s & _ & Hr & Hhash & Hemail & _).
  exists s. split; [by rewrite <- Hr|]. split; [exact Hhash | exact Hemail].
Defined.

Lemma get_membership_latest_witness :
  ∃ m, get_membership alice pending_world =
         (Return (serialize_doc (Some m)), pending_world) ∧
       m !! "email" = Some (VStr alice).
Proof.
  destruct (get_membership_latest alice pending_world) as (_ & Hfound & _).
  destruct (Hfound (membership_of_alice "pending")) as (m & _ & Hemail & Hrun & _).
  - left. reflexivity.
  - reflexivity.
  - exists m. split; [exact Hrun | exact Hemail].
Defined.

Lemma handlers_write_their_collections_witness :
  docs_of (create_payment alice_pays pending_world).2 "user" = docs_of pending_world "user" ∧
  docs_of (seed registered_world).2 "user" = [user_alice].
Proof.
  destruct (handlers_write_their_collections "user" pending_world)
    as (_ & _ & _ & _ & _ & Hpay & _).
  destruct (handlers_write_their_collections "user" registered_world)
    as (_ & _ & _ & _ & _ & _ & _ & _ & _ & Hseed).
  split; [by apply Hpay | by apply Hseed].
Defined.

Lemma handlers_keep_one_membership_each_witness :
  one_membership_each
    (docs_of (create_payment alice_pays
                (create_membership (GymPlanRequest.mk alice "monthly") fresh_world).2).2
       "gymmembership").
Proof.
  destruct handlers_keep_one_membership_each
    as (Hnil & _ & _ & _ & Hcreate & _ & Hpay & _).
  apply Hpay, Hcreate. exact Hnil.
Defined.

(** The model is checked before the database is looked for. *)
Lemma create_match_validates_witness :
  create_match
    {| MatchCreateRequest.sport := "chess"; MatchCreateRequest.team_a := "A";
       MatchCreateRequest.team_b := "B"; MatchCreateRequest.venue := "Hall";
       MatchCreateRequest.start_time := Py.DateTime.now_utc (example_clock 0);
       MatchCreateRequest.status := "upcoming"; MatchCreateRequest.details := None |}
    unconfigured_world
  = (Raise (ValidationError "Match"), unconfigured_world).
Proof.
  apply create_match_validates. intros [H _].
  apply (bool_decide_pack _) in H. by vm_compute in H.
Defined.


(** The listing fails, and the report still says "Connected". *)
Lemma test_database_report_witness :
  ∃ r, test_database (λ _, inl "timed out") fresh_world = (Return r, fresh_world) ∧
       TestResponse.connection_status r = "Connected" ∧
       TestResponse.database r = "⚠️ Error: timed out" ∧
       TestResponse.database_url r = "❌ Not Set".
Proof.
  destruct (test_database_report (λ _, inl "timed out") fresh_world)
    as (r & Hrun & _ & _ & _ & Hdb).
  exists r. split; [exact Hrun|].
  assert ((test_database (λ _, inl "timed out") fresh_world).1 = Return r) as Hr
    by (by rewrite Hrun).
  destruct Hdb as (Hconn & Hdatabase & _ & _ & _).
  split; [exact Hconn|]. split; [exact Hdatabase|].
  assert (Return {| TestResponse.backend := "✅ Running";
                    TestResponse.database := "⚠️ Error: timed out";
                    TestResponse.database_url := "❌ Not Set";
                    TestResponse.database_name := "❌ Not Set";
                    TestResponse.connection_status := "Connected";
                    TestResponse.collections := [] |} = Return r) as [= <-] by exact Hr.
  reflexivity.
Defined.

Lemma handlers_keep_wf_witness :
  wf (create_payment alice_pays pending_world).2 ∧ wf (seed fresh_world).2.
Proof.
  destruct handlers_keep_wf
    as (Hempty & _ & _ & _ & _ & _ & _ & _ & Hpay & _ & _ & _ & Hseed).
  split; [apply Hpay, pending_world_wf | apply Hseed, Hempty].
Defined.

End scenario_more.
